(** * PhishGuard backend: heuristic analysis engine and feedback scoring

    A shallow embedding of [backend_app.py]: the rule-based analysis
    ([analyze_payload] and its helpers), the three stateful endpoints
    ([analyze], [feedback], [userscores]) over the two SQLite tables, and
    the properties of the design document that concern them.

    Python [float] is IEEE 754 binary64; scores are modelled with the
    Standard Library's [spec_float] at precision 53 and maximal exponent
    1024, so every sum, product, quotient and comparison below rounds the
    way the interpreter does. *)

From Stdlib Require Import ZArith List String Ascii Bool Lia Permutation.
From Stdlib Require Import DecimalString.
From Stdlib Require Import Sorted.
From Stdlib Require Import Floats.SpecFloat.
Import ListNotations.

Local Open Scope Z_scope.

(** ** Binary64 arithmetic *)

Module F64.

Definition prec : Z := 53.
Definition emax : Z := 1024.

Definition float := spec_float.

Definition add : float -> float -> float := SFadd prec emax.
Definition mul : float -> float -> float := SFmul prec emax.
Definition div : float -> float -> float := SFdiv prec emax.
Definition ltb : float -> float -> bool := SFltb.
Definition leb : float -> float -> bool := SFleb.

(** [a > b] and [a >= b] as Python evaluates them (false on NaN). *)
Definition gtb (a b : float) : bool := ltb b a.
Definition geb (a b : float) : bool := leb b a.

(** Conversion of a Python [int] to the nearest binary64 value. *)
Definition of_Z (z : Z) : float := binary_normalize prec emax z 0 false.

(** The binary64 value denoted by the decimal literal [n/d]: the
    quotient of two exactly representable integers, correctly rounded. *)
Definition dec (n d : Z) : float := div (of_Z n) (of_Z d).

(** Integer [/] integer (Python true division): the exact quotient,
    correctly rounded; [None] stands for ZeroDivisionError. *)
Definition int_truediv (a b : Z) : option float :=
  match a, b with
  | _, Z0 => None
  | Z0, _ => Some (S754_zero false)
  | _, _ =>
      Some (div (S754_finite (a <? 0) (Z.to_pos (Z.abs a)) 0)
                (S754_finite (b <? 0) (Z.to_pos (Z.abs b)) 0))
  end.

(** [int(x)]: truncation toward zero; [None] stands for the
    OverflowError / ValueError raised on infinities and NaN. *)
Definition to_int (x : float) : option Z :=
  match x with
  | S754_zero _ => Some 0
  | S754_finite s m e =>
      let a := match e with
               | Zneg p => Z.pos m / 2 ^ Z.pos p
               | _ => Z.pos m * 2 ^ e
               end in
      Some (if s then - a else a)
  | _ => None
  end.

(** Nearest integer to [n/d] ([d > 0]), ties to even. *)
Definition nearest_even (n d : Z) : Z :=
  let q := n / d in
  let r := n mod d in
  match 2 * r ?= d with
  | Lt => q
  | Gt => q + 1
  | Eq => if Z.even q then q else q + 1
  end.

(** The integer nearest to [100 * |x|] for the exact value of [x]. *)
Definition hundredths (m : positive) (e : Z) : Z :=
  match e with
  | Zneg p => nearest_even (100 * Z.pos m) (2 ^ Z.pos p)
  | _ => 100 * Z.pos m * 2 ^ e
  end.

(** [round(x, 2)]: the exact binary value is rounded half-even to two
    decimals, and that decimal is converted back to the nearest double. *)
Definition round2 (x : float) : float :=
  match x with
  | S754_finite s m e =>
      match hundredths m e with
      | Zpos k => div (S754_finite s k 0) (S754_finite false 100 0)
      | _ => S754_zero s
      end
  | _ => x
  end.

(** [min(a, b)] of two floats: Python keeps [a] unless [b < a]. *)
Definition min (a b : float) : float := if ltb b a then b else a.

(** The literals of the source. *)
Definition zero : float := S754_zero false.
Definition one : float := S754_finite false 4503599627370496 (-52).
Definition f0_05 : float := S754_finite false 7205759403792794 (-57).
Definition f0_10 : float := S754_finite false 7205759403792794 (-56).
Definition f0_15 : float := S754_finite false 5404319552844595 (-55).
Definition f0_20 : float := S754_finite false 7205759403792794 (-55).
Definition f0_3 : float := S754_finite false 5404319552844595 (-54).
Definition f0_4 : float := S754_finite false 7205759403792794 (-54).
Definition f0_6 : float := S754_finite false 5404319552844595 (-53).
Definition f100 : float := S754_finite false 7036874417766400 (-46).

End F64.

(** ** The values of the running score

    Structural equality of binary64 values. *)
Definition sf_eqb (x y : F64.float) : bool :=
  match x, y with
  | S754_zero a, S754_zero b => Bool.eqb a b
  | S754_infinity a, S754_infinity b => Bool.eqb a b
  | S754_nan, S754_nan => true
  | S754_finite a m e, S754_finite b n f =>
      Bool.eqb a b && Pos.eqb m n && Z.eqb e f
  | _, _ => false
  end.

(** The canonical values from 2.0 upwards, infinity included. *)
Definition is_big (x : F64.float) : bool :=
  match x with
  | S754_infinity false => true
  | S754_finite false m e => bounded F64.prec F64.emax m e && (-51 <=? e)
  | _ => false
  end.

(** The weights a rule can add to the score. *)
Definition weights : list F64.float :=
  [F64.f0_05; F64.f0_10; F64.f0_15; F64.f0_20; F64.f0_4].

Definition mem (x : F64.float) (l : list F64.float) : bool :=
  existsb (sf_eqb x) l.

(** The sums the analysis can reach below 2.0: every weight is added to
    every value already found until nothing new stays under the bound. *)
Fixpoint add_new (seen new : list F64.float) : list F64.float :=
  match new with
  | [] => []
  | y :: r =>
      if is_big y || mem y seen then add_new seen r
      else y :: add_new (y :: seen) r
  end.

Fixpoint closure (fuel : nat) (seen frontier : list F64.float)
  : list F64.float :=
  match fuel with
  | O => seen
  | S n =>
      let next :=
        add_new seen
          (flat_map (fun x => map (F64.add x) weights) frontier) in
      match next with
      | [] => seen
      | _ => closure n (seen ++ next) next
      end
  end.

Definition small_scores : list F64.float :=
  Eval vm_compute in closure 200 [F64.zero] [F64.zero].

(** ** Strings

    A Python [str] is modelled as a sequence of ASCII characters. *)

Local Open Scope string_scope.
Local Open Scope Z_scope.

Definition lower_ascii (c : ascii) : ascii :=
  let n := nat_of_ascii c in
  if (65 <=? n)%nat && (n <=? 90)%nat then ascii_of_nat (n + 32)%nat else c.

(** [s.lower()] *)
Fixpoint lower (s : string) : string :=
  match s with
  | EmptyString => EmptyString
  | String c r => String (lower_ascii c) (lower r)
  end.

(** [s.startswith(p)] *)
Definition startswith (s p : string) : bool := String.prefix p s.

(** [k in s] *)
Fixpoint contains (k s : string) : bool :=
  String.prefix k s ||
  match s with
  | EmptyString => false
  | String _ r => contains k r
  end.

Definition nonempty (s : string) : bool :=
  match s with EmptyString => false | _ => true end.

(** [str(n)] for a non-negative integer. *)
Definition str_of_nat (n : nat) : string :=
  DecimalString.NilZero.string_of_uint (Nat.to_uint n).

(** The decimal digits of ASCII text. *)
Definition is_digit (c : ascii) : bool :=
  let n := nat_of_ascii c in (48 <=? n)%nat && (n <=? 57)%nat.

(** Whitespace as the [\s] class sees it on ASCII text. *)
Definition is_space (c : ascii) : bool :=
  let n := nat_of_ascii c in
  ((9 <=? n)%nat && (n <=? 13)%nat) ||
  ((28 <=? n)%nat && (n <=? 32)%nat).

(** Longest prefix of characters satisfying [p], and the rest. *)
Fixpoint span (p : ascii -> bool) (s : string) : string * string :=
  match s with
  | EmptyString => (EmptyString, EmptyString)
  | String c r =>
      if p c then let '(a, b) := span p r in (String c a, b)
      else (EmptyString, s)
  end.

Fixpoint drop (n : nat) (s : string) : string :=
  match n, s with
  | O, _ => s
  | S k, String _ r => drop k r
  | S _, EmptyString => EmptyString
  end.

(** ** Analysis logic *)

Definition SUSPICIOUS_KEYWORDS : list string :=
  ["urgent"; "verify"; "verify your"; "login"; "password"; "update";
   "confirm"; "bank"; "account"; "click"; "suspend"; "limited"; "secure";
   "authentication"].

Definition POPULAR_BRANDS : list string :=
  ["google"; "microsoft"; "amazon"; "paypal"; "apple"; "facebook"; "aws";
   "netflix"].

(** The negated character class of the URL pattern: anything but
    whitespace, the two quote characters, parentheses and angle brackets. *)
Definition url_char (c : ascii) : bool :=
  negb (is_space c) &&
  negb (existsb (Ascii.eqb c) ["'"; "034"; ")"; "("; "<"; ">"]%char).

(** A match of the URL pattern anchored at the start of [s]: the scheme
    [http://] or [https://], then one or more characters of the class. *)
Definition match_url_here (s : string) : option string :=
  let try_scheme (scheme : string) :=
    if String.prefix scheme s then
      match span url_char (drop (String.length scheme) s) with
      | (EmptyString, _) => None
      | (body, _) => Some (scheme ++ body)
      end
    else None in
  match try_scheme "https://" with
  | Some m => Some m
  | None => try_scheme "http://"
  end.

(** [re.findall]: leftmost matches, scanning resumes after each match.
    [skip] counts the characters of the last match still to pass over. *)
Fixpoint findall_urls (skip : nat) (s : string) : list string :=
  match s with
  | EmptyString => []
  | String _ r =>
      match skip with
      | S k => findall_urls k r
      | O =>
          match match_url_here s with
          | Some m => m :: findall_urls (String.length m - 1)%nat r
          | None => findall_urls 0 r
          end
      end
  end.

(** What a [requests.get] call can produce: an exception, or a response
    with its status code and the number of redirects followed. *)
Inductive response : Type :=
  | Raised
  | Resp (status_code : Z) (history : nat).

(** The network as seen by one analysis: the outcome of the [n]-th
    request (counted from 0) for the URL requested. *)
Definition network := nat -> string -> response.

(** The two attributes of [tldextract.extract(url)] the code reads. *)
Record ExtractResult := {
  domain : string;
  registered_domain : string
}.

(** Accumulators of [analyze_payload], with the requests issued so far. *)
Record astate := {
  score : F64.float;
  reasons : list string;
  requests : list string
}.

Definition add_reason (st : astate) (r : string) (w : F64.float) : astate :=
  {| score := F64.add (score st) w;
     reasons := reasons st ++ [r];
     requests := requests st |}.

(** [requests.get(url, ...)]: the request is recorded and answered by
    the network. *)
Definition requests_get (net : network) (st : astate) (url : string)
  : response * astate :=
  (net (List.length (requests st)) url,
   {| score := score st; reasons := reasons st;
      requests := requests st ++ [url] |}).

Definition is_https (url : string) : bool :=
  startswith (lower url) "https://".

(** [re.sub] of the leading scheme by the empty string. *)
Definition strip_scheme (url : string) : string :=
  if String.prefix "https://" url then drop 8 url
  else if String.prefix "http://" url then drop 7 url
  else url.

(** First component of [s] split at the slashes. *)
Fixpoint before_slash (s : string) : string :=
  match s with
  | EmptyString => EmptyString
  | String c r => if Ascii.eqb c "/" then EmptyString else String c (before_slash r)
  end.

(** [\d+] followed by a dot, [n] times, then [\d+] and the end of the
    string ([$] also accepts one final newline). *)
Fixpoint dotted (n : nat) (s : string) : bool :=
  match span is_digit s with
  | (EmptyString, _) => false
  | (_, rest) =>
      match n with
      | O =>
          match rest with
          | EmptyString => true
          | String c EmptyString => Ascii.eqb c "010"
          | _ => false
          end
      | S k =>
          match rest with
          | String c r => Ascii.eqb c "." && dotted k r
          | EmptyString => false
          end
      end
  end.

Definition has_ip_hostname (url : string) : bool :=
  let host := before_slash (strip_scheme url) in
  dotted 3 host.

(** [check_ssl_certificate]'s body after the request. *)
Definition ssl_result (r : response) : option bool :=
  match r with
  | Resp status_code _ => Some (status_code <? 500)
  | Raised => Some false
  end.

Definition verdict_of (s : F64.float) : string :=
  if F64.geb s F64.f0_6 then "malicious"
  else if F64.geb s F64.f0_3 then "suspicious"
  else "safe".

Definition kw_count (text_lower : string) : nat :=
  List.length (filter (fun k => contains k text_lower) SUSPICIOUS_KEYWORDS).

Section Backend.

(** [tldextract.extract], a library function of its own. *)
Variable tldextract : string -> ExtractResult.

(** [list(set(l))]: the order a Python set is listed in. *)
Variable list_of_set : list string -> list string.

Definition extract_urls_from_text (text : string) : list string :=
  if nonempty text then list_of_set (findall_urls 0 text) else [].

Definition domain_length (url : string) : nat :=
  let ext := tldextract url in
  String.length (domain ext).

Definition simple_typosquat_check (url : string) : option string :=
  let ext := tldextract url in
  let d := domain ext in
  match find (fun b => contains b d && negb (String.eqb d b)) POPULAR_BRANDS with
  | Some b => Some ("possible typosquat/brand mimicry (" ++ b ++ ")")
  | None => None
  end.

Definition check_ssl_certificate (net : network) (st : astate) (d : string)
  : option bool * astate :=
  let '(r, st) := requests_get net st ("https://" ++ d) in
  (ssl_result r, st).

(** The keyword heuristics (first block of [analyze_payload]). *)
Definition keyword_rule (message : string) (st : astate) : astate :=
  let text_lower := lower message in
  let n := kw_count text_lower in
  match n with
  | O => st
  | _ =>
      add_reason st
        ("suspicious keywords (" ++ str_of_nat n ++ ")")
        (F64.min (F64.mul F64.f0_20 (F64.of_Z (Z.of_nat n))) F64.f0_4)
  end.

Definition https_rule (url : string) (st : astate) : astate :=
  if negb (is_https url) then add_reason st "no HTTPS (insecure link)" F64.f0_20
  else st.

Definition ip_rule (url : string) (st : astate) : astate :=
  if has_ip_hostname url then add_reason st "URL uses raw IP address" F64.f0_20
  else st.

Definition length_rule (url : string) (st : astate) : astate :=
  let dd := domain_length url in
  if negb (dd =? 0)%nat && (25 <? dd)%nat
  then add_reason st "long domain name" F64.f0_05
  else st.

Definition brand_rule (url : string) (st : astate) : astate :=
  match simple_typosquat_check url with
  | Some ts => if nonempty ts then add_reason st ts F64.f0_15 else st
  | None => st
  end.

Definition fetch_rule (net : network) (url : string) (st : astate) : astate :=
  let '(r, st) := requests_get net st url in
  match r with
  | Resp _ redirects =>
      if (3 <=? redirects)%nat
      then add_reason st (str_of_nat redirects ++ " redirects (suspicious)") F64.f0_10
      else st
  | Raised =>
      add_reason st "could not fetch URL (network or blocked)" F64.f0_05
  end.

(** [ext.registered_domain or ext.domain] *)
Definition ssl_domain (url : string) : string :=
  let ext := tldextract url in
  if nonempty (registered_domain ext) then registered_domain ext
  else domain ext.

Definition cert_rule (net : network) (url : string) (st : astate) : astate :=
  let '(ssl_ok, st) := check_ssl_certificate net st (ssl_domain url) in
  match ssl_ok with
  | Some false => add_reason st "ssl certificate check failed" F64.f0_15
  | _ => st
  end.

(** The body of the loop over the URLs. *)
Definition analyze_url (net : network) (st : astate) (url : string) : astate :=
  cert_rule net url
    (fetch_rule net url
       (brand_rule url (length_rule url (ip_rule url (https_rule url st))))).

Definition init_state : astate :=
  {| score := F64.zero; reasons := []; requests := [] |}.

(** The accumulators when the loop is over. *)
Definition analyze_state (net : network) (message : string)
  (urls : list string) : astate :=
  fold_left (analyze_url net) urls (keyword_rule message init_state).

Definition clamp (s : F64.float) : F64.float :=
  if F64.gtb s F64.one then F64.one else s.

Definition analyze_payload (net : network) (message : string)
  (urls : list string) : string * F64.float * list string :=
  let st := analyze_state net message urls in
  let s := clamp (score st) in
  let verdict := verdict_of s in
  (verdict, F64.round2 s, reasons st).

End Backend.

(** The weight of the keyword rule for [n] keywords found. *)
Definition kw_weight (n : nat) : F64.float :=
  F64.min (F64.mul F64.f0_20 (F64.of_Z (Z.of_nat n))) F64.f0_4.

(** The invariant of the running score, and the final score counted in
    hundredths. *)
Definition score_inv (x : F64.float) : bool :=
  mem x small_scores || is_big x.

Definition cents (s : F64.float) : Z :=
  match s with
  | S754_finite _ m e => F64.hundredths m e
  | _ => 0
  end.

(** The threshold table of the design document on hundredths. *)
Definition verdict_of_cents (k : Z) : string :=
  if 60 <=? k then "malicious"
  else if 30 <=? k then "suspicious"
  else "safe".

Definition final_ok (x : F64.float) : bool :=
  let s := clamp x in
  let k := cents s in
  let r := F64.round2 s in
  (0 <=? k) && (k <=? 100) && sf_eqb r (F64.dec k 100) &&
  String.eqb (verdict_of s) (verdict_of_cents k) &&
  String.eqb (verdict_of s) (verdict_of r) &&
  F64.leb F64.zero r && F64.leb r F64.one.

(** ** The two tables and the endpoints *)

(** The request body of [/api/analyze] after validation; an explicit
    [null] leaves a field at [None]. *)
Record SubmissionIn := {
  in_user_id : option string;
  in_source : option string;
  in_message : option string;
  in_urls : option (list string)
}.

(** A row of [submissions]. *)
Record submission := {
  id : Z;
  sub_user_id : option string;
  sub_source : option string;
  sub_message : option string;
  sub_urls : list string;
  verdict : string;
  sub_score : F64.float;
  sub_reasons : list string;
  sub_feedback : option string;
  created_at : string
}.

(** A row of [users]. *)
Record user := {
  user_id : option string;
  display_name : option string;
  total_reports : Z;
  correct_reports : Z;
  false_positives : Z
}.

Record database := {
  submissions : list submission;
  users : list user;
  last_id : Z
}.

Definition empty_db : database :=
  {| submissions := []; users := []; last_id := 0 |}.

(** SQL [=] on a nullable text column: never true when a side is NULL. *)
Definition sql_eq (a b : option string) : bool :=
  match a, b with
  | Some x, Some y => String.eqb x y
  | _, _ => false
  end.

(** [SELECT * FROM users WHERE user_id = ?] *)
Definition select_users (db : database) (uid : option string) : list user :=
  filter (fun u => sql_eq (user_id u) uid) (users db).

(** [SELECT * FROM submissions WHERE id = ?] *)
Definition select_submissions (db : database) (i : Z) : list submission :=
  filter (fun s => id s =? i) (submissions db).

(** [INSERT INTO submissions ...] with an AUTOINCREMENT key. *)
Definition insert_submission (db : database)
  (mk : Z -> submission) : database :=
  let i := last_id db + 1 in
  {| submissions := submissions db ++ [mk i];
     users := users db;
     last_id := i |}.

(** [INSERT OR REPLACE INTO users ...]: a row with the same key gives way. *)
Definition insert_or_replace_user (db : database) (u : user) : database :=
  {| submissions := submissions db;
     users := filter (fun v => negb (sql_eq (user_id v) (user_id u))) (users db)
              ++ [u];
     last_id := last_id db |}.

(** [UPDATE users SET ... WHERE user_id = ?] *)
Definition update_users (db : database) (uid : option string)
  (f : user -> user) : database :=
  {| submissions := submissions db;
     users := map (fun u => if sql_eq (user_id u) uid then f u else u) (users db);
     last_id := last_id db |}.

Definition set_feedback (fb : string) (s : submission) : submission :=
  {| id := id s; sub_user_id := sub_user_id s;
     sub_source := sub_source s; sub_message := sub_message s;
     sub_urls := sub_urls s; verdict := verdict s;
     sub_score := sub_score s; sub_reasons := sub_reasons s;
     sub_feedback := Some fb; created_at := created_at s |}.

(** [UPDATE submissions SET feedback = ? WHERE id = ?] *)
Definition update_feedback (db : database) (fb : string) (i : Z) : database :=
  {| submissions :=
       map (fun s => if id s =? i then set_feedback fb s else s)
           (submissions db);
     users := users db;
     last_id := last_id db |}.

Definition incr_total (u : user) : user :=
  {| user_id := user_id u; display_name := display_name u;
     total_reports := total_reports u + 1;
     correct_reports := correct_reports u;
     false_positives := false_positives u |}.

Definition incr_correct (u : user) : user :=
  {| user_id := user_id u; display_name := display_name u;
     total_reports := total_reports u;
     correct_reports := correct_reports u + 1;
     false_positives := false_positives u |}.

Definition incr_false_positives (u : user) : user :=
  {| user_id := user_id u; display_name := display_name u;
     total_reports := total_reports u;
     correct_reports := correct_reports u;
     false_positives := false_positives u + 1 |}.

(** [s or ""] *)
Definition or_empty (s : option string) : string :=
  match s with Some x => x | None => "" end.

(** The JSON answer of [/api/analyze]. *)
Record analysis := {
  out_verdict : string;
  out_score : F64.float;
  out_reasons : list string;
  out_urls : list string;
  analyzed_at : string
}.

Section Endpoints.

Variable tldextract : string -> ExtractResult.
Variable list_of_set : list string -> list string.

(** [sub.urls or extract_urls_from_text(sub.message or "")] *)
Definition considered_urls (sub : SubmissionIn) : list string :=
  match in_urls sub with
  | Some (u :: l) => u :: l
  | _ => extract_urls_from_text list_of_set (or_empty (in_message sub))
  end.

(** [POST /api/analyze]; [now] is the clock reading. *)
Definition analyze (net : network) (now : string) (db : database)
  (sub : SubmissionIn) : database * analysis :=
  let urls := considered_urls sub in
  let '(v, s, rs) :=
    analyze_payload tldextract net (or_empty (in_message sub)) urls in
  let db :=
    insert_submission db (fun i =>
      {| id := i; sub_user_id := in_user_id sub; sub_source := in_source sub;
         sub_message := in_message sub; sub_urls := urls; verdict := v;
         sub_score := s; sub_reasons := rs; sub_feedback := None;
         created_at := now |}) in
  let db :=
    match select_users db (in_user_id sub) with
    | [] =>
        insert_or_replace_user db
          {| user_id := in_user_id sub; display_name := in_user_id sub;
             total_reports := 1; correct_reports := 0; false_positives := 0 |}
    | _ => update_users db (in_user_id sub) incr_total
    end in
  (db, {| out_verdict := v; out_score := s; out_reasons := rs;
          out_urls := urls; analyzed_at := now |}).

End Endpoints.

(** The outcome of a request that may be refused. *)
Inductive outcome : Type :=
  | Ok (db : database)
  | HTTPException (status_code : Z) (detail : string).

(** [POST /api/feedback] *)
Definition feedback (db : database) (submission_id : Z) (fb : string)
  : outcome :=
  match select_submissions db submission_id with
  | [] => HTTPException 404 "submission not found"
  | sub :: _ =>
      let db := update_feedback db fb submission_id in
      let uid := sub_user_id sub in
      let db :=
        if String.eqb fb "malicious" && String.eqb (verdict sub) "malicious"
        then update_users db uid incr_correct
        else if String.eqb fb "safe" && String.eqb (verdict sub) "safe"
        then update_users db uid incr_correct
        else if String.eqb fb "safe" && negb (String.eqb (verdict sub) "safe")
        then update_users db uid incr_false_positives
        else db in
      Ok db
  end.

(** The awareness score computed for a row by [userscores]; [None]
    stands for an exception of the float conversion. *)
Definition awareness_score (r : user) : option Z :=
  let total := total_reports r in
  let correct := correct_reports r in
  let fp := false_positives r in
  if 0 <? total then
    match F64.int_truediv correct total with
    | Some q =>
        match F64.to_int (F64.mul q F64.f100) with
        | Some pct => Some (Z.max 0 (pct - fp * 2))
        | None => None
        end
    | None => None
    end
  else Some 0.

(** [ORDER BY correct_reports DESC, total_reports DESC] *)
Definition before (a b : user) : bool :=
  (correct_reports b <? correct_reports a) ||
  ((correct_reports b =? correct_reports a) &&
   (total_reports b <=? total_reports a)).

Fixpoint insert_sorted (u : user) (l : list user) : list user :=
  match l with
  | [] => [u]
  | v :: r => if before u v then u :: l else v :: insert_sorted u r
  end.

Definition order_by (l : list user) : list user :=
  fold_right insert_sorted [] l.

(** [GET /api/userscores]: every row with its awareness score. *)
Definition userscores (db : database) : list (user * option Z) :=
  map (fun r => (r, awareness_score r)) (order_by (users db)).

(** Requests, and the store after a sequence of them. *)
Inductive request : Type :=
  | ReqAnalyze (net : network) (now : string) (sub : SubmissionIn)
  | ReqFeedback (submission_id : Z) (fb : string).

Section Server.

Variable tldextract : string -> ExtractResult.
Variable list_of_set : list string -> list string.

Definition handle (db : database) (r : request) : database :=
  match r with
  | ReqAnalyze net now sub => fst (analyze tldextract list_of_set net now db sub)
  | ReqFeedback i fb =>
      match feedback db i fb with
      | Ok db' => db'
      | HTTPException _ _ => db
      end
  end.

Definition run (rs : list request) : database :=
  fold_left handle rs empty_db.

End Server.

(** The formula of the design document for the awareness score, in
    exact integer arithmetic. *)
Definition awareness_formula (total correct fp : Z) : Z :=
  if total =? 0 then 0 else Z.max 0 (100 * correct / total - fp * 2).


(** ** The reasons of an analysis, rule by rule

    What each rule contributes to the list of reasons, written as a
    function of the inputs and of the answers of the network; [k] is the
    number of requests issued before the URL is examined. *)

Definition keyword_reasons (message : string) : list string :=
  match kw_count (lower message) with
  | O => []
  | n => ["suspicious keywords (" ++ str_of_nat n ++ ")"]
  end.

Definition when (b : bool) (r : string) : list string :=
  if b then [r] else [].

Definition fetch_reasons (r : response) : list string :=
  match r with
  | Raised => ["could not fetch URL (network or blocked)"]
  | Resp _ h =>
      when (3 <=? h)%nat (str_of_nat h ++ " redirects (suspicious)")
  end.

(** The probe of the certificate check failed: it raised, or the
    server answered with a status from 500 upwards. *)
Definition cert_fails (r : response) : bool :=
  match r with
  | Raised => true
  | Resp status_code _ => 500 <=? status_code
  end.

Section Reasons.

Variable tldextract : string -> ExtractResult.
Variable net : network.

Definition cert_target (url : string) : string :=
  "https://" ++ ssl_domain tldextract url.

Definition brand_reasons (url : string) : list string :=
  match simple_typosquat_check tldextract url with
  | Some ts => [ts]
  | None => []
  end.

Definition url_reasons (k : nat) (url : string) : list string :=
  when (negb (is_https url)) "no HTTPS (insecure link)" ++
  when (has_ip_hostname url) "URL uses raw IP address" ++
  when (25 <? domain_length tldextract url)%nat "long domain name" ++
  brand_reasons url ++
  fetch_reasons (net k url) ++
  when (cert_fails (net (S k) (cert_target url))) "ssl certificate check failed".

Fixpoint all_url_reasons (k : nat) (urls : list string) : list string :=
  match urls with
  | [] => []
  | u :: l => url_reasons k u ++ all_url_reasons (S (S k)) l
  end.

Definition url_requests (url : string) : list string :=
  [url; cert_target url].

End Reasons.

Definition is_keyword_reason (r : string) : bool :=
  String.prefix "suspicious keywords (" r.

Definition starts_with_s (r : string) : bool :=
  match r with
  | String c _ => Ascii.eqb c "s"
  | EmptyString => false
  end.

(** The reasons of a URL that come before the certificate check. *)
Definition early_reasons (tldextract : string -> ExtractResult)
  (net : network) (k : nat) (url : string) : list string :=
  when (negb (is_https url)) "no HTTPS (insecure link)" ++
  when (has_ip_hostname url) "URL uses raw IP address" ++
  when (25 <? domain_length tldextract url)%nat "long domain name" ++
  brand_reasons tldextract url ++
  fetch_reasons (net k url).

(** ** Counter deltas of the feedback reconciliation

    The ordered decision of the design document: the pair (delta of
    [correct_reports], delta of [false_positives]) for a stored verdict
    and a feedback label. *)
Definition reconcile (stored_verdict fb : string) : Z * Z :=
  if String.eqb fb "malicious" then
    if String.eqb stored_verdict "malicious" then (1, 0) else (0, 0)
  else if String.eqb fb "safe" then
    if String.eqb stored_verdict "safe" then (1, 0) else (0, 1)
  else (0, 0).

Definition bump (d : Z * Z) (u : user) : user :=
  {| user_id := user_id u; display_name := display_name u;
     total_reports := total_reports u;
     correct_reports := correct_reports u + fst d;
     false_positives := false_positives u + snd d |}.

(** The rows of the submitter get the deltas, the others are kept. *)
Definition bump_rows (d : Z * Z) (uid : option string) (l : list user)
  : list user :=
  map (fun u => if sql_eq (user_id u) uid then bump d u else u) l.

(** ** Stand-ins used in the examples

    A network where every request fails, a set listed in order of first
    occurrence, and an extractor that takes the last two labels of the
    host name (a dotted quad is a domain without suffix). *)
Definition no_network : network := fun _ _ => Raised.

Definition first_seen (l : list string) : list string :=
  nodup string_dec l.

Fixpoint last_labels (cur : string) (prev : string) (s : string)
  : string * string :=
  match s with
  | EmptyString => (prev, cur)
  | String c r =>
      if Ascii.eqb c "." then last_labels EmptyString cur r
      else last_labels (cur ++ String c EmptyString) prev r
  end.

Definition sample_extract (url : string) : ExtractResult :=
  let host := before_slash (strip_scheme url) in
  if dotted 3 host then {| domain := host; registered_domain := "" |}
  else
    let '(d, suffix) := last_labels "" "" host in
    if nonempty d
    then {| domain := d; registered_domain := d ++ "." ++ suffix |}
    else {| domain := suffix; registered_domain := "" |}.

(** A row of [users] with the given counters. *)
Definition row (total correct fp : Z) : user :=
  {| user_id := Some "u"; display_name := Some "u";
     total_reports := total; correct_reports := correct;
     false_positives := fp |}.

(** A request body with the defaults of [SubmissionIn]. *)
Definition submit (uid : string) (message : string)
  (urls : list string) : SubmissionIn :=
  {| in_user_id := Some uid; in_source := Some "dashboard";
     in_message := Some message; in_urls := Some urls |}.

(** The store after one submission by "alice" of a plain-HTTP link to a
    raw IP address, on a network where every request fails. *)
Definition sample_submission : submission :=
  {| id := 1; sub_user_id := Some "alice"; sub_source := Some "dashboard";
     sub_message := Some ""; sub_urls := ["http://192.168.1.1/login"];
     verdict := "malicious"; sub_score := F64.dec 60 100;
     sub_reasons :=
       ["no HTTPS (insecure link)"; "URL uses raw IP address";
        "could not fetch URL (network or blocked)";
        "ssl certificate check failed"];
     sub_feedback := None; created_at := "2024-05-01T10:00:00" |}.

Definition sample_db : database :=
  {| submissions := [sample_submission];
     users := [{| user_id := Some "alice"; display_name := Some "alice";
                  total_reports := 1; correct_reports := 0;
                  false_positives := 0 |}];
     last_id := 1 |}.

(** ** Bookkeeping for the invariant of the counters *)

(** The submission ids named by the feedback requests of a trace. *)
Definition feedback_ids (rs : list request) : list Z :=
  flat_map (fun r => match r with
                     | ReqFeedback i _ => [i]
                     | ReqAnalyze _ _ _ => []
                     end) rs.

Definition by_user (u : string) (s : submission) : bool :=
  sql_eq (sub_user_id s) (Some u).

Definition has_feedback (s : submission) : bool :=
  match sub_feedback s with Some _ => true | None => false end.

Definition cnt {A : Type} (f : A -> bool) (l : list A) : Z :=
  Z.of_nat (List.length (filter f l)).

(** Submissions of user [u], and those of them that carry a label. *)
Definition n_subs (db : database) (u : string) : Z :=
  cnt (by_user u) (submissions db).

Definition n_fed (db : database) (u : string) : Z :=
  cnt (fun s => by_user u s && has_feedback s) (submissions db).

Definition row_ok (db : database) (r : user) : Prop :=
  0 <= correct_reports r /\ 0 <= false_positives r /\
  match user_id r with
  | None =>
      total_reports r = 1 /\ correct_reports r = 0 /\ false_positives r = 0
  | Some u =>
      n_subs db u <= total_reports r /\
      correct_reports r + false_positives r <= n_fed db u
  end.

(** The invariant of the store after a trace whose feedback requests
    named the ids [fed]. *)
Definition store_inv (fed : list Z) (db : database) : Prop :=
  Forall (row_ok db) (users db) /\
  (forall s, In s (submissions db) -> has_feedback s = true -> In (id s) fed) /\
  (forall s u, In s (submissions db) -> sub_user_id s = Some u ->
               exists r, In r (users db) /\ user_id r = Some u).

Definition new_user (uid : option string) : user :=
  {| user_id := uid; display_name := uid;
     total_reports := 1; correct_reports := 0; false_positives := 0 |}.

Definition nonneg_row (r : user) : Prop :=
  0 <= total_reports r /\ 0 <= correct_reports r /\ 0 <= false_positives r.


(** ** The remaining endpoints and the dashboard form *)

(** [ORDER BY id DESC] *)
Fixpoint insert_by_id (s : submission) (l : list submission)
  : list submission :=
  match l with
  | [] => [s]
  | t :: r => if id t <=? id s then s :: l else t :: insert_by_id s r
  end.

Definition order_by_id_desc (l : list submission) : list submission :=
  fold_right insert_by_id [] l.

(** [LIMIT ?]: a negative bound means no bound. *)
Definition sql_limit {A : Type} (n : Z) (l : list A) : list A :=
  if n <? 0 then l else firstn (Z.to_nat n) l.

(** [GET /api/submissions]: the count and the rows of the answer, for a
    limit in the range of a 64-bit integer. *)
Definition get_submissions (db : database) (limit : Z)
  : Z * list submission :=
  let rows := sql_limit limit (order_by_id_desc (submissions db)) in
  (Z.of_nat (List.length rows), rows).

(** The two submission types of the dashboard form. *)
Inductive submission_type : Type :=
  | URL
  | MessageText.

(** The request body the dashboard builds on "Analyze"; a body without
    [urls] is validated with the default, the empty list. *)
Definition payload (uid : string) (mode : submission_type) (text : string)
  : SubmissionIn :=
  {| in_user_id := Some uid; in_source := Some "dashboard";
     in_message := Some text;
     in_urls := match mode with
                | URL => Some [text]
                | MessageText => Some []
                end |}.

(** ** Vocabulary of the further properties *)

Fixpoint all_chars (p : ascii -> bool) (s : string) : bool :=
  match s with
  | EmptyString => true
  | String c r => p c && all_chars p r
  end.

(** A non-empty run of decimal digits. *)
Definition digits (s : string) : bool := nonempty s && all_chars is_digit s.

Definition no_slash (s : string) : bool :=
  all_chars (fun c => negb (Ascii.eqb c "/")) s.

(** Characters a host accepted as an IP literal is made of. *)
Definition ip_char (c : ascii) : bool :=
  is_digit c || Ascii.eqb c "." || Ascii.eqb c "010".

Definition verdict_rank (v : string) : Z :=
  if String.eqb v "malicious" then 2
  else if String.eqb v "suspicious" then 1
  else 0.

(** Rank of the verdict and hundredths of the score an analysis would
    return for the running score [x]. *)
Definition level (x : F64.float) : Z := verdict_rank (verdict_of (clamp x)).

Definition final_cents (x : F64.float) : Z := cents (clamp x).

(** [y] is reached from [x] by adding weights of the rules. *)
Inductive grows (x : F64.float) : F64.float -> Prop :=
  | grows_refl : grows x x
  | grows_step (y w : F64.float) :
      grows x y -> In w weights -> grows x (F64.add y w).

(** A URL none of the rules that look at the URL alone objects to. *)
Definition plain_url (tldextract : string -> ExtractResult) (url : string)
  : bool :=
  is_https url && negb (has_ip_hostname url) &&
  (domain_length tldextract url <=? 25)%nat &&
  match simple_typosquat_check tldextract url with
  | None => true
  | Some _ => false
  end.

(** An answer that triggers neither the redirect nor the certificate
    rule. *)
Definition good_answer (r : response) : bool :=
  match r with
  | Resp status_code h => (status_code <? 500) && (h <? 3)%nat
  | Raised => false
  end.

Definition is_analyze (r : request) : bool :=
  match r with ReqAnalyze _ _ _ => true | ReqFeedback _ _ => false end.

Definition null_user (r : user) : bool :=
  match user_id r with None => true | Some _ => false end.

Definition null_submitter (s : submission) : bool :=
  match sub_user_id s with None => true | Some _ => false end.

(** A network where every request is answered 200 without redirect. *)
Definition fine_network : network := fun _ _ => Resp 200 0.

Definition head (s : string) : ascii :=
  match s with
  | String c _ => c
  | EmptyString => "000"%char
  end.

(** One rule applied to the accumulators: nothing happens to the score
    and the reasons, or one reason and one weight are added. *)
Definition step_like (st st' : astate) : Prop :=
  (score st' = score st /\ reasons st' = reasons st) \/
  exists r w,
    In w weights /\ score st' = F64.add (score st) w /\
    reasons st' = (reasons st ++ [r])%list.

Definition quiet (st : astate) : Prop :=
  reasons st = [] -> score st = F64.zero.

(** The running score of [st] gives a result at least as high as [x]. *)
Definition never_lower (x : F64.float) (st : astate) : Prop :=
  score_inv (score st) = true /\
  level x <= level (score st) /\ final_cents x <= final_cents (score st).

(** Number of analyze requests in a trace. *)
Definition analyses (rs : list request) : nat :=
  List.length (filter is_analyze rs).

(** Rows of [users] for the user [u]. *)
Definition n_rows (db : database) (u : string) : Z :=
  cnt (fun r => sql_eq (user_id r) (Some u)) (users db).

(** Every user with a submission has one row, whose [total_reports] is
    the number of the user's submissions; the others have none. *)
Definition users_inv (db : database) : Prop :=
  (forall u, n_rows db u = if 0 <? n_subs db u then 1 else 0) /\
  (forall r u, In r (users db) -> user_id r = Some u ->
               total_reports r = n_subs db u).

(** The order of the leaderboard. *)
Definition ranks_before (a b : user) : Prop :=
  correct_reports b < correct_reports a \/
  (correct_reports b = correct_reports a /\
   total_reports b <= total_reports a).

(** The running score after the rules of a plain-HTTP link to a raw IP
    address that can neither be fetched nor probed; [long] and [brand]
    tell whether the two domain rules fire as well. *)
Definition unreachable_ip_score (x : F64.float) (long brand : bool)
  : F64.float :=
  let x := F64.add (F64.add x F64.f0_20) F64.f0_20 in
  let x := if long then F64.add x F64.f0_05 else x in
  let x := if brand then F64.add x F64.f0_15 else x in
  F64.add (F64.add x F64.f0_05) F64.f0_15.

(** ** The score as the sum of the triggered weights

    The weights an analysis adds, in the order it adds them, as a
    function of the inputs and of the answers of the network; and the
    same weights counted exactly, in hundredths. *)

Definition opt (b : bool) (w : F64.float) : list F64.float :=
  if b then [w] else [].

Definition keyword_weights (message : string) : list F64.float :=
  match kw_count (lower message) with
  | O => []
  | n => [F64.min (F64.mul F64.f0_20 (F64.of_Z (Z.of_nat n))) F64.f0_4]
  end.

Definition fetch_weights (r : response) : list F64.float :=
  match r with
  | Raised => [F64.f0_05]
  | Resp _ h => opt (3 <=? h)%nat F64.f0_10
  end.

Definition flagged (tldextract : string -> ExtractResult) (url : string)
  : bool :=
  match simple_typosquat_check tldextract url with
  | Some _ => true
  | None => false
  end.

Definition url_weights (tldextract : string -> ExtractResult)
  (net : network) (k : nat) (url : string) : list F64.float :=
  (opt (negb (is_https url)) F64.f0_20 ++
   opt (has_ip_hostname url) F64.f0_20 ++
   opt (25 <? domain_length tldextract url)%nat F64.f0_05 ++
   opt (flagged tldextract url) F64.f0_15 ++
   fetch_weights (net k url) ++
   opt (cert_fails (net (S k) (cert_target tldextract url))) F64.f0_15)%list.

Fixpoint all_url_weights (tldextract : string -> ExtractResult)
  (net : network) (k : nat) (urls : list string) : list F64.float :=
  match urls with
  | [] => []
  | u :: l =>
      (url_weights tldextract net k u ++
       all_url_weights tldextract net (S (S k)) l)%list
  end.

Definition triggered_weights (tldextract : string -> ExtractResult)
  (net : network) (message : string) (urls : list string)
  : list F64.float :=
  (keyword_weights message ++ all_url_weights tldextract net 0 urls)%list.

Definition hundredths_if (b : bool) (c : Z) : Z := if b then c else 0.

(** [min(0.2 * n, 0.4)] in hundredths. *)
Definition keyword_cents (n : nat) : Z := Z.min (20 * Z.of_nat n) 40.

Definition fetch_cents (r : response) : Z :=
  match r with
  | Raised => 5
  | Resp _ h => hundredths_if (3 <=? h)%nat 10
  end.

Definition url_cents (tldextract : string -> ExtractResult)
  (net : network) (k : nat) (url : string) : Z :=
  hundredths_if (negb (is_https url)) 20 +
  hundredths_if (has_ip_hostname url) 20 +
  hundredths_if (25 <? domain_length tldextract url)%nat 5 +
  hundredths_if (flagged tldextract url) 15 +
  fetch_cents (net k url) +
  hundredths_if (cert_fails (net (S k) (cert_target tldextract url))) 15.

Fixpoint all_url_cents (tldextract : string -> ExtractResult)
  (net : network) (k : nat) (urls : list string) : Z :=
  match urls with
  | [] => 0
  | u :: l =>
      url_cents tldextract net k u +
      all_url_cents tldextract net (S (S k)) l
  end.

(** The exact sum of the triggered weights, in hundredths. *)
Definition total_cents (tldextract : string -> ExtractResult)
  (net : network) (message : string) (urls : list string) : Z :=
  keyword_cents (kw_count (lower message)) +
  all_url_cents tldextract net 0 urls.

(** The weights with their exact values in hundredths. *)
Definition weight_table : list (F64.float * Z) :=
  [(F64.f0_05, 5); (F64.f0_10, 10); (F64.f0_15, 15); (F64.f0_20, 20);
   (F64.f0_4, 40)].

(** The binary64 sum [x] stands for the exact sum of [n] hundredths. *)
Definition exact_inv (x : F64.float) (n : Z) : Prop :=
  (mem x small_scores = true /\ cents x = n) \/
  (is_big x = true /\ 200 <= n).


(** The range of a 64-bit signed integer, the only integers SQLite
    binds to a parameter. *)
Definition int64 (z : Z) : Prop := - 2 ^ 63 <= z < 2 ^ 63.
(** * Properties *)

Local Open Scope list_scope.

(** ** The literals

    Each constant is the double the interpreter reads from the decimal
    literal of the source. *)
Example literals_ok :
  F64.dec 1 1 = F64.one /\ F64.dec 5 100 = F64.f0_05 /\
  F64.dec 10 100 = F64.f0_10 /\ F64.dec 15 100 = F64.f0_15 /\
  F64.dec 20 100 = F64.f0_20 /\ F64.dec 3 10 = F64.f0_3 /\
  F64.dec 4 10 = F64.f0_4 /\ F64.dec 6 10 = F64.f0_6 /\
  F64.of_Z 100 = F64.f100.
Proof. vm_compute. repeat split. Qed.

(** ** Rounding of binary64 sums

    A sum of a value from 2.0 upwards and a small positive weight is
    again a canonical value from 2.0 upwards, or infinity: the exponent
    chosen by the rounding never drops. *)

Lemma digits2_log2 (p : positive) : Z.pos (digits2_pos p) = Z.log2 (Z.pos p) + 1.
Proof.
  induction p as [p IH | p IH |]; cbn [digits2_pos]; try reflexivity.
  - rewrite Pos2Z.inj_succ, IH.
    change (Z.pos p~1) with (2 * Z.pos p + 1).
    rewrite Z.log2_succ_double by lia. lia.
  - rewrite Pos2Z.inj_succ, IH.
    change (Z.pos p~0) with (2 * Z.pos p).
    rewrite Z.log2_double by lia. lia.
Qed.

Lemma digits2_bounds (p : positive) :
  2 ^ (Z.pos (digits2_pos p) - 1) <= Z.pos p < 2 ^ Z.pos (digits2_pos p).
Proof.
  rewrite digits2_log2.
  replace (Z.log2 (Z.pos p) + 1 - 1) with (Z.log2 (Z.pos p)) by lia.
  replace (Z.log2 (Z.pos p) + 1) with (Z.succ (Z.log2 (Z.pos p))) by lia.
  apply Z.log2_spec. lia.
Qed.

Lemma digits2_unique (p : positive) (d : Z) :
  0 < d -> 2 ^ (d - 1) <= Z.pos p < 2 ^ d -> Z.pos (digits2_pos p) = d.
Proof.
  intros Hd H. rewrite digits2_log2.
  rewrite (Z.log2_unique (Z.pos p) (d - 1)); try lia.
  replace (Z.succ (d - 1)) with d by lia. exact H.
Qed.

Lemma shr_1_m (r : shr_record) : 0 <= shr_m r -> shr_m (shr_1 r) = shr_m r / 2.
Proof.
  destruct r as [m r s]; cbn [shr_m]. intros Hm.
  destruct m as [| [p | p |] |]; cbn [shr_1 shr_m]; try lia.
  - reflexivity.
  - change (Z.pos p~1) with (2 * Z.pos p + 1).
    apply Z.div_unique with 1; lia.
  - change (Z.pos p~0) with (2 * Z.pos p).
    apply Z.div_unique with 0; lia.
  - reflexivity.
Qed.

Lemma iter_shr_m (p : positive) : forall r,
  0 <= shr_m r -> shr_m (iter_pos shr_1 p r) = shr_m r / 2 ^ Z.pos p.
Proof.
  induction p as [p IH | p IH |]; intros r Hr; cbn [iter_pos].
  - assert (H1 : 0 <= shr_m (shr_1 r)) by (rewrite shr_1_m by lia; apply Z.div_pos; lia).
    assert (H2 : 0 <= shr_m (iter_pos shr_1 p (shr_1 r)))
      by (rewrite IH by lia; apply Z.div_pos; lia).
    rewrite IH, IH, shr_1_m by lia.
    rewrite !Z.div_div by lia.
    f_equal. change (Z.pos p~1) with (2 * Z.pos p + 1).
    rewrite Z.pow_add_r, Z.pow_mul_r by lia. change (2 ^ 2) with 4. change (2 ^ 1) with 2.
    replace 4 with (2*2) by lia. rewrite Z.pow_mul_l. lia.
  - assert (H2 : 0 <= shr_m (iter_pos shr_1 p r))
      by (rewrite IH by lia; apply Z.div_pos; lia).
    rewrite IH, IH by lia.
    rewrite !Z.div_div by lia.
    f_equal. change (Z.pos p~0) with (2 * Z.pos p).
    rewrite Z.pow_mul_r by lia. change (2 ^ 2) with 4.
    replace 4 with (2*2) by lia. rewrite Z.pow_mul_l. lia.
  - rewrite shr_1_m by lia. reflexivity.
Qed.

Lemma rne_bounds (m : Z) (l : location) :
  m <= round_nearest_even m l <= m + 1.
Proof.
  destruct l as [| []]; cbn [round_nearest_even]; try lia.
  destruct (Z.even m); lia.
Qed.

Lemma shr_record_of_loc_m m l : shr_m (shr_record_of_loc m l) = m.
Proof. destruct l as [| []]; reflexivity. Qed.

Lemma shr_spec (r : shr_record) (e n : Z) :
  0 <= n -> 0 <= shr_m r ->
  shr_m (fst (shr r e n)) = shr_m r / 2 ^ n /\ snd (shr r e n) = e + n.
Proof.
  intros Hn Hr. destruct n as [| p | p]; cbn [shr fst snd]; try lia.
  - rewrite Z.pow_0_r, Z.div_1_r. lia.
  - rewrite iter_shr_m by lia. lia.
Qed.

Lemma Zdigits2_pos_range (m : Z) (d : Z) :
  0 < d -> 2 ^ (d - 1) <= m < 2 ^ d -> Zdigits2 m = d.
Proof.
  intros Hd H. assert (0 < 2 ^ (d - 1)) by (apply Z.pow_pos_nonneg; lia).
  destruct m as [| p | p]; try lia. cbn [Zdigits2]. now apply digits2_unique.
Qed.

Lemma round_aux_big (s : bool) (M : positive) (e : Z) (l : location) :
  53 <= Z.pos (digits2_pos M) ->
  -1074 <= Z.pos (digits2_pos M) + e - 53 ->
  binary_round_aux 53 1024 s (Z.pos M) e l = S754_infinity s \/
  exists m' e',
    binary_round_aux 53 1024 s (Z.pos M) e l = S754_finite s m' e' /\
    bounded 53 1024 m' e' = true /\
    Z.pos (digits2_pos M) + e - 53 <= e'.
Proof.
  intros HD Hmin.
  pose proof (digits2_bounds M) as HM.
  set (D := Z.pos (digits2_pos M)) in *.
  unfold binary_round_aux, shr_fexp.
  cbn [Zdigits2]. fold D.
  assert (HE : fexp 53 1024 (D + e) = D + e - 53) by (unfold fexp, emin; lia).
  rewrite HE.
  destruct (shr_spec (shr_record_of_loc (Z.pos M) l) e (D + e - 53 - e))
    as [Hm1 He1]; [lia | rewrite shr_record_of_loc_m; lia |].
  destruct (shr (shr_record_of_loc (Z.pos M) l) e (D + e - 53 - e)) as [r1 e1].
  cbn [fst snd] in Hm1, He1. rewrite shr_record_of_loc_m in Hm1.
  replace (D + e - 53 - e) with (D - 53) in Hm1 by lia.
  assert (Hr1 : 2 ^ 52 <= shr_m r1 < 2 ^ 53).
  { rewrite Hm1.
    assert (Hp : 0 < 2 ^ (D - 53)) by (apply Z.pow_pos_nonneg; lia).
    assert (H52 : 2 ^ (D - 1) = 2 ^ 52 * 2 ^ (D - 53))
      by (rewrite <- Z.pow_add_r by lia; f_equal; lia).
    assert (H53 : 2 ^ D = 2 ^ 53 * 2 ^ (D - 53))
      by (rewrite <- Z.pow_add_r by lia; f_equal; lia).
    split.
    - apply Z.div_le_lower_bound; lia.
    - apply Z.div_lt_upper_bound; lia. }
  pose proof (rne_bounds (shr_m r1) (loc_of_shr_record r1)) as Hrne.
  set (m2 := round_nearest_even (shr_m r1) (loc_of_shr_record r1)) in *.
  assert (He1' : e1 = D + e - 53) by lia.
  destruct (Z.eq_dec m2 (2 ^ 53)) as [Hcarry | Hnocarry].
  - assert (Hd2 : Zdigits2 m2 = 54).
    { apply Zdigits2_pos_range; [lia |]. rewrite Hcarry. cbn. lia. }
    rewrite Hd2.
    assert (HE2 : fexp 53 1024 (54 + e1) - e1 = 1) by (unfold fexp, emin; lia).
    rewrite HE2. cbn [shr iter_pos shr_record_of_loc].
    rewrite Hcarry. cbn [Z.pow Z.pow_pos Pos.iter Z.mul Pos.mul shr_1 shr_m orb].
    destruct (e1 + 1 <=? 1024 - 53) eqn:Hle; [right | left; reflexivity].
    eexists _, _. split; [reflexivity |]. split; [| lia].
    unfold bounded, canonical_mantissa. cbn [digits2_pos Pos.succ].
    apply andb_true_iff. split; [| exact Hle].
    apply Z.eqb_eq. unfold fexp, emin. lia.
  - assert (Hd2 : Zdigits2 m2 = 53).
    { apply Zdigits2_pos_range; [lia |]. change (53 - 1) with 52. lia. }
    rewrite Hd2.
    assert (HE2 : fexp 53 1024 (53 + e1) - e1 = 0) by (unfold fexp, emin; lia).
    rewrite HE2. cbn [shr shr_record_of_loc shr_m].
    destruct m2 as [| p2 | p2] eqn:Hm2; try lia.
    destruct (e1 <=? 1024 - 53) eqn:Hle; [right | left; reflexivity].
    eexists _, _. split; [reflexivity |]. split; [| lia].
    unfold bounded, canonical_mantissa.
    apply andb_true_iff. split; [| exact Hle].
    apply Z.eqb_eq.
    cbn [Zdigits2] in Hd2. injection Hd2 as Hd2. rewrite Hd2.
    unfold fexp, emin. lia.
Qed.

Lemma iter_xO_pow (m d : positive) :
  Z.pos (Pos.iter xO m d) = Z.pos m * 2 ^ Z.pos d.
Proof.
  induction d as [| d IH] using Pos.peano_ind.
  - cbn. lia.
  - rewrite Pos.iter_succ, Pos2Z.inj_succ, Z.pow_succ_r by lia.
    change (Z.pos (Pos.iter xO m d)~0) with (2 * Z.pos (Pos.iter xO m d)).
    rewrite IH. lia.
Qed.

Lemma digits2_lower (p : positive) (k : Z) :
  2 ^ (k - 1) <= Z.pos p -> k <= Z.pos (digits2_pos p).
Proof.
  intros H. pose proof (digits2_bounds p) as [_ Hu].
  destruct (Z_lt_le_dec (Z.pos (digits2_pos p)) k) as [Hlt | Hge]; [| exact Hge].
  exfalso.
  assert (2 ^ Z.pos (digits2_pos p) <= 2 ^ (k - 1))
    by (apply Z.pow_le_mono_r; lia).
  lia.
Qed.

Lemma add_big (x : spec_float) (mw : positive) (ew : Z) :
  is_big x = true -> ew <= -52 ->
  is_big (SFadd 53 1024 x (S754_finite false mw ew)) = true.
Proof.
  intros Hx Hew.
  destruct x as [sx | [|] | | [|] mx ex]; try discriminate; [reflexivity |].
  cbn [is_big] in Hx. unfold F64.prec, F64.emax in Hx.
  apply andb_true_iff in Hx as [Hb Hex].
  apply Z.leb_le in Hex.
  unfold bounded in Hb. apply andb_true_iff in Hb as [Hcan _].
  unfold canonical_mantissa in Hcan. apply Z.eqb_eq in Hcan.
  assert (Hdx : Z.pos (digits2_pos mx) = 53) by (unfold fexp, emin in Hcan; lia).
  pose proof (digits2_bounds mx) as Hmx. rewrite Hdx in Hmx.
  cbn [SFadd cond_Zopp].
  rewrite Z.min_r by lia.
  unfold shl_align at 2. rewrite Z.sub_diag. cbn [fst].
  unfold shl_align.
  destruct (ew - ex) as [| d | d] eqn:Hd; try lia.
  cbn [fst]. cbn [Z.add binary_normalize].
  set (M := (Pos.iter xO mx d + mw)%positive).
  assert (HM : Z.pos M = Z.pos mx * 2 ^ Z.pos d + Z.pos mw)
    by (unfold M; rewrite Pos2Z.inj_add, iter_xO_pow; reflexivity).
  assert (HDM : 53 + Z.pos d <= Z.pos (digits2_pos M)).
  { apply digits2_lower. rewrite HM.
    replace (53 + Z.pos d - 1) with (52 + Z.pos d) by lia.
    rewrite Z.pow_add_r by lia.
    assert (0 < 2 ^ Z.pos d) by (apply Z.pow_pos_nonneg; lia).
    change (53 - 1) with 52 in Hmx. nia. }
  unfold binary_round.
  assert (Hf : fexp 53 1024 (Z.pos (digits2_pos M) + ew) =
               Z.pos (digits2_pos M) + ew - 53) by (unfold fexp, emin; lia).
  rewrite Hf.
  unfold shl_align.
  destruct (Z.pos (digits2_pos M) + ew - 53 - ew) as [| q | q] eqn:Hq; try lia.
  all: destruct (round_aux_big false M ew loc_Exact) as [Hinf | (m' & e' & Hr & Hbd & He')];
    try lia;
    [ rewrite Hinf; reflexivity
    | rewrite Hr; cbn [is_big]; unfold F64.prec, F64.emax;
      rewrite Hbd; cbn [andb]; apply Z.leb_le; lia ].
Qed.

(** ** The running score stays inside the explored values *)

Lemma sf_eqb_eq (x y : F64.float) : sf_eqb x y = true -> x = y.
Proof.
  destruct x as [a | a | | a m e], y as [b | b | | b n f]; cbn [sf_eqb];
    try discriminate; try reflexivity.
  - intros H. apply Bool.eqb_prop in H. now subst.
  - intros H. apply Bool.eqb_prop in H. now subst.
  - intros H. apply andb_true_iff in H as [H He].
    apply andb_true_iff in H as [Hs Hm].
    apply Bool.eqb_prop in Hs. apply Pos.eqb_eq in Hm. apply Z.eqb_eq in He.
    now subst.
Qed.

Lemma mem_In (x : F64.float) (l : list F64.float) : mem x l = true -> In x l.
Proof.
  unfold mem. intros H. apply existsb_exists in H as (y & Hy & He).
  apply sf_eqb_eq in He. now subst.
Qed.

Lemma small_scores_closed :
  forallb (fun x => forallb (fun w => score_inv (F64.add x w)) weights)
    small_scores = true.
Proof. vm_compute. reflexivity. Qed.

Lemma weights_small (w : F64.float) :
  In w weights -> exists m e, w = S754_finite false m e /\ e <= -52.
Proof.
  intros H. repeat (destruct H as [<- | H]; [eexists _, _; split; [reflexivity | lia] |]).
  destruct H.
Qed.

Lemma score_inv_add (x w : F64.float) :
  score_inv x = true -> In w weights -> score_inv (F64.add x w) = true.
Proof.
  intros Hx Hw. unfold score_inv in Hx. apply orb_true_iff in Hx as [Hs | Hb].
  - apply mem_In in Hs.
    pose proof small_scores_closed as Hc.
    rewrite forallb_forall in Hc. specialize (Hc x Hs).
    rewrite forallb_forall in Hc. exact (Hc w Hw).
  - destruct (weights_small w Hw) as (m & e & -> & He).
    unfold score_inv. apply orb_true_iff. right. exact (add_big x m e Hb He).
Qed.

Lemma score_inv_zero : score_inv F64.zero = true.
Proof. vm_compute. reflexivity. Qed.

Lemma kw_weight_table :
  forallb (fun n => sf_eqb (kw_weight n)
                      (if (n =? 1)%nat then F64.f0_20 else F64.f0_4))
    (seq 1 14) = true.
Proof. vm_compute. reflexivity. Qed.

Lemma kw_weight_value (n : nat) :
  (1 <= n <= 14)%nat ->
  kw_weight n = if (n =? 1)%nat then F64.f0_20 else F64.f0_4.
Proof.
  intros Hn. pose proof kw_weight_table as H.
  rewrite forallb_forall in H. apply sf_eqb_eq, H, in_seq. lia.
Qed.

Lemma kw_count_le (t : string) : (kw_count t <= 14)%nat.
Proof.
  unfold kw_count.
  etransitivity; [apply filter_length_le | reflexivity].
Qed.

Section ScoreInvariant.

Variable tldextract : string -> ExtractResult.
Variable net : network.

Lemma add_reason_inv (st : astate) (r : string) (w : F64.float) :
  score_inv (score st) = true -> In w weights ->
  score_inv (score (add_reason st r w)) = true.
Proof. intros H Hw. cbn [add_reason score]. now apply score_inv_add. Qed.

Lemma keyword_rule_inv (message : string) (st : astate) :
  score_inv (score st) = true ->
  score_inv (score (keyword_rule message st)) = true.
Proof.
  intros H. unfold keyword_rule.
  pose proof (kw_count_le (lower message)) as Hle.
  destruct (kw_count (lower message)) as [| n] eqn:Hn; [exact H |].
  apply add_reason_inv; [exact H |].
  fold (kw_weight (S n)). rewrite kw_weight_value by lia.
  destruct (S n =? 1)%nat; cbn; tauto.
Qed.

Lemma analyze_url_inv (st : astate) (url : string) :
  score_inv (score st) = true ->
  score_inv (score (analyze_url tldextract net st url)) = true.
Proof.
  intros H. unfold analyze_url.
  assert (H1 : score_inv (score (https_rule url st)) = true).
  { unfold https_rule. destruct (negb (is_https url)); [| exact H].
    apply add_reason_inv; [exact H | cbn; tauto]. }
  assert (H2 : score_inv (score (ip_rule url (https_rule url st))) = true).
  { unfold ip_rule. destruct (has_ip_hostname url); [| exact H1].
    apply add_reason_inv; [exact H1 | cbn; tauto]. }
  set (s2 := ip_rule url (https_rule url st)) in *.
  assert (H3 : score_inv (score (length_rule tldextract url s2)) = true).
  { unfold length_rule. destruct (_ && _); [| exact H2].
    apply add_reason_inv; [exact H2 | cbn; tauto]. }
  set (s3 := length_rule tldextract url s2) in *.
  assert (H4 : score_inv (score (brand_rule tldextract url s3)) = true).
  { unfold brand_rule. destruct (simple_typosquat_check tldextract url); [| exact H3].
    destruct (nonempty s); [| exact H3].
    apply add_reason_inv; [exact H3 | cbn; tauto]. }
  set (s4 := brand_rule tldextract url s3) in *.
  assert (H5 : score_inv (score (fetch_rule net url s4)) = true).
  { unfold fetch_rule, requests_get.
    destruct (net _ url) as [| code h].
    - apply add_reason_inv; [exact H4 | cbn; tauto].
    - destruct (3 <=? h)%nat; [| exact H4].
      apply add_reason_inv; [exact H4 | cbn; tauto]. }
  set (s5 := fetch_rule net url s4) in *.
  unfold cert_rule, check_ssl_certificate, requests_get.
  destruct (ssl_result _) as [[|] |]; try exact H5.
  apply add_reason_inv; [exact H5 | cbn; tauto].
Qed.

Lemma analyze_state_inv (message : string) (urls : list string) :
  score_inv (score (analyze_state tldextract net message urls)) = true.
Proof.
  unfold analyze_state.
  generalize (keyword_rule_inv message init_state score_inv_zero).
  generalize (keyword_rule message init_state).
  induction urls as [| u l IH]; intros st H; cbn [fold_left]; [exact H |].
  apply IH. now apply analyze_url_inv.
Qed.

End ScoreInvariant.

Lemma small_scores_final : forallb final_ok small_scores = true.
Proof. vm_compute. reflexivity. Qed.

Lemma is_big_clamp (x : F64.float) : is_big x = true -> clamp x = F64.one.
Proof.
  intros H. unfold clamp, F64.gtb, F64.ltb, SFltb.
  destruct x as [s | [|] | | [|] m e]; try discriminate; [reflexivity |].
  cbn [is_big] in H. apply andb_true_iff in H as [_ He]. apply Z.leb_le in He.
  cbn [SFcompare F64.one].
  destruct (Z.compare_spec (-52) e) as [Heq | Hlt | Hgt]; try lia. reflexivity.
Qed.

Lemma score_inv_final (x : F64.float) : score_inv x = true -> final_ok x = true.
Proof.
  intros H. unfold score_inv in H. apply orb_true_iff in H as [Hs | Hb].
  - apply mem_In in Hs. pose proof small_scores_final as Hf.
    rewrite forallb_forall in Hf. now apply Hf.
  - unfold final_ok. rewrite (is_big_clamp x Hb). vm_compute. reflexivity.
Qed.

(** One keyword and one HTTPS link that redirects three times: the sum
    0.2 + 0.1 is the double just above 0.3, the verdict is "suspicious"
    and the score returned is 0.3. *)
Example score_just_above_threshold :
  let net : network := fun n _ => match n with O => Resp 200 3 | _ => Resp 200 0 end in
  F64.add F64.f0_20 F64.f0_10 = S754_finite false 5404319552844596 (-54) /\
  analyze_payload sample_extract net "please login" ["https://example.com/a"] =
    ("suspicious", F64.dec 30 100,
     ["suspicious keywords (1)"; "3 redirects (suspicious)"]).
Proof. vm_compute. split; reflexivity. Qed.

(** ** The reasons, rule by rule *)

Section ReasonsSpec.

Variable tldextract : string -> ExtractResult.
Variable net : network.

Lemma https_rule_spec (url : string) (st : astate) :
  reasons (https_rule url st) =
    reasons st ++ when (negb (is_https url)) "no HTTPS (insecure link)" /\
  requests (https_rule url st) = requests st.
Proof.
  unfold https_rule, when. destruct (negb (is_https url)); cbn;
    rewrite ?app_nil_r; auto.
Qed.

Lemma ip_rule_spec (url : string) (st : astate) :
  reasons (ip_rule url st) =
    reasons st ++ when (has_ip_hostname url) "URL uses raw IP address" /\
  requests (ip_rule url st) = requests st.
Proof.
  unfold ip_rule, when. destruct (has_ip_hostname url); cbn;
    rewrite ?app_nil_r; auto.
Qed.

Lemma length_rule_spec (url : string) (st : astate) :
  reasons (length_rule tldextract url st) =
    reasons st ++ when (25 <? domain_length tldextract url)%nat "long domain name" /\
  requests (length_rule tldextract url st) = requests st.
Proof.
  unfold length_rule, when.
  destruct (domain_length tldextract url) as [| n]; cbn [Nat.eqb negb andb].
  - cbn. rewrite app_nil_r. auto.
  - destruct (25 <? S n)%nat; cbn; rewrite ?app_nil_r; auto.
Qed.

Lemma typosquat_nonempty (url ts : string) :
  simple_typosquat_check tldextract url = Some ts -> nonempty ts = true.
Proof.
  unfold simple_typosquat_check. destruct (find _ _); [| discriminate].
  intros [= <-]. reflexivity.
Qed.

Lemma brand_rule_spec (url : string) (st : astate) :
  reasons (brand_rule tldextract url st) =
    reasons st ++ brand_reasons tldextract url /\
  requests (brand_rule tldextract url st) = requests st.
Proof.
  unfold brand_rule, brand_reasons.
  destruct (simple_typosquat_check tldextract url) as [ts |] eqn:E.
  - rewrite (typosquat_nonempty url ts E). cbn. auto.
  - rewrite app_nil_r. auto.
Qed.

Lemma fetch_rule_spec (url : string) (st : astate) :
  reasons (fetch_rule net url st) =
    reasons st ++ fetch_reasons (net (List.length (requests st)) url) /\
  requests (fetch_rule net url st) = requests st ++ [url].
Proof.
  unfold fetch_rule, requests_get, fetch_reasons, when.
  destruct (net _ url) as [| code h].
  - cbn. split; reflexivity.
  - destruct (3 <=? h)%nat; cbn; rewrite ?app_nil_r; split; reflexivity.
Qed.

Lemma ssl_result_fails (r : response) :
  ssl_result r = Some (negb (cert_fails r)).
Proof.
  destruct r as [| code h]; cbn; [reflexivity |].
  f_equal. rewrite Z.ltb_antisym. reflexivity.
Qed.

Lemma cert_rule_spec (url : string) (st : astate) :
  let r := net (List.length (requests st)) (cert_target tldextract url) in
  reasons (cert_rule tldextract net url st) =
    reasons st ++ when (cert_fails r) "ssl certificate check failed" /\
  requests (cert_rule tldextract net url st) = requests st ++ [cert_target tldextract url] /\
  score (cert_rule tldextract net url st) =
    if cert_fails r then F64.add (score st) F64.f0_15 else score st.
Proof.
  unfold cert_rule, check_ssl_certificate, requests_get, cert_target, when.
  rewrite ssl_result_fails.
  destruct (cert_fails _); cbn; rewrite ?app_nil_r; auto.
Qed.

Lemma analyze_url_spec (st : astate) (url : string) :
  reasons (analyze_url tldextract net st url) =
    reasons st ++ url_reasons tldextract net (List.length (requests st)) url /\
  requests (analyze_url tldextract net st url) =
    requests st ++ url_requests tldextract url.
Proof.
  unfold analyze_url, url_reasons, url_requests.
  destruct (https_rule_spec url st) as [R1 Q1].
  destruct (ip_rule_spec url (https_rule url st)) as [R2 Q2].
  set (s2 := ip_rule url (https_rule url st)) in *.
  destruct (length_rule_spec url s2) as [R3 Q3].
  set (s3 := length_rule tldextract url s2) in *.
  destruct (brand_rule_spec url s3) as [R4 Q4].
  set (s4 := brand_rule tldextract url s3) in *.
  destruct (fetch_rule_spec url s4) as [R5 Q5].
  set (s5 := fetch_rule net url s4) in *.
  destruct (cert_rule_spec url s5) as (R6 & Q6 & _).
  rewrite R6, Q6, R5, Q5, R4, Q4, R3, Q3, R2, Q2, R1, Q1.
  rewrite length_app, Nat.add_1_r. cbn [List.length].
  rewrite <- !app_assoc. split; reflexivity.
Qed.

Lemma fold_analyze_url_spec (urls : list string) : forall st : astate,
  reasons (fold_left (analyze_url tldextract net) urls st) =
    reasons st ++ all_url_reasons tldextract net (List.length (requests st)) urls /\
  requests (fold_left (analyze_url tldextract net) urls st) =
    requests st ++ flat_map (url_requests tldextract) urls.
Proof.
  induction urls as [| u l IH]; intros st; cbn [fold_left all_url_reasons flat_map].
  - rewrite !app_nil_r. auto.
  - destruct (IH (analyze_url tldextract net st u)) as [R Q].
    destruct (analyze_url_spec st u) as [R1 Q1].
    rewrite R, Q, R1, Q1. rewrite length_app. cbn [url_requests List.length].
    rewrite Nat.add_comm. cbn [Nat.add].
    rewrite <- !app_assoc. split; reflexivity.
Qed.

Lemma keyword_rule_reasons (message : string) :
  reasons (keyword_rule message init_state) = keyword_reasons message /\
  requests (keyword_rule message init_state) = [].
Proof.
  unfold keyword_rule, keyword_reasons.
  destruct (kw_count (lower message)); cbn; auto.
Qed.

Lemma analyze_state_spec (message : string) (urls : list string) :
  reasons (analyze_state tldextract net message urls) =
    keyword_reasons message ++ all_url_reasons tldextract net 0 urls /\
  requests (analyze_state tldextract net message urls) =
    flat_map (url_requests tldextract) urls.
Proof.
  unfold analyze_state.
  destruct (fold_analyze_url_spec urls (keyword_rule message init_state)) as [R Q].
  destruct (keyword_rule_reasons message) as [R0 Q0].
  rewrite R, Q, R0, Q0. cbn [List.length app]. auto.
Qed.

End ReasonsSpec.

(** ** Telling the reasons apart *)

Lemma str_of_nat_digit (n : nat) :
  exists c r, str_of_nat n = String c r /\ is_digit c = true.
Proof.
  unfold str_of_nat, NilZero.string_of_uint.
  destruct (Nat.to_uint n); cbn [NilEmpty.string_of_uint];
    eexists _, _; split; reflexivity.
Qed.

Lemma when_In (b : bool) (r x : string) : In x (when b r) -> x = r /\ b = true.
Proof. destruct b; cbn; [intros [H | []]; auto | intros []]. Qed.

Lemma fetch_reasons_cases (r : response) :
  fetch_reasons r = [] \/
  fetch_reasons r = ["could not fetch URL (network or blocked)"] \/
  exists n, (3 <= n)%nat /\
    fetch_reasons r = [(str_of_nat n ++ " redirects (suspicious)")%string].
Proof.
  destruct r as [| code h]; cbn [fetch_reasons]; [auto |].
  destruct (3 <=? h)%nat eqn:E; cbn [when]; [| auto].
  right. right. exists h. split; [now apply Nat.leb_le | reflexivity].
Qed.

Lemma Forall_app_intro {A : Type} (P : A -> Prop) (l1 l2 : list A) :
  Forall P l1 -> Forall P l2 -> Forall P (l1 ++ l2).
Proof. intros H1 H2. apply Forall_app. now split. Qed.

Lemma early_reasons_heads (tldextract : string -> ExtractResult)
  (net : network) (k : nat) (url : string) :
  Forall (fun r => starts_with_s r = false) (early_reasons tldextract net k url).
Proof.
  unfold early_reasons. repeat apply Forall_app_intro.
  - destruct (negb (is_https url)); cbn [when]; repeat constructor.
  - destruct (has_ip_hostname url); cbn [when]; repeat constructor.
  - destruct (25 <? _)%nat; cbn [when]; repeat constructor.
  - unfold brand_reasons, simple_typosquat_check.
    destruct (find _ _); repeat constructor.
  - destruct (fetch_reasons_cases (net k url)) as [-> | [-> | (n & _ & ->)]];
      repeat constructor.
    destruct (str_of_nat_digit n) as (c & r & -> & Hc).
    cbn [append starts_with_s].
    destruct (Ascii.eqb_spec c "s") as [-> |]; [discriminate Hc | reflexivity].
Qed.

Lemma url_reasons_split (tldextract : string -> ExtractResult)
  (net : network) (k : nat) (url : string) :
  url_reasons tldextract net k url =
    early_reasons tldextract net k url ++
    when (cert_fails (net (S k) (cert_target tldextract url)))
      "ssl certificate check failed".
Proof. unfold url_reasons, early_reasons. now rewrite <- !app_assoc. Qed.

Lemma starts_with_s_keyword (r : string) :
  starts_with_s r = false -> is_keyword_reason r = false.
Proof.
  destruct r as [| c r]; [reflexivity |].
  unfold is_keyword_reason. cbn [starts_with_s String.prefix].
  destruct (ascii_dec "s" c) as [<- |]; [discriminate | reflexivity].
Qed.

Lemma url_reasons_not_keyword (tldextract : string -> ExtractResult)
  (net : network) (k : nat) (url : string) :
  Forall (fun r => is_keyword_reason r = false) (url_reasons tldextract net k url).
Proof.
  rewrite url_reasons_split. apply Forall_app. split.
  - eapply Forall_impl; [| apply early_reasons_heads].
    intros r. apply starts_with_s_keyword.
  - destruct (cert_fails _); cbn [when]; repeat constructor.
Qed.

Lemma all_url_reasons_not_keyword (tldextract : string -> ExtractResult)
  (net : network) (urls : list string) : forall k,
  Forall (fun r => is_keyword_reason r = false)
    (all_url_reasons tldextract net k urls).
Proof.
  induction urls as [| u l IH]; intros k; cbn [all_url_reasons].
  - constructor.
  - apply Forall_app. split; [apply url_reasons_not_keyword | apply IH].
Qed.

Lemma cert_fails_iff (r : response) :
  cert_fails r = true <->
  r = Raised \/ exists code h, r = Resp code h /\ 500 <= code.
Proof.
  destruct r as [| code h]; cbn [cert_fails]; split.
  - auto.
  - reflexivity.
  - intros H. apply Z.leb_le in H. right. now exists code, h.
  - intros [H | (c & n & [= <- <-] & H)]; [discriminate | now apply Z.leb_le].
Qed.

(** C8. The reasons returned by an analysis are the keyword reason (if
    any) followed, for each URL in input order, by the reasons of the
    rules in the order HTTPS, IP literal, domain length, brand mimicry,
    redirect or fetch failure, certificate. The redirect and the
    fetch-failure reasons never appear together for one URL, and every
    URL gives rise to exactly two requests, in this order: the URL itself
    and then [https://] followed by its registered domain (the bare
    domain label when the registered domain is empty), whatever the
    first request answered. *)
Theorem analyze_payload_reasons_order
  (tldextract : string -> ExtractResult) (net : network)
  (message : string) (urls : list string) :
  snd (analyze_payload tldextract net message urls) =
    keyword_reasons message ++ all_url_reasons tldextract net 0 urls /\
  (forall k u l,
      all_url_reasons tldextract net k (u :: l) =
        (when (negb (is_https u)) "no HTTPS (insecure link)" ++
         when (has_ip_hostname u) "URL uses raw IP address" ++
         when (25 <? domain_length tldextract u)%nat "long domain name" ++
         brand_reasons tldextract u ++
         fetch_reasons (net k u) ++
         when (cert_fails (net (S k) ("https://" ++ ssl_domain tldextract u)%string))
           "ssl certificate check failed") ++
        all_url_reasons tldextract net (S (S k)) l) /\
  (List.length (keyword_reasons message) <= 1)%nat /\
  (forall r,
      fetch_reasons r = [] \/
      fetch_reasons r = ["could not fetch URL (network or blocked)"] \/
      exists n, (3 <= n)%nat /\
        fetch_reasons r = [(str_of_nat n ++ " redirects (suspicious)")%string]) /\
  requests (analyze_state tldextract net message urls) =
    flat_map (fun u => [u; ("https://" ++ ssl_domain tldextract u)%string]) urls /\
  (forall u,
      ssl_domain tldextract u =
        if nonempty (registered_domain (tldextract u))
        then registered_domain (tldextract u)
        else domain (tldextract u)).
Proof.
  destruct (analyze_state_spec tldextract net message urls) as [R Q].
  repeat split.
  - exact R.
  - unfold keyword_reasons. destruct (kw_count _); cbn; lia.
  - apply fetch_reasons_cases.
  - exact Q.
Qed.

(** C10. For every URL the certificate probe is the request that
    follows the fetch of the URL; it goes to [https://] followed by the
    registered domain, or by the bare domain label when the registered
    domain is empty. The reason "ssl certificate check failed" is among
    the reasons of the URL exactly when that probe raises or answers
    with a status code of 500 or more (a 5xx answer over a successful
    handshake included), and it then adds the weight 0.15. *)
Theorem cert_reason_exact
  (tldextract : string -> ExtractResult) (net : network)
  (st : astate) (url : string) :
  let k := List.length (requests st) in
  let target := ("https://" ++
                 (if nonempty (registered_domain (tldextract url))
                  then registered_domain (tldextract url)
                  else domain (tldextract url)))%string in
  let probe := net (S k) target in
  let before :=
    fetch_rule net url
      (brand_rule tldextract url
         (length_rule tldextract url (ip_rule url (https_rule url st)))) in
  let after := analyze_url tldextract net st url in
  requests after = requests st ++ [url; target] /\
  reasons after = reasons st ++ url_reasons tldextract net k url /\
  (In "ssl certificate check failed" (url_reasons tldextract net k url) <->
   probe = Raised \/ exists code h, probe = Resp code h /\ 500 <= code) /\
  reasons after =
    reasons before ++
    (if cert_fails probe then ["ssl certificate check failed"] else []) /\
  score after =
    (if cert_fails probe then F64.add (score before) (F64.dec 15 100)
     else score before) /\
  (forall code h, 500 <= code -> cert_fails (Resp code h) = true).
Proof.
  intros k target probe before after.
  destruct (analyze_url_spec tldextract net st url) as [R Q].
  assert (Hk : List.length (requests before) = S k).
  { unfold before.
    destruct (fetch_rule_spec net url
                (brand_rule tldextract url
                   (length_rule tldextract url (ip_rule url (https_rule url st)))))
      as [_ ->].
    destruct (brand_rule_spec tldextract url
                (length_rule tldextract url (ip_rule url (https_rule url st))))
      as [_ ->].
    destruct (length_rule_spec tldextract url (ip_rule url (https_rule url st)))
      as [_ ->].
    destruct (ip_rule_spec url (https_rule url st)) as [_ ->].
    destruct (https_rule_spec url st) as [_ ->].
    rewrite length_app. cbn [List.length]. unfold k. lia. }
  destruct (cert_rule_spec tldextract net url before) as (R6 & _ & S6).
  rewrite Hk in R6, S6.
  repeat split.
  - exact Q.
  - exact R.
  - rewrite url_reasons_split. intros H. apply in_app_or in H as [H | H].
    + pose proof (early_reasons_heads tldextract net k url) as F.
      rewrite Forall_forall in F. apply F in H. discriminate H.
    + apply when_In in H as [_ H]. now apply cert_fails_iff.
  - intros H. apply cert_fails_iff in H.
    rewrite url_reasons_split. apply in_or_app. right.
    change (cert_target tldextract url) with target. fold probe.
    rewrite H. now left.
  - exact R6.
  - exact S6.
  - intros code h H. now apply Z.leb_le.
Qed.

(** ** The keyword rule *)

Lemma prefix_append (p s : string) : String.prefix p (p ++ s)%string = true.
Proof.
  induction p as [| c p IH]; cbn [append String.prefix].
  - destruct s; reflexivity.
  - destruct (ascii_dec c c) as [_ | N]; [exact IH | now elim N].
Qed.

Lemma filter_none {A : Type} (f : A -> bool) (l : list A) :
  Forall (fun x => f x = false) l -> filter f l = [].
Proof.
  induction 1 as [| x l Hx _ IH]; cbn [filter]; [reflexivity |].
  now rewrite Hx.
Qed.

Lemma dec_keyword_weights :
  F64.dec 20 100 = F64.f0_20 /\ F64.dec 40 100 = F64.f0_4.
Proof. vm_compute. split; reflexivity. Qed.

Lemma keyword_score (message : string) :
  let N := kw_count (lower message) in
  score (keyword_rule message init_state) =
    if (N =? 0)%nat then F64.zero
    else F64.dec (Z.min (20 * Z.of_nat N) 40) 100.
Proof.
  intros N. unfold keyword_rule. fold N.
  pose proof (kw_count_le (lower message)) as Hle. fold N in Hle.
  destruct N as [| n]; [reflexivity |].
  cbn [Nat.eqb add_reason score init_state].
  fold (kw_weight (S n)). rewrite kw_weight_value by lia.
  destruct dec_keyword_weights as [D20 D40].
  destruct n as [| n].
  - cbn [Nat.eqb]. change (Z.min (20 * Z.of_nat 1) 40) with 20.
    rewrite D20. reflexivity.
  - cbn [Nat.eqb]. rewrite Z.min_r by lia. rewrite D40. reflexivity.
Qed.

(** C6. The keyword rule is applied once, to the lowercased message.
    With [N] the number of the 14 keywords found in it as substrings,
    the score after the rule is [min(0.2 * N, 0.4)] (nothing for
    [N = 0]), which is the cap 0.4 exactly when [N >= 2]; the rule adds
    the single reason "suspicious keywords (N)" exactly when [N >= 1],
    and no other reason of the analysis is a keyword reason. *)
Theorem keyword_rule_contribution
  (tldextract : string -> ExtractResult) (net : network)
  (message : string) (urls : list string) :
  let N := kw_count (lower message) in
  let st := keyword_rule message init_state in
  let rs := snd (analyze_payload tldextract net message urls) in
  N = List.length
        (filter (fun k => contains k (lower message)) SUSPICIOUS_KEYWORDS) /\
  List.length SUSPICIOUS_KEYWORDS = 14%nat /\
  (N <= 14)%nat /\
  score st =
    (if (N =? 0)%nat then F64.zero
     else F64.dec (Z.min (20 * Z.of_nat N) 40) 100) /\
  (score st = F64.dec 40 100 <-> (2 <= N)%nat) /\
  reasons st =
    (if (N =? 0)%nat then []
     else [("suspicious keywords (" ++ str_of_nat N ++ ")")%string]) /\
  rs = reasons st ++ all_url_reasons tldextract net 0 urls /\
  List.length (filter is_keyword_reason rs) = (if (N =? 0)%nat then 0 else 1)%nat.
Proof.
  intros N st rs.
  pose proof (kw_count_le (lower message)) as Hle. fold N in Hle.
  pose proof (keyword_score message) as Hs. cbn zeta in Hs. fold N st in Hs.
  destruct (keyword_rule_reasons message) as [Hr _]. fold st in Hr.
  assert (Hk : reasons st =
               if (N =? 0)%nat then []
               else [("suspicious keywords (" ++ str_of_nat N ++ ")")%string]).
  { rewrite Hr. unfold keyword_reasons. fold N. destruct N; reflexivity. }
  destruct (analyze_state_spec tldextract net message urls) as [R _].
  assert (Hrs : rs = reasons st ++ all_url_reasons tldextract net 0 urls).
  { unfold rs, analyze_payload. cbn [snd]. rewrite R, Hr. reflexivity. }
  repeat split; try assumption; try reflexivity.
  - rewrite Hs. destruct N as [| [| n]]; cbn [Nat.eqb].
    + intros H. vm_compute in H. discriminate H.
    + intros H. vm_compute in H. discriminate H.
    + intros _. lia.
  - intros H. rewrite Hs. destruct N as [| [| n]]; try lia.
    cbn [Nat.eqb]. rewrite Z.min_r by lia. reflexivity.
  - rewrite Hrs, filter_app.
    rewrite (filter_none _ _ (all_url_reasons_not_keyword tldextract net urls 0)).
    rewrite app_nil_r, Hk.
    destruct (N =? 0)%nat; [reflexivity |].
    cbn [filter]. unfold is_keyword_reason. rewrite prefix_append. reflexivity.
Qed.

(** C7 as stated fails on the count: "verify your" is one of the 14
    keywords and is found in the message as well, so four keywords match,
    not three. *)
Lemma scenario1_count_is_not_three :
  filter (fun k => contains k (lower "Urgent! Verify your account"))
    SUSPICIOUS_KEYWORDS <> ["urgent"; "verify"; "account"] /\
  kw_count (lower "Urgent! Verify your account") <> 3%nat.
Proof. split; vm_compute; discriminate. Qed.

(** C7, amended. For the message "Urgent! Verify your account" and no
    URL, the keywords found are "urgent", "verify", "verify your" and
    "account" (count 4), the keyword weight is min(0.8, 0.4) = 0.4, the
    score is 0.40, the verdict "suspicious" and the only reason
    "suspicious keywords (4)". *)
Theorem scenario1_urgent_verify
  (tldextract : string -> ExtractResult) (net : network) :
  filter (fun k => contains k (lower "Urgent! Verify your account"))
    SUSPICIOUS_KEYWORDS = ["urgent"; "verify"; "verify your"; "account"] /\
  kw_count (lower "Urgent! Verify your account") = 4%nat /\
  F64.mul F64.f0_20 (F64.of_Z 4) = F64.dec 80 100 /\
  kw_weight 4 = F64.min (F64.dec 80 100) (F64.dec 40 100) /\
  kw_weight 4 = F64.dec 40 100 /\
  analyze_payload tldextract net "Urgent! Verify your account" [] =
    ("suspicious", F64.dec 40 100, ["suspicious keywords (4)"]).
Proof. repeat split; vm_compute; reflexivity. Qed.

(** ** The awareness score *)

Lemma awareness_score_no_reports (r : user) :
  total_reports r = 0 -> awareness_score r = Some 0.
Proof. unfold awareness_score. intros ->. reflexivity. Qed.

Lemma awareness_score_nonneg (r : user) (v : Z) :
  awareness_score r = Some v -> 0 <= v.
Proof.
  unfold awareness_score. destruct (0 <? total_reports r).
  - destruct (F64.int_truediv _ _); [| discriminate].
    destruct (F64.to_int _); [| discriminate].
    intros [= <-]. lia.
  - intros [= <-]. lia.
Qed.

Example awareness_score_scenario3 :
  awareness_score (row 10 8 1) = Some 78 /\ awareness_formula 10 8 1 = 78.
Proof. vm_compute. split; reflexivity. Qed.

(** C3 at total_reports = 50, correct_reports = 29, false_positives = 0:
    the percentage term is computed in binary floating point, where
    29/50 is just below 0.58 and its product with 100 just below 58, so
    the truncation gives 57 where the formula of the claim gives
    floor(58) = 58. *)
Theorem awareness_score_truncation_slip :
  awareness_score (row 50 29 0) = Some 57 /\
  awareness_formula 50 29 0 = 58 /\
  F64.to_int (F64.mul (F64.dec 29 50) F64.f100) = Some 57.
Proof. vm_compute. repeat split; reflexivity. Qed.

(** ** The URLs considered by a submission *)

Lemma analyze_urls (tldextract : string -> ExtractResult)
  (list_of_set : list string -> list string)
  (net : network) (now : string) (db : database) (sub : SubmissionIn) :
  out_urls (snd (analyze tldextract list_of_set net now db sub)) =
    considered_urls list_of_set sub /\
  map sub_urls (submissions (fst (analyze tldextract list_of_set net now db sub))) =
    map sub_urls (submissions db) ++ [considered_urls list_of_set sub].
Proof.
  unfold analyze.
  destruct (analyze_payload tldextract net _ _) as [[v s] rs].
  cbn [snd out_urls fst]. split; [reflexivity |].
  destruct (select_users _ _); cbn [insert_or_replace_user update_users
    insert_submission submissions]; rewrite map_app; reflexivity.
Qed.

(** C9 as stated fails for URLs supplied in the request: they are used
    and stored as given, duplicates included. *)
Lemma explicit_urls_keep_duplicates :
  let sub := submit "u" "" ["http://a.com"; "http://a.com"] in
  let res := analyze sample_extract first_seen no_network "t" empty_db sub in
  considered_urls first_seen sub = ["http://a.com"; "http://a.com"] /\
  out_urls (snd res) = ["http://a.com"; "http://a.com"] /\
  map sub_urls (submissions (fst res)) = [["http://a.com"; "http://a.com"]] /\
  ~ NoDup (out_urls (snd res)).
Proof.
  vm_compute. repeat split.
  intros H. inversion H as [| x l Hin _]. apply Hin. now left.
Qed.

(** C9, amended. The URLs derived from the message by the extractor
    contain no duplicates, and they are the ones considered (returned
    and stored) when the request carries no URL list or an empty one; a
    non-empty URL list of the request is considered as it is. *)
Theorem extracted_urls_nodup
  (tldextract : string -> ExtractResult)
  (list_of_set : list string -> list string)
  (list_of_set_spec :
     forall l, Permutation (list_of_set l) (nodup string_dec l)) :
  (forall text, NoDup (extract_urls_from_text list_of_set text)) /\
  (forall sub,
      in_urls sub = None \/ in_urls sub = Some [] ->
      considered_urls list_of_set sub =
        extract_urls_from_text list_of_set (or_empty (in_message sub)) /\
      NoDup (considered_urls list_of_set sub)) /\
  (forall sub u l,
      in_urls sub = Some (u :: l) ->
      considered_urls list_of_set sub = u :: l) /\
  (forall net now db sub,
      out_urls (snd (analyze tldextract list_of_set net now db sub)) =
        considered_urls list_of_set sub /\
      map sub_urls
          (submissions (fst (analyze tldextract list_of_set net now db sub))) =
        map sub_urls (submissions db) ++ [considered_urls list_of_set sub]).
Proof.
  assert (Hx : forall text, NoDup (extract_urls_from_text list_of_set text)).
  { intros text. unfold extract_urls_from_text.
    destruct (nonempty text); [| constructor].
    eapply Permutation_NoDup; [symmetry; apply list_of_set_spec |].
    apply NoDup_nodup. }
  split; [exact Hx |]. split; [| split].
  - intros sub H. split.
    + unfold considered_urls. destruct H as [-> | ->]; reflexivity.
    + unfold considered_urls. destruct H as [-> | ->]; apply Hx.
  - intros sub u l H. unfold considered_urls. now rewrite H.
  - intros net now db sub. apply analyze_urls.
Qed.

Lemma extracted_urls_nodup_witness :
  (forall l, Permutation (first_seen l) (nodup string_dec l)) /\
  extract_urls_from_text first_seen
    "see http://a.com/x and http://a.com/x or https://b.org" =
    ["http://a.com/x"; "https://b.org"] /\
  NoDup (extract_urls_from_text first_seen
    "see http://a.com/x and http://a.com/x or https://b.org").
Proof.
  split; [intros l; apply Permutation_refl |].
  split; [vm_compute; reflexivity |].
  apply (extracted_urls_nodup sample_extract first_seen).
  intros l. apply Permutation_refl.
Defined.

(** ** The feedback endpoint *)

Lemma bump_zero (u : user) : bump (0, 0) u = u.
Proof. destruct u. unfold bump. cbn. now rewrite !Z.add_0_r. Qed.

Lemma bump_rows_zero (uid : option string) (l : list user) :
  bump_rows (0, 0) uid l = l.
Proof.
  unfold bump_rows. induction l as [| u l IH]; cbn [map]; [reflexivity |].
  rewrite IH, bump_zero. now destruct (sql_eq _ _).
Qed.

Lemma bump_rows_correct (uid : option string) (l : list user) :
  map (fun u => if sql_eq (user_id u) uid then incr_correct u else u) l =
  bump_rows (1, 0) uid l.
Proof.
  unfold bump_rows. apply map_ext. intros u.
  destruct (sql_eq _ _); [| reflexivity].
  destruct u. unfold incr_correct, bump. cbn. now rewrite Z.add_0_r.
Qed.

Lemma bump_rows_false_positive (uid : option string) (l : list user) :
  map (fun u => if sql_eq (user_id u) uid then incr_false_positives u else u) l =
  bump_rows (0, 1) uid l.
Proof.
  unfold bump_rows. apply map_ext. intros u.
  destruct (sql_eq _ _); [| reflexivity].
  destruct u. unfold incr_false_positives, bump. cbn. now rewrite Z.add_0_r.
Qed.

(** What a feedback request does to the store, in one equation. *)
Lemma feedback_spec (db : database) (i : Z) (fb : string)
  (sub : submission) (rest : list submission) :
  select_submissions db i = sub :: rest ->
  feedback db i fb =
    Ok {| submissions :=
            map (fun s => if id s =? i then set_feedback fb s else s)
              (submissions db);
          users := bump_rows (reconcile (verdict sub) fb) (sub_user_id sub)
                     (users db);
          last_id := last_id db |}.
Proof.
  intros Hsel. unfold feedback. rewrite Hsel. unfold reconcile. f_equal.
  destruct (String.eqb fb "malicious") eqn:Em; cbn [andb].
  - destruct (String.eqb (verdict sub) "malicious"); cbn [andb].
    + unfold update_users, update_feedback. cbn. now rewrite bump_rows_correct.
    + apply String.eqb_eq in Em. subst fb. cbn [String.eqb Ascii.eqb Bool.eqb andb].
      unfold update_feedback. now rewrite bump_rows_zero.
  - destruct (String.eqb fb "safe") eqn:Es; cbn [andb].
    + destruct (String.eqb (verdict sub) "safe"); cbn [negb].
      * unfold update_users, update_feedback. cbn. now rewrite bump_rows_correct.
      * unfold update_users, update_feedback. cbn.
        now rewrite bump_rows_false_positive.
    + unfold update_feedback. now rewrite bump_rows_zero.
Qed.

Lemma select_after_feedback (l : list submission) (i : Z) (fb : string) :
  filter (fun s => id s =? i)
    (map (fun s => if id s =? i then set_feedback fb s else s) l) =
  map (set_feedback fb) (filter (fun s => id s =? i) l).
Proof.
  induction l as [| s l IH]; cbn [map filter]; [reflexivity |].
  destruct (id s =? i) eqn:E.
  - cbn [set_feedback id]. rewrite E. cbn [map]. now rewrite IH.
  - rewrite E. exact IH.
Qed.

Lemma set_feedback_twice (l : list submission) (i : Z) (fb : string) :
  map (fun s => if id s =? i then set_feedback fb s else s)
    (map (fun s => if id s =? i then set_feedback fb s else s) l) =
  map (fun s => if id s =? i then set_feedback fb s else s) l.
Proof.
  rewrite map_map. apply map_ext. intros s.
  destruct (id s =? i) eqn:E; cbn [set_feedback id]; rewrite E; reflexivity.
Qed.

Lemma bump_rows_twice (d : Z * Z) (uid : option string) (l : list user) :
  bump_rows d uid (bump_rows d uid l) =
  bump_rows (2 * fst d, 2 * snd d) uid l.
Proof.
  destruct d as [dc dfp].
  unfold bump_rows. rewrite map_map. apply map_ext. intros u.
  destruct (sql_eq (user_id u) uid) eqn:E; cbn [bump user_id]; rewrite E.
  - unfold bump. cbn [fst snd user_id display_name total_reports
      correct_reports false_positives]. f_equal; lia.
  - reflexivity.
Qed.

Lemma reconcile_table (v fb : string) :
  (fb = "malicious" -> v = "malicious" -> reconcile v fb = (1, 0)) /\
  (fb = "safe" -> v = "safe" -> reconcile v fb = (1, 0)) /\
  (fb = "safe" -> v <> "safe" -> reconcile v fb = (0, 1)) /\
  (fb = "malicious" -> v <> "malicious" -> reconcile v fb = (0, 0)) /\
  (fb <> "safe" -> fb <> "malicious" -> reconcile v fb = (0, 0)).
Proof.
  unfold reconcile. repeat split.
  - intros -> ->. reflexivity.
  - intros -> ->. reflexivity.
  - intros -> H. apply String.eqb_neq in H. cbn. now rewrite H.
  - intros -> H. apply String.eqb_neq in H. cbn. now rewrite H.
  - intros H1 H2. apply String.eqb_neq in H1, H2. now rewrite H1, H2.
Qed.

(** C4. A feedback request on a stored submission stores the label
    and changes the counters of the submitter's rows by the ordered
    decision: "malicious" on a "malicious" verdict and "safe" on a "safe"
    verdict add 1 to [correct_reports]; "safe" on another verdict adds 1
    to [false_positives]; "malicious" on another verdict ("suspicious",
    "safe") and every other label change no counter. *)
Theorem feedback_reconciliation (db : database) (i : Z) (fb : string)
  (sub : submission) (rest : list submission)
  (Hsub : select_submissions db i = sub :: rest) :
  exists db' dc dfp,
    feedback db i fb = Ok db' /\
    (forall s, In s (select_submissions db' i) -> sub_feedback s = Some fb) /\
    users db' =
      map (fun u =>
             if sql_eq (user_id u) (sub_user_id sub) then
               {| user_id := user_id u; display_name := display_name u;
                  total_reports := total_reports u;
                  correct_reports := correct_reports u + dc;
                  false_positives := false_positives u + dfp |}
             else u) (users db) /\
    (fb = "malicious" -> verdict sub = "malicious" -> dc = 1 /\ dfp = 0) /\
    (fb = "safe" -> verdict sub = "safe" -> dc = 1 /\ dfp = 0) /\
    (fb = "safe" -> verdict sub <> "safe" -> dc = 0 /\ dfp = 1) /\
    (fb = "malicious" -> verdict sub <> "malicious" -> dc = 0 /\ dfp = 0) /\
    (fb <> "safe" -> fb <> "malicious" -> dc = 0 /\ dfp = 0).
Proof.
  eexists _, (fst (reconcile (verdict sub) fb)), (snd (reconcile (verdict sub) fb)).
  split; [apply (feedback_spec db i fb sub rest Hsub) |].
  split.
  { unfold select_submissions. cbn [submissions].
    rewrite select_after_feedback. intros s Hs.
    apply in_map_iff in Hs as (s0 & <- & _). reflexivity. }
  split; [reflexivity |].
  destruct (reconcile_table (verdict sub) fb) as (T1 & T2 & T3 & T4 & T5).
  split; [intros H1 H2; rewrite (T1 H1 H2); now split |].
  split; [intros H1 H2; rewrite (T2 H1 H2); now split |].
  split; [intros H1 H2; rewrite (T3 H1 H2); now split |].
  split; [intros H1 H2; rewrite (T4 H1 H2); now split |].
  intros H1 H2; rewrite (T5 H1 H2); now split.
Qed.

Example sample_db_reached :
  run sample_extract first_seen
    [ReqAnalyze no_network "2024-05-01T10:00:00"
       (submit "alice" "" ["http://192.168.1.1/login"])] = sample_db.
Proof. vm_compute. reflexivity. Qed.

Lemma feedback_reconciliation_witness :
  select_submissions sample_db 1 = [sample_submission] /\
  exists db',
    feedback sample_db 1 "malicious" = Ok db' /\
    map correct_reports (users db') = [1] /\
    map false_positives (users db') = [0].
Proof.
  split; [reflexivity |].
  destruct (feedback_reconciliation sample_db 1 "malicious" sample_submission []
              eq_refl)
    as (db' & dc & dfp & Hf & _ & Hu & H1 & _).
  exists db'. split; [exact Hf |].
  destruct (H1 eq_refl eq_refl) as [-> ->].
  rewrite Hu. split; reflexivity.
Defined.

Lemma map_neq {A B : Type} (f g : A -> B) (l : list A) (x : A) :
  In x l -> f x <> g x -> map f l <> map g l.
Proof.
  induction l as [| y l IH]; intros Hin Hne; [destruct Hin |].
  cbn [map]. intros [= H1 H2]. destruct Hin as [-> | Hin].
  - now apply Hne.
  - now apply (IH Hin Hne).
Qed.

(** C5. Two identical feedback requests on one submission both
    succeed; each stores the label again, and the second applies the
    deltas of the first once more, so the counters of the submitter's
    rows end at twice the single-call delta. Whenever that delta is not
    zero and the submitter has a row, the second request changes the
    store: the operation is not idempotent. *)
Theorem feedback_twice_doubles (db : database) (i : Z) (fb : string)
  (sub : submission) (rest : list submission)
  (Hsub : select_submissions db i = sub :: rest) :
  exists db1 db2 dc dfp,
    feedback db i fb = Ok db1 /\
    feedback db1 i fb = Ok db2 /\
    (dc, dfp) = reconcile (verdict sub) fb /\
    (forall s, In s (select_submissions db1 i) -> sub_feedback s = Some fb) /\
    (forall s, In s (select_submissions db2 i) -> sub_feedback s = Some fb) /\
    users db1 = bump_rows (dc, dfp) (sub_user_id sub) (users db) /\
    users db2 = bump_rows (2 * dc, 2 * dfp) (sub_user_id sub) (users db) /\
    ((dc <> 0 \/ dfp <> 0) ->
     (exists u, In u (users db) /\
                sql_eq (user_id u) (sub_user_id sub) = true) ->
     users db2 <> users db1).
Proof.
  pose proof (feedback_spec db i fb sub rest Hsub) as H1.
  set (db1 := {| submissions :=
                   map (fun s => if id s =? i then set_feedback fb s else s)
                     (submissions db);
                 users := bump_rows (reconcile (verdict sub) fb)
                            (sub_user_id sub) (users db);
                 last_id := last_id db |}) in *.
  assert (Hsel1 : select_submissions db1 i =
                  set_feedback fb sub :: map (set_feedback fb) rest).
  { unfold select_submissions, db1. cbn [submissions].
    rewrite select_after_feedback.
    unfold select_submissions in Hsub. rewrite Hsub. reflexivity. }
  pose proof (feedback_spec db1 i fb _ _ Hsel1) as H2.
  cbn [set_feedback verdict sub_user_id] in H2.
  unfold db1 in H2 at 2 3 4. cbn [submissions users last_id] in H2.
  rewrite set_feedback_twice, bump_rows_twice in H2.
  destruct (reconcile (verdict sub) fb) as [dc dfp] eqn:Hd.
  cbn [fst snd] in H2.
  eexists db1, _, dc, dfp.
  split; [exact H1 |]. split; [exact H2 |]. split; [reflexivity |].
  split.
  { rewrite Hsel1. intros s [<- | Hs]; [reflexivity |].
    apply in_map_iff in Hs as (s0 & <- & _). reflexivity. }
  split.
  { unfold select_submissions. cbn [submissions].
    rewrite select_after_feedback. intros s Hs.
    apply in_map_iff in Hs as (s0 & <- & _). reflexivity. }
  split; [reflexivity |]. split; [reflexivity |].
  intros Hnz (u & Hin & Hu). cbn [users]. unfold db1. cbn [users].
  unfold bump_rows. apply (map_neq _ _ _ u Hin).
  rewrite Hu. unfold bump. cbn [fst snd]. intros HH.
  pose proof (f_equal correct_reports HH) as Hc.
  pose proof (f_equal false_positives HH) as Hf.
  cbn [correct_reports false_positives] in Hc, Hf. lia.
Qed.

Lemma feedback_twice_doubles_witness :
  select_submissions sample_db 1 = [sample_submission] /\
  exists db1 db2,
    feedback sample_db 1 "malicious" = Ok db1 /\
    feedback db1 1 "malicious" = Ok db2 /\
    map correct_reports (users db1) = [1] /\
    map correct_reports (users db2) = [2] /\
    map total_reports (users db2) = [1].
Proof.
  split; [reflexivity |].
  destruct (feedback_twice_doubles sample_db 1 "malicious" sample_submission []
              eq_refl)
    as (db1 & db2 & dc & dfp & H1 & H2 & Hd & _ & _ & U1 & U2 & _).
  exists db1, db2. split; [exact H1 |]. split; [exact H2 |].
  vm_compute in Hd. injection Hd as -> ->.
  rewrite U1, U2. repeat split.
Defined.

(** ** The counters of the users *)

Lemma filter_nil_all {A : Type} (f : A -> bool) (l : list A) :
  filter f l = [] -> forall x, In x l -> f x = false.
Proof.
  induction l as [| y l IH]; intros H x Hin; [destruct Hin |].
  cbn [filter] in H. destruct (f y) eqn:E; [discriminate |].
  destruct Hin as [-> | Hin]; [exact E | now apply IH].
Qed.

Lemma filter_all {A : Type} (f : A -> bool) (l : list A) :
  (forall x, In x l -> f x = true) -> filter f l = l.
Proof.
  induction l as [| y l IH]; intros H; cbn [filter]; [reflexivity |].
  rewrite (H y (or_introl eq_refl)). f_equal. apply IH.
  intros x Hx. apply H. now right.
Qed.

(** The store after an analysis: one submission more, without label,
    and either a new row for the submitter or one more report on the
    rows the submitter has. *)
Lemma analyze_store (tldextract : string -> ExtractResult)
  (list_of_set : list string -> list string)
  (net : network) (now : string) (db : database) (sub : SubmissionIn) :
  let db' := fst (analyze tldextract list_of_set net now db sub) in
  let uid := in_user_id sub in
  (exists s,
      sub_user_id s = uid /\ sub_feedback s = None /\
      submissions db' = submissions db ++ [s]) /\
  users db' =
    match select_users db uid with
    | [] => users db ++ [new_user uid]
    | _ => map (fun u => if sql_eq (user_id u) uid then incr_total u else u)
             (users db)
    end.
Proof.
  unfold analyze.
  destruct (analyze_payload tldextract net _ _) as [[v s] rs].
  cbn [fst].
  change (select_users (insert_submission db _) (in_user_id sub))
    with (select_users db (in_user_id sub)).
  destruct (select_users db (in_user_id sub)) as [| r0 l0] eqn:Hsel.
  - cbn [insert_or_replace_user insert_submission submissions users user_id].
    split.
    { eexists. split; [| split]. 3: reflexivity. all: reflexivity. }
    f_equal. apply filter_all. intros x Hx.
    pose proof (filter_nil_all _ _ Hsel x Hx) as E. cbn beta in E.
    now rewrite E.
  - cbn [update_users insert_submission submissions users].
    split; [| reflexivity].
    eexists. split; [| split]. 3: reflexivity. all: reflexivity.
Qed.

Lemma feedback_cases (db : database) (i : Z) (fb : string) :
  (select_submissions db i = [] /\
   feedback db i fb = HTTPException 404 "submission not found") \/
  (exists sub rest,
      select_submissions db i = sub :: rest /\
      feedback db i fb =
        Ok {| submissions :=
                map (fun s => if id s =? i then set_feedback fb s else s)
                  (submissions db);
              users := bump_rows (reconcile (verdict sub) fb)
                         (sub_user_id sub) (users db);
              last_id := last_id db |}).
Proof.
  destruct (select_submissions db i) as [| sub rest] eqn:Hsel.
  - left. split; [reflexivity |]. unfold feedback. now rewrite Hsel.
  - right. exists sub, rest. split; [reflexivity |].
    now apply feedback_spec with rest.
Qed.

Lemma reconcile_range (v fb : string) :
  0 <= fst (reconcile v fb) /\ 0 <= snd (reconcile v fb) /\
  fst (reconcile v fb) + snd (reconcile v fb) <= 1.
Proof.
  unfold reconcile.
  destruct (String.eqb fb "malicious"), (String.eqb fb "safe"),
    (String.eqb v "malicious"), (String.eqb v "safe"); cbn; lia.
Qed.

(** Counting lemmas. *)
Lemma cnt_nonneg {A : Type} (f : A -> bool) (l : list A) : 0 <= cnt f l.
Proof. unfold cnt. lia. Qed.

Lemma cnt_app {A : Type} (f : A -> bool) (l1 l2 : list A) :
  cnt f (l1 ++ l2) = cnt f l1 + cnt f l2.
Proof. unfold cnt. rewrite filter_app, length_app. lia. Qed.

Lemma cnt_cons {A : Type} (f : A -> bool) (x : A) (l : list A) :
  cnt f (x :: l) = (if f x then 1 else 0) + cnt f l.
Proof.
  unfold cnt. cbn [filter]. destruct (f x); cbn [List.length]; lia.
Qed.

Lemma cnt_le {A : Type} (f g : A -> bool) (l : list A) :
  (forall x, f x = true -> g x = true) -> cnt f l <= cnt g l.
Proof.
  intros H. induction l as [| x l IH]; [reflexivity |].
  rewrite !cnt_cons. specialize (H x).
  destruct (f x), (g x); try lia; discriminate (H eq_refl).
Qed.

Lemma cnt_zero {A : Type} (f : A -> bool) (l : list A) :
  (forall x, In x l -> f x = false) -> cnt f l = 0.
Proof.
  intros H. induction l as [| x l IH]; [reflexivity |].
  rewrite cnt_cons, (H x (or_introl eq_refl)), IH; [reflexivity |].
  intros y Hy. apply H. now right.
Qed.

Lemma cnt_map_same {A : Type} (f : A -> bool) (g : A -> A) (l : list A) :
  (forall x, f (g x) = f x) -> cnt f (map g l) = cnt f l.
Proof.
  intros H. induction l as [| x l IH]; [reflexivity |].
  cbn [map]. now rewrite !cnt_cons, H, IH.
Qed.

Lemma cnt_map_mono {A : Type} (f : A -> bool) (g : A -> A) (l : list A) :
  (forall x, f x = true -> f (g x) = true) -> cnt f l <= cnt f (map g l).
Proof.
  intros H. induction l as [| x l IH]; [reflexivity |].
  cbn [map]. rewrite !cnt_cons. specialize (H x).
  destruct (f x), (f (g x)); try lia; discriminate (H eq_refl).
Qed.

Lemma cnt_map_strict {A : Type} (f : A -> bool) (g : A -> A) (l : list A)
  (x0 : A) :
  (forall x, f x = true -> f (g x) = true) ->
  In x0 l -> f x0 = false -> f (g x0) = true ->
  cnt f l + 1 <= cnt f (map g l).
Proof.
  intros H Hin H0 H1. induction l as [| x l IH]; [destruct Hin |].
  cbn [map]. rewrite !cnt_cons. destruct Hin as [-> | Hin].
  - rewrite H0, H1. pose proof (cnt_map_mono f g l H). lia.
  - specialize (IH Hin). specialize (H x).
    destruct (f x), (f (g x)); try lia; discriminate (H eq_refl).
Qed.

Lemma sql_eq_true (a b : option string) :
  sql_eq a b = true -> exists u, a = Some u /\ b = Some u.
Proof.
  destruct a as [x |], b as [y |]; cbn [sql_eq]; try discriminate.
  intros H. apply String.eqb_eq in H. subst. now exists y.
Qed.

Lemma sql_eq_refl (u : string) : sql_eq (Some u) (Some u) = true.
Proof. cbn [sql_eq]. apply String.eqb_refl. Qed.

Lemma sql_eq_sym (a b : option string) : sql_eq a b = sql_eq b a.
Proof.
  destruct a as [x |], b as [y |]; cbn [sql_eq]; try reflexivity.
  apply String.eqb_sym.
Qed.

Lemma row_ok_counts (db db' : database) (r : user) (dt dc df : Z) :
  row_ok db r ->
  0 <= dc -> 0 <= df ->
  (forall u, user_id r = Some u ->
     n_subs db' u <= n_subs db u + dt /\
     n_fed db u + dc + df <= n_fed db' u) ->
  (user_id r = None -> dt = 0 /\ dc = 0 /\ df = 0) ->
  row_ok db'
    {| user_id := user_id r; display_name := display_name r;
       total_reports := total_reports r + dt;
       correct_reports := correct_reports r + dc;
       false_positives := false_positives r + df |}.
Proof.
  intros (Hc & Hf & H) Hdc Hdf Hu Hn. unfold row_ok.
  cbn [user_id total_reports correct_reports false_positives].
  split; [lia |]. split; [lia |].
  destruct (user_id r) as [u |].
  - destruct (Hu u eq_refl). lia.
  - destruct (Hn eq_refl) as (-> & -> & ->). lia.
Qed.

Lemma row_same (r : user) :
  {| user_id := user_id r; display_name := display_name r;
     total_reports := total_reports r + 0;
     correct_reports := correct_reports r + 0;
     false_positives := false_positives r + 0 |} = r.
Proof. destruct r. cbn. now rewrite !Z.add_0_r. Qed.

Lemma incr_total_row (r : user) :
  incr_total r =
  {| user_id := user_id r; display_name := display_name r;
     total_reports := total_reports r + 1;
     correct_reports := correct_reports r + 0;
     false_positives := false_positives r + 0 |}.
Proof. destruct r. unfold incr_total. cbn. now rewrite !Z.add_0_r. Qed.

Lemma store_inv_weaken (fed more : list Z) (db : database) :
  store_inv fed db -> store_inv (fed ++ more) db.
Proof.
  intros (H1 & H2 & H3). repeat split; try assumption.
  intros s Hs Hf. apply in_or_app. left. now apply H2.
Qed.

Lemma store_inv_analyze (tldextract : string -> ExtractResult)
  (list_of_set : list string -> list string)
  (net : network) (now : string) (sub : SubmissionIn)
  (fed : list Z) (db : database) :
  store_inv fed db ->
  store_inv fed (fst (analyze tldextract list_of_set net now db sub)).
Proof.
  intros (Hrows & Hfed & Hown).
  destruct (analyze_store tldextract list_of_set net now db sub)
    as [(s & Hsu & Hsf & Hsubs) Husers].
  set (db' := fst (analyze tldextract list_of_set net now db sub)) in *.
  set (uid := in_user_id sub) in *.
  assert (Hfs : has_feedback s = false) by (unfold has_feedback; now rewrite Hsf).
  assert (Hn : forall u,
             n_subs db' u = n_subs db u + (if sql_eq uid (Some u) then 1 else 0)).
  { intros u. unfold n_subs. rewrite Hsubs, cnt_app, cnt_cons.
    change (by_user u s) with (sql_eq (sub_user_id s) (Some u)).
    rewrite Hsu. change (cnt (by_user u) []) with 0. lia. }
  assert (Hm : forall u, n_fed db' u = n_fed db u).
  { intros u. unfold n_fed. rewrite Hsubs, cnt_app, cnt_cons.
    rewrite Hfs, andb_false_r.
    change (cnt (fun s0 => by_user u s0 && has_feedback s0) []) with 0. lia. }
  rewrite Forall_forall in Hrows.
  split; [| split].
  - apply Forall_forall. intros r' Hr'. rewrite Husers in Hr'.
    destruct (select_users db uid) as [| r0 l0] eqn:Hsel.
    + apply in_app_or in Hr' as [Hr | [<- | []]].
      * rewrite <- (row_same r'). apply (row_ok_counts db); try lia.
        { now apply Hrows. }
        { intros u Hu. rewrite Hn, Hm.
          destruct (sql_eq uid (Some u)) eqn:E; [| lia].
          pose proof (filter_nil_all _ _ Hsel r' Hr) as N. cbn beta in N.
          rewrite Hu, sql_eq_sym, E in N. discriminate N. }
      * unfold row_ok, new_user. cbn [user_id total_reports correct_reports
          false_positives].
        split; [lia |]. split; [lia |].
        destruct uid as [u |] eqn:Eu; [| lia].
        rewrite Hn, sql_eq_refl.
        assert (Z0 : n_subs db u = 0).
        { apply cnt_zero. intros s0 Hs0. unfold by_user.
          destruct (sql_eq (sub_user_id s0) (Some u)) eqn:E; [| reflexivity].
          apply sql_eq_true in E as (u0 & E1 & [= <-]).
          destruct (Hown s0 u Hs0 E1) as (r & Hr & Hru).
          pose proof (filter_nil_all _ _ Hsel r Hr) as N. cbn beta in N.
          rewrite Hru, sql_eq_refl in N. discriminate N. }
        pose proof (cnt_nonneg (fun s0 => by_user u s0 && has_feedback s0)
                      (submissions db')) as P.
        fold (n_fed db' u) in P. lia.
    + apply in_map_iff in Hr' as (r & <- & Hr).
      destruct (sql_eq (user_id r) uid) eqn:E.
      * rewrite incr_total_row. apply (row_ok_counts db); try lia.
        { now apply Hrows. }
        { intros u Hu. rewrite Hn, Hm. destruct (sql_eq uid (Some u)); lia. }
        { intros Hnone. rewrite Hnone in E. discriminate E. }
      * rewrite <- (row_same r). apply (row_ok_counts db); try lia.
        { now apply Hrows. }
        { intros u Hu. rewrite Hn, Hm.
          rewrite Hu, sql_eq_sym in E. rewrite E. lia. }
  - intros s' Hs' Hf'. rewrite Hsubs in Hs'.
    apply in_app_or in Hs' as [Hs' | [<- | []]]; [now apply Hfed |].
    rewrite Hfs in Hf'. discriminate Hf'.
  - intros s' u Hs' Hu'. rewrite Hsubs in Hs'. rewrite Husers.
    assert (Hkeep : forall r, In r (users db) -> user_id r = Some u ->
              exists r', In r' (match select_users db uid with
                                | [] => users db ++ [new_user uid]
                                | _ :: _ =>
                                    map (fun u0 => if sql_eq (user_id u0) uid
                                                   then incr_total u0 else u0)
                                      (users db)
                                end) /\ user_id r' = Some u).
    { intros r Hr Hru. destruct (select_users db uid).
      - exists r. split; [apply in_or_app; now left | exact Hru].
      - exists (if sql_eq (user_id r) uid then incr_total r else r). split.
        + apply in_map_iff. now exists r.
        + destruct (sql_eq (user_id r) uid); [cbn [incr_total user_id] |]; exact Hru. }
    apply in_app_or in Hs' as [Hs' | [<- | []]].
    + destruct (Hown s' u Hs' Hu') as (r & Hr & Hru). now apply (Hkeep r).
    + rewrite Hsu in Hu'.
      destruct (select_users db uid) as [| r0 l0] eqn:Hsel.
      * exists (new_user uid). split; [apply in_or_app; right; now left |].
        cbn [new_user user_id]. exact Hu'.
      * assert (H0 : In r0 (select_users db uid)) by (rewrite Hsel; now left).
        unfold select_users in H0. apply filter_In in H0 as [Hr0 E0].
        apply sql_eq_true in E0 as (u0 & E1 & E2).
        rewrite Hu' in E2. injection E2 as <-.
        exact (Hkeep r0 Hr0 E1).
Qed.

Lemma bump_row (d : Z * Z) (r : user) :
  bump d r =
  {| user_id := user_id r; display_name := display_name r;
     total_reports := total_reports r + 0;
     correct_reports := correct_reports r + fst d;
     false_positives := false_positives r + snd d |}.
Proof. unfold bump. now rewrite Z.add_0_r. Qed.

Lemma store_inv_feedback (fed : list Z) (db : database) (i : Z) (fb : string) :
  store_inv fed db -> ~ In i fed ->
  store_inv (fed ++ [i])
    (match feedback db i fb with
     | Ok db' => db'
     | HTTPException _ _ => db
     end).
Proof.
  intros Hinv Hnew.
  destruct (feedback_cases db i fb) as [[_ ->] | (sub & rest & Hsel & ->)];
    [now apply store_inv_weaken |].
  destruct Hinv as (Hrows & Hfed & Hown).
  set (g := fun s => if id s =? i then set_feedback fb s else s).
  set (d := reconcile (verdict sub) fb).
  set (db' := {| submissions := map g (submissions db);
                 users := bump_rows d (sub_user_id sub) (users db);
                 last_id := last_id db |}).
  assert (Hsub : In sub (submissions db) /\ (id sub =? i) = true).
  { apply (proj1 (filter_In (fun s => id s =? i) sub (submissions db))).
    unfold select_submissions in Hsel. rewrite Hsel. now left. }
  destruct Hsub as [Hsub Hid].
  assert (Hnf : has_feedback sub = false).
  { destruct (has_feedback sub) eqn:E; [| reflexivity].
    apply Z.eqb_eq in Hid. subst i. elim Hnew. now apply Hfed. }
  assert (Hg_user : forall s, sub_user_id (g s) = sub_user_id s).
  { intros s. unfold g. now destruct (id s =? i). }
  assert (Hg_fed : forall s, has_feedback s = true -> has_feedback (g s) = true).
  { intros s H. unfold g. now destruct (id s =? i). }
  assert (Hn : forall u, n_subs db' u = n_subs db u).
  { intros u. unfold n_subs. cbn [db' submissions]. apply cnt_map_same.
    intros s. unfold by_user. now rewrite Hg_user. }
  assert (Hmono : forall u, n_fed db u <= n_fed db' u).
  { intros u. unfold n_fed. cbn [db' submissions]. apply cnt_map_mono.
    intros s H. apply andb_true_iff in H as [H1 H2].
    unfold by_user in *. rewrite Hg_user, H1. cbn [andb]. now apply Hg_fed. }
  assert (Hstrict : forall u, sub_user_id sub = Some u ->
                              n_fed db u + 1 <= n_fed db' u).
  { intros u Hu. unfold n_fed. cbn [db' submissions].
    apply cnt_map_strict with sub; [| exact Hsub | |].
    - intros s H. apply andb_true_iff in H as [H1 H2].
      unfold by_user in *. rewrite Hg_user, H1. cbn [andb]. now apply Hg_fed.
    - now rewrite Hnf, andb_false_r.
    - unfold by_user. rewrite Hg_user, Hu, sql_eq_refl. cbn [andb].
      unfold g. rewrite Hid. reflexivity. }
  destruct (reconcile_range (verdict sub) fb) as (D1 & D2 & D3). fold d in D1, D2, D3.
  rewrite Forall_forall in Hrows.
  split; [| split].
  - apply Forall_forall. intros r' Hr'. cbn [db' users] in Hr'.
    unfold bump_rows in Hr'. apply in_map_iff in Hr' as (r & <- & Hr).
    destruct (sql_eq (user_id r) (sub_user_id sub)) eqn:E.
    + rewrite bump_row. apply (row_ok_counts db); try lia.
      * now apply Hrows.
      * intros u Hu. rewrite Hn.
        apply sql_eq_true in E as (u0 & E1 & E2).
        rewrite Hu in E1. injection E1 as <-.
        pose proof (Hstrict u E2). lia.
      * intros Hnone. rewrite Hnone in E. discriminate E.
    + rewrite <- (row_same r). apply (row_ok_counts db); try lia.
      * now apply Hrows.
      * intros u Hu. rewrite Hn. pose proof (Hmono u). lia.
  - intros s' Hs' Hf'. cbn [db' submissions] in Hs'.
    apply in_map_iff in Hs' as (s & <- & Hs). apply in_or_app.
    unfold g in *. destruct (id s =? i) eqn:E.
    + right. left. cbn [set_feedback id]. apply Z.eqb_eq in E. now symmetry.
    + left. now apply Hfed.
  - intros s' u Hs' Hu'. cbn [db' submissions] in Hs'.
    apply in_map_iff in Hs' as (s & <- & Hs). rewrite Hg_user in Hu'.
    destruct (Hown s u Hs Hu') as (r & Hr & Hru).
    exists (if sql_eq (user_id r) (sub_user_id sub) then bump d r else r).
    split.
    + cbn [db' users]. unfold bump_rows. apply in_map_iff. now exists r.
    + destruct (sql_eq _ _); [cbn [bump user_id] |]; exact Hru.
Qed.

Section Traces.

Variable tldextract : string -> ExtractResult.
Variable list_of_set : list string -> list string.

Lemma run_snoc (rs : list request) (r : request) :
  run tldextract list_of_set (rs ++ [r]) =
  handle tldextract list_of_set (run tldextract list_of_set rs) r.
Proof. unfold run. now rewrite fold_left_app. Qed.

Lemma feedback_ids_snoc (rs : list request) (r : request) :
  feedback_ids (rs ++ [r]) = feedback_ids rs ++ feedback_ids [r].
Proof. unfold feedback_ids. now rewrite flat_map_app. Qed.

Lemma run_store_inv (rs : list request) :
  NoDup (feedback_ids rs) ->
  store_inv (feedback_ids rs) (run tldextract list_of_set rs).
Proof.
  induction rs as [| r rs IH] using rev_ind; intros Hnd.
  - repeat split.
    + constructor.
    + intros s [].
    + intros s u [].
  - rewrite run_snoc, feedback_ids_snoc. rewrite feedback_ids_snoc in Hnd.
    destruct r as [net now sub | i fb]; cbn [feedback_ids flat_map app] in *.
    + rewrite app_nil_r in *. cbn [handle].
      apply store_inv_analyze. now apply IH.
    + cbn [handle]. apply store_inv_feedback.
      * apply IH. now apply NoDup_remove_1 with (l' := []) (a := i) in Hnd;
          rewrite app_nil_r in Hnd.
      * apply NoDup_remove_2 with (l' := []) (a := i) in Hnd.
        now rewrite app_nil_r in Hnd.
Qed.

Lemma run_nonneg (rs : list request) :
  Forall nonneg_row (users (run tldextract list_of_set rs)).
Proof.
  induction rs as [| r rs IH] using rev_ind; [constructor |].
  rewrite run_snoc. set (db := run tldextract list_of_set rs) in *.
  rewrite Forall_forall in IH. apply Forall_forall. intros r' Hr'.
  destruct r as [net now sub | i fb]; cbn [handle] in Hr'.
  - destruct (analyze_store tldextract list_of_set net now db sub) as [_ Hu].
    rewrite Hu in Hr'. destruct (select_users db (in_user_id sub)).
    + apply in_app_or in Hr' as [Hr | [<- | []]]; [now apply IH |].
      unfold nonneg_row, new_user. cbn. lia.
    + apply in_map_iff in Hr' as (r & <- & Hr). specialize (IH r Hr).
      destruct (sql_eq _ _); [| exact IH].
      unfold nonneg_row, incr_total in *. cbn. lia.
  - destruct (feedback_cases db i fb) as [[_ E] | (sub & rest & _ & E)];
      rewrite E in Hr'; [now apply IH |].
    cbn [users] in Hr'. unfold bump_rows in Hr'.
    apply in_map_iff in Hr' as (r & <- & Hr). specialize (IH r Hr).
    destruct (sql_eq _ _); [| exact IH].
    destruct (reconcile_range (verdict sub) fb) as (D1 & D2 & _).
    unfold nonneg_row, bump in *. cbn. lia.
Qed.

End Traces.

(** C2 as stated fails: a second feedback request on the same
    submission counts it as correct once more, and [correct_reports]
    passes [total_reports]. *)
Lemma repeated_feedback_breaks_invariant :
  users (run sample_extract first_seen
           [ReqAnalyze no_network "2024-05-01T10:00:00" (submit "alice" "hello" []);
            ReqFeedback 1 "safe"; ReqFeedback 1 "safe"]) =
    [{| user_id := Some "alice"; display_name := Some "alice";
        total_reports := 1; correct_reports := 2; false_positives := 0 |}] /\
  ~ (1 >= 2).
Proof. split; [vm_compute; reflexivity | lia]. Qed.

(** C2, amended. After any sequence of analyze and feedback requests
    from the empty store, all counters of every user row are
    non-negative integers; a submitter without a row gets one with
    [total_reports = 1] and the other counters 0; and
    [total_reports >= correct_reports] holds for every row as long as no
    submission id is named by more than one feedback request. *)
Theorem counters_invariant
  (tldextract : string -> ExtractResult)
  (list_of_set : list string -> list string) :
  (forall rs, Forall nonneg_row (users (run tldextract list_of_set rs))) /\
  (forall rs net now sub,
      select_users (run tldextract list_of_set rs) (in_user_id sub) = [] ->
      users (run tldextract list_of_set (rs ++ [ReqAnalyze net now sub])) =
        users (run tldextract list_of_set rs) ++
        [{| user_id := in_user_id sub; display_name := in_user_id sub;
            total_reports := 1; correct_reports := 0;
            false_positives := 0 |}]) /\
  (forall rs,
      NoDup (feedback_ids rs) ->
      Forall (fun r => total_reports r >= correct_reports r)
        (users (run tldextract list_of_set rs))).
Proof.
  split; [apply run_nonneg |]. split.
  - intros rs net now sub Hsel. rewrite run_snoc. cbn [handle].
    destruct (analyze_store tldextract list_of_set net now
                (run tldextract list_of_set rs) sub) as [_ Hu].
    rewrite Hu, Hsel. reflexivity.
  - intros rs Hnd.
    destruct (run_store_inv tldextract list_of_set rs Hnd) as (Hrows & _ & _).
    eapply Forall_impl; [| exact Hrows].
    intros r (Hc & Hf & H). destruct (user_id r) as [u |]; [| lia].
    destruct H as [Ht Hcf].
    assert (n_fed (run tldextract list_of_set rs) u <=
            n_subs (run tldextract list_of_set rs) u).
    { unfold n_fed, n_subs. apply cnt_le. intros s Hs.
      now apply andb_true_iff in Hs as [Hs _]. }
    lia.
Qed.

Lemma counters_invariant_witness :
  NoDup (feedback_ids
           [ReqAnalyze no_network "2024-05-01T10:00:00" (submit "alice" "hello" []);
            ReqFeedback 1 "safe"]) /\
  Forall (fun r => total_reports r >= correct_reports r)
    (users (run sample_extract first_seen
              [ReqAnalyze no_network "2024-05-01T10:00:00" (submit "alice" "hello" []);
               ReqFeedback 1 "safe"])).
Proof.
  assert (H : NoDup (feedback_ids
           [ReqAnalyze no_network "2024-05-01T10:00:00" (submit "alice" "hello" []);
            ReqFeedback 1 "safe"])).
  { cbn. constructor; [intros [] | constructor]. }
  split; [exact H |].
  exact (proj2 (proj2 (counters_invariant sample_extract first_seen)) _ H).
Defined.

(** * Further properties of the code *)

(** ** The URL extractor *)

Lemma prefix_drop (p : string) : forall s,
  String.prefix p s = true -> s = (p ++ drop (String.length p) s)%string.
Proof.
  induction p as [| a p IH]; intros s H; [reflexivity |].
  destruct s as [| b s]; cbn [String.prefix] in H; [discriminate |].
  destruct (ascii_dec a b) as [<- | _]; [| discriminate].
  cbn [String.length drop append]. f_equal. now apply IH.
Qed.

Lemma span_spec (p : ascii -> bool) : forall s a b,
  span p s = (a, b) -> s = (a ++ b)%string /\ all_chars p a = true.
Proof.
  induction s as [| c s IH]; intros a b H; cbn [span] in H.
  - injection H as <- <-. split; reflexivity.
  - destruct (p c) eqn:E.
    + destruct (span p s) as [a' b'] eqn:E'. injection H as <- <-.
      destruct (IH a' b' eq_refl) as [-> Ha].
      split; [reflexivity |]. cbn [all_chars]. now rewrite E, Ha.
    + injection H as <- <-. split; reflexivity.
Qed.

Lemma contains_prefix (k s : string) :
  String.prefix k s = true -> contains k s = true.
Proof. intros H. destruct s; cbn [contains]; now rewrite H. Qed.

Lemma contains_tail (k : string) (c : ascii) (s : string) :
  contains k s = true -> contains k (String c s) = true.
Proof. intros H. cbn [contains]. rewrite H. apply orb_true_r. Qed.

Lemma append_assoc (a b c : string) :
  ((a ++ b) ++ c = a ++ (b ++ c))%string.
Proof. induction a as [| x a IH]; cbn [append]; [reflexivity | now rewrite IH]. Qed.

Lemma prefix_trans (a b s : string) :
  String.prefix a b = true -> String.prefix b s = true ->
  String.prefix a s = true.
Proof.
  intros H1 H2. apply prefix_drop in H1, H2.
  rewrite H2, H1, append_assoc. apply prefix_append.
Qed.

Lemma contains_prefix_trans (a b : string) : forall s,
  String.prefix a b = true -> contains b s = true -> contains a s = true.
Proof.
  induction s as [| c s IH]; intros H1 H2; cbn [contains] in H2.
  - rewrite orb_false_r in H2. apply contains_prefix.
    now apply prefix_trans with b.
  - apply orb_true_iff in H2 as [H2 | H2].
    + apply contains_prefix. now apply prefix_trans with b.
    + apply contains_tail. now apply IH.
Qed.

(** What a match of the URL pattern at the start of [s] looks like. *)
Lemma match_url_here_spec (s m : string) :
  match_url_here s = Some m ->
  exists scheme body,
    (scheme = "https://" \/ scheme = "http://") /\
    m = (scheme ++ body)%string /\ nonempty body = true /\
    all_chars url_char body = true /\ String.prefix m s = true.
Proof.
  unfold match_url_here.
  assert (T : forall scheme,
             (if String.prefix scheme s
              then match span url_char (drop (String.length scheme) s) with
                   | (EmptyString, _) => None
                   | (body, _) => Some (scheme ++ body)%string
                   end
              else None) = Some m ->
             exists body,
               m = (scheme ++ body)%string /\ nonempty body = true /\
               all_chars url_char body = true /\ String.prefix m s = true).
  { intros scheme H. destruct (String.prefix scheme s) eqn:P; [| discriminate].
    destruct (span url_char (drop (String.length scheme) s)) as [body rest] eqn:E.
    destruct (span_spec _ _ _ _ E) as [Hs Hb].
    destruct body as [| a body]; [discriminate |]. injection H as <-.
    exists (String a body). repeat split; try assumption.
    rewrite (prefix_drop _ _ P), Hs, <- append_assoc. apply prefix_append. }
  destruct (if String.prefix "https://" s then _ else None) as [m1 |] eqn:E1.
  - intros [= <-]. destruct (T "https://" E1) as (body & H).
    exists "https://", body. split; [now left | exact H].
  - intros H. destruct (T "http://" H) as (body & H').
    exists "http://", body. split; [now right | exact H'].
Qed.

Lemma findall_urls_In (u : string) : forall s k,
  In u (findall_urls k s) ->
  contains u s = true /\ exists t, match_url_here t = Some u.
Proof.
  induction s as [| c s IH]; intros k H; cbn [findall_urls] in H; [destruct H |].
  destruct k as [| k].
  - destruct (match_url_here (String c s)) as [m |] eqn:E.
    + destruct H as [<- | H].
      * split; [| now exists (String c s)].
        apply contains_prefix.
        now destruct (match_url_here_spec _ _ E) as (? & ? & _ & _ & _ & _ & P).
      * destruct (IH _ H) as [Hc Ht]. split; [now apply contains_tail | exact Ht].
    + destruct (IH _ H) as [Hc Ht]. split; [now apply contains_tail | exact Ht].
  - destruct (IH _ H) as [Hc Ht]. split; [now apply contains_tail | exact Ht].
Qed.

(** X1. Every URL the extractor returns occurs in the text, starts with
    [http://] or [https://], has at least one character after the scheme
    and contains no whitespace, quote, parenthesis or angle bracket; a
    text without "http" in it yields no URL, and so does the empty text. *)
Theorem extract_urls_shape
  (list_of_set : list string -> list string)
  (list_of_set_spec :
     forall l, Permutation (list_of_set l) (nodup string_dec l))
  (text : string) :
  (forall u, In u (extract_urls_from_text list_of_set text) ->
     contains u text = true /\
     exists scheme body,
       (scheme = "https://" \/ scheme = "http://") /\
       u = (scheme ++ body)%string /\ nonempty body = true /\
       all_chars url_char body = true) /\
  (contains "http" text = false -> extract_urls_from_text list_of_set text = []) /\
  extract_urls_from_text list_of_set "" = [].
Proof.
  assert (Hin : forall u, In u (extract_urls_from_text list_of_set text) ->
                          In u (findall_urls 0 text)).
  { intros u. unfold extract_urls_from_text.
    destruct (nonempty text); [| intros []].
    intros H. apply (Permutation_in _ (list_of_set_spec _)) in H.
    now apply nodup_In in H. }
  assert (Hshape : forall u, In u (extract_urls_from_text list_of_set text) ->
     contains u text = true /\
     exists scheme body,
       (scheme = "https://" \/ scheme = "http://") /\
       u = (scheme ++ body)%string /\ nonempty body = true /\
       all_chars url_char body = true).
  { intros u H. apply Hin, findall_urls_In in H as [Hc (t & Ht)].
    split; [exact Hc |].
    destruct (match_url_here_spec _ _ Ht) as (sc & body & H1 & H2 & H3 & H4 & _).
    now exists sc, body. }
  split; [exact Hshape |]. split; [| reflexivity].
  intros Hno.
  destruct (extract_urls_from_text list_of_set text) as [| u l] eqn:E;
    [reflexivity |].
  destruct (Hshape u (or_introl eq_refl)) as [Hc (sc & body & Hs & -> & _)].
  assert (P : String.prefix "http" (sc ++ body)%string = true)
    by (destruct Hs as [-> | ->]; reflexivity).
  rewrite (contains_prefix_trans _ _ _ P Hc) in Hno. discriminate Hno.
Qed.

Lemma extract_urls_shape_witness :
  (forall l, Permutation (first_seen l) (nodup string_dec l)) /\
  extract_urls_from_text first_seen "no link here" = [].
Proof.
  assert (H : forall l, Permutation (first_seen l) (nodup string_dec l))
    by (intros l; apply Permutation_refl).
  split; [exact H |].
  apply (proj1 (proj2 (extract_urls_shape first_seen H "no link here"))).
  reflexivity.
Defined.

(** ** The IP-literal rule *)

Lemma all_chars_app (p : ascii -> bool) (a b : string) :
  all_chars p (a ++ b)%string = all_chars p a && all_chars p b.
Proof.
  induction a as [| c a IH]; cbn [append all_chars]; [reflexivity |].
  now rewrite IH, andb_assoc.
Qed.

Lemma all_chars_impl (p q : ascii -> bool) (s : string) :
  (forall c, p c = true -> q c = true) ->
  all_chars p s = true -> all_chars q s = true.
Proof.
  intros H. induction s as [| c s IH]; cbn [all_chars]; [reflexivity |].
  intros E. apply andb_true_iff in E as [E1 E2].
  now rewrite (H c E1), IH.
Qed.

Lemma span_digits_app (a r : string) :
  all_chars is_digit a = true ->
  match r with
  | EmptyString => True
  | String c _ => is_digit c = false
  end ->
  span is_digit (a ++ r)%string = (a, r).
Proof.
  intros Ha Hr. induction a as [| c a IH]; cbn [append].
  - destruct r as [| c r]; cbn [span]; [reflexivity | now rewrite Hr].
  - cbn [all_chars] in Ha. apply andb_true_iff in Ha as [Hc Ha].
    cbn [span]. now rewrite Hc, (IH Ha).
Qed.

Lemma before_slash_app (x y : string) :
  no_slash x = true ->
  before_slash (x ++ y)%string = (x ++ before_slash y)%string.
Proof.
  unfold no_slash. induction x as [| c x IH]; intros H; cbn [append];
    [reflexivity |].
  cbn [all_chars] in H. apply andb_true_iff in H as [Hc Hx].
  cbn [before_slash]. apply negb_true_iff in Hc. now rewrite Hc, (IH Hx).
Qed.

Lemma append_empty_r (s : string) : (s ++ "")%string = s.
Proof. induction s as [| c s IH]; cbn [append]; [reflexivity | now rewrite IH]. Qed.

Lemma digits_no_slash (a : string) : digits a = true -> no_slash a = true.
Proof.
  unfold digits, no_slash. intros H. apply andb_true_iff in H as [_ H].
  apply (all_chars_impl is_digit); [| exact H].
  intros c Hc. destruct (Ascii.eqb_spec c "/") as [-> |]; [discriminate Hc | reflexivity].
Qed.

(** The pattern of the rule on four digit groups. *)
Lemma dotted_quad (a b c d : string) :
  digits a = true -> digits b = true -> digits c = true -> digits d = true ->
  dotted 3 (a ++ "." ++ b ++ "." ++ c ++ "." ++ d)%string = true.
Proof.
  unfold digits. intros Ha Hb Hc Hd.
  apply andb_true_iff in Ha as [Na Ha], Hb as [Nb Hb], Hc as [Nc Hc],
    Hd as [Nd Hd].
  assert (step : forall k x r,
             nonempty x = true -> all_chars is_digit x = true ->
             dotted k r = true ->
             dotted (S k) (x ++ "." ++ r)%string = true).
  { intros k x r Nx Hx Hr. cbn [dotted].
    cbn [append]. rewrite (span_digits_app x (String "." r) Hx eq_refl).
    destruct x; [discriminate Nx |]. exact Hr. }
  do 3 (apply step; [assumption | assumption |]).
  cbn [dotted]. rewrite <- (append_empty_r d) at 1.
  rewrite (span_digits_app d "" Hd I).
  destruct d; [discriminate Nd | reflexivity].
Qed.

Lemma no_slash_quad (a b c d : string) :
  digits a = true -> digits b = true -> digits c = true -> digits d = true ->
  no_slash (a ++ "." ++ b ++ "." ++ c ++ "." ++ d)%string = true.
Proof.
  intros Ha Hb Hc Hd. apply digits_no_slash in Ha, Hb, Hc, Hd.
  unfold no_slash in *. rewrite !all_chars_app, Ha, Hb, Hc, Hd. reflexivity.
Qed.

Lemma before_slash_host (h path : string) :
  no_slash h = true ->
  before_slash h = h /\ before_slash (h ++ "/" ++ path)%string = h.
Proof.
  intros H. split.
  - rewrite <- (append_empty_r h) at 1. rewrite (before_slash_app h "" H).
    apply append_empty_r.
  - rewrite (before_slash_app h _ H). cbn [append before_slash Ascii.eqb
      Bool.eqb]. apply append_empty_r.
Qed.

Lemma strip_scheme_http (x : string) : strip_scheme ("http://" ++ x) = x.
Proof. destruct x; reflexivity. Qed.

Lemma strip_scheme_https (x : string) : strip_scheme ("https://" ++ x) = x.
Proof. destruct x; reflexivity. Qed.

(** X2. Four non-empty groups of digits separated by dots are taken
    for an IP address whatever their values (no check of the range 0 to
    255), after [http://], after [https://] or without scheme, and with
    or without a path. *)
Theorem has_ip_hostname_dotted_quad (a b c d path : string)
  (Ha : digits a = true) (Hb : digits b = true)
  (Hc : digits c = true) (Hd : digits d = true) :
  let host := (a ++ "." ++ b ++ "." ++ c ++ "." ++ d)%string in
  has_ip_hostname host = true /\
  has_ip_hostname ("http://" ++ host) = true /\
  has_ip_hostname ("https://" ++ host) = true /\
  has_ip_hostname ("http://" ++ host ++ "/" ++ path) = true /\
  has_ip_hostname ("https://" ++ host ++ "/" ++ path) = true.
Proof.
  intros host.
  pose proof (dotted_quad a b c d Ha Hb Hc Hd) as Hq. fold host in Hq.
  pose proof (no_slash_quad a b c d Ha Hb Hc Hd) as Hn. fold host in Hn.
  destruct (before_slash_host host path Hn) as [B1 B2].
  assert (Hs : strip_scheme host = host).
  { unfold host, digits in *. apply andb_true_iff in Ha as [Na Ha].
    destruct a as [| x a]; [discriminate Na |].
    cbn [all_chars] in Ha. apply andb_true_iff in Ha as [Hx _].
    unfold strip_scheme. cbn [append String.prefix].
    destruct (ascii_dec "h" x) as [<- | _]; [discriminate Hx | reflexivity]. }
  unfold has_ip_hostname. repeat split.
  - now rewrite Hs, B1.
  - now rewrite strip_scheme_http, B1.
  - now rewrite strip_scheme_https, B1.
  - now rewrite strip_scheme_http, B2.
  - now rewrite strip_scheme_https, B2.
Qed.

Lemma has_ip_hostname_dotted_quad_witness :
  digits "999" = true /\
  has_ip_hostname "http://999.999.999.999/login" = true.
Proof.
  split; [reflexivity |].
  exact (proj1 (proj2 (proj2 (proj2
    (has_ip_hostname_dotted_quad "999" "999" "999" "999" "login"
       eq_refl eq_refl eq_refl eq_refl))))).
Defined.

Lemma dotted_chars : forall n s, dotted n s = true -> all_chars ip_char s = true.
Proof.
  assert (Hd : forall x, all_chars is_digit x = true -> all_chars ip_char x = true).
  { intros x. apply all_chars_impl. intros c Hc. unfold ip_char. now rewrite Hc. }
  induction n as [| n IH]; intros s H; cbn [dotted] in H;
    destruct (span is_digit s) as [x rest] eqn:E;
    destruct (span_spec _ _ _ _ E) as [-> Hx];
    (destruct x as [| c x]; [discriminate H |]);
    rewrite all_chars_app, (Hd _ Hx); cbn [andb].
  - destruct rest as [| c1 [| c2 r]]; try discriminate H; [reflexivity |].
    cbn [all_chars]. unfold ip_char. rewrite H, !orb_true_r. reflexivity.
  - destruct rest as [| c1 r]; [discriminate H |].
    apply andb_true_iff in H as [H1 H2].
    cbn [all_chars]. unfold ip_char at 1. rewrite H1, orb_true_r. cbn [orb andb].
    now apply IH.
Qed.




(** X4. The rule does not see an IP address behind a scheme written in
    capitals (which [is_https] accepts), nor one followed by a port. *)
Theorem has_ip_hostname_blind_spots (rest h p : string) :
  has_ip_hostname ("HTTP://" ++ rest) = false /\
  has_ip_hostname ("HTTPS://" ++ rest) = false /\
  is_https ("HTTPS://" ++ rest) = true /\
  (no_slash h = true ->
   has_ip_hostname ("http://" ++ h ++ ":" ++ p) = false /\
   has_ip_hostname ("https://" ++ h ++ ":" ++ p) = false).
Proof.
  split; [reflexivity |]. split; [reflexivity |].
  split; [destruct rest; reflexivity |].
  intros Hh.
  assert (F : dotted 3 (before_slash (h ++ ":" ++ p)%string) = false).
  { destruct (dotted 3 _) eqn:E; [| reflexivity].
    apply dotted_chars in E. rewrite (before_slash_app h _ Hh) in E.
    rewrite all_chars_app in E. apply andb_true_iff in E as [_ E].
    cbn in E. discriminate E. }
  unfold has_ip_hostname. now rewrite strip_scheme_http, strip_scheme_https.
Qed.

(** ** The brand rule *)

(** X5. A brand-mimicry reason names a brand of the list that occurs
    in the domain label without being equal to it; a domain label that
    is itself one of the brands, or that contains none of them, is not
    reported. *)
Theorem typosquat_check_spec
  (tldextract : string -> ExtractResult) (url : string) :
  let d := domain (tldextract url) in
  (forall r, simple_typosquat_check tldextract url = Some r ->
     exists b, In b POPULAR_BRANDS /\
       r = ("possible typosquat/brand mimicry (" ++ b ++ ")")%string /\
       contains b d = true /\ d <> b) /\
  (In d POPULAR_BRANDS -> simple_typosquat_check tldextract url = None) /\
  ((forall b, In b POPULAR_BRANDS -> contains b d = false) ->
   simple_typosquat_check tldextract url = None).
Proof.
  intros d. unfold simple_typosquat_check. fold d. split; [| split].
  - intros r H.
    destruct (find _ POPULAR_BRANDS) as [b |] eqn:E; [| discriminate].
    injection H as <-. apply find_some in E as [Hin Hb].
    apply andb_true_iff in Hb as [Hc Hne]. exists b.
    repeat split; try assumption.
    apply negb_true_iff, String.eqb_neq in Hne. exact Hne.
  - intros Hin.
    repeat (destruct Hin as [<- | Hin]; [reflexivity |]). destruct Hin.
  - intros Hnone.
    destruct (find _ POPULAR_BRANDS) as [b |] eqn:E; [| reflexivity].
    apply find_some in E as [Hin Hb]. apply andb_true_iff in Hb as [Hc _].
    rewrite (Hnone b Hin) in Hc. discriminate Hc.
Qed.

(** ** One rule at a time *)

Lemma add_reason_step (st : astate) (r : string) (w : F64.float) :
  In w weights -> step_like st (add_reason st r w).
Proof. intros H. right. exists r, w. repeat split; assumption. Qed.

Lemma step_like_refl (st : astate) : step_like st st.
Proof. left. split; reflexivity. Qed.

Lemma step_like_requests (st : astate) (l : list string) :
  step_like st {| score := score st; reasons := reasons st; requests := l |}.
Proof. left. split; reflexivity. Qed.

Section Steps.

Variable tldextract : string -> ExtractResult.
Variable net : network.

Lemma keyword_rule_step (message : string) (st : astate) :
  step_like st (keyword_rule message st).
Proof.
  unfold keyword_rule.
  pose proof (kw_count_le (lower message)) as Hle.
  destruct (kw_count (lower message)) as [| n]; [apply step_like_refl |].
  apply add_reason_step. fold (kw_weight (S n)).
  rewrite kw_weight_value by lia. destruct (S n =? 1)%nat; cbn; tauto.
Qed.

Lemma https_rule_step (url : string) (st : astate) :
  step_like st (https_rule url st).
Proof.
  unfold https_rule. destruct (negb (is_https url)); [| apply step_like_refl].
  apply add_reason_step. cbn; tauto.
Qed.

Lemma ip_rule_step (url : string) (st : astate) :
  step_like st (ip_rule url st).
Proof.
  unfold ip_rule. destruct (has_ip_hostname url); [| apply step_like_refl].
  apply add_reason_step. cbn; tauto.
Qed.

Lemma length_rule_step (url : string) (st : astate) :
  step_like st (length_rule tldextract url st).
Proof.
  unfold length_rule. destruct (_ && _); [| apply step_like_refl].
  apply add_reason_step. cbn; tauto.
Qed.

Lemma brand_rule_step (url : string) (st : astate) :
  step_like st (brand_rule tldextract url st).
Proof.
  unfold brand_rule.
  destruct (simple_typosquat_check tldextract url) as [ts |];
    [| apply step_like_refl].
  destruct (nonempty ts); [| apply step_like_refl].
  apply add_reason_step. cbn; tauto.
Qed.

Lemma fetch_rule_step (url : string) (st : astate) :
  step_like st (fetch_rule net url st).
Proof.
  unfold fetch_rule, requests_get. destruct (net _ url) as [| code h].
  - right. eexists _, F64.f0_05. repeat split. cbn; tauto.
  - destruct (3 <=? h)%nat; [| apply step_like_requests].
    right. eexists _, F64.f0_10. repeat split. cbn; tauto.
Qed.

Lemma cert_rule_step (url : string) (st : astate) :
  step_like st (cert_rule tldextract net url st).
Proof.
  unfold cert_rule, check_ssl_certificate, requests_get.
  destruct (ssl_result _) as [[|] |]; try apply step_like_requests.
  right. eexists _, F64.f0_15. repeat split. cbn; tauto.
Qed.

(** A property kept by every single step is kept by a whole analysis. *)
Lemma analyze_url_steps (P : astate -> Prop) :
  (forall st st', P st -> step_like st st' -> P st') ->
  forall st url, P st -> P (analyze_url tldextract net st url).
Proof.
  intros HP st url H. unfold analyze_url.
  eapply HP; [| apply cert_rule_step].
  eapply HP; [| apply fetch_rule_step].
  eapply HP; [| apply brand_rule_step].
  eapply HP; [| apply length_rule_step].
  eapply HP; [| apply ip_rule_step].
  eapply HP; [exact H | apply https_rule_step].
Qed.

Lemma fold_analyze_url_steps (P : astate -> Prop) :
  (forall st st', P st -> step_like st st' -> P st') ->
  forall urls st, P st -> P (fold_left (analyze_url tldextract net) urls st).
Proof.
  intros HP. induction urls as [| u l IH]; intros st H; cbn [fold_left];
    [exact H |].
  apply IH. now apply analyze_url_steps.
Qed.

Lemma analyze_state_steps (P : astate -> Prop) :
  (forall st st', P st -> step_like st st' -> P st') ->
  P init_state ->
  forall message urls, P (analyze_state tldextract net message urls).
Proof.
  intros HP H0 message urls. unfold analyze_state.
  apply fold_analyze_url_steps; [exact HP |].
  eapply HP; [exact H0 | apply keyword_rule_step].
Qed.

End Steps.

Lemma quiet_step (st st' : astate) : quiet st -> step_like st st' -> quiet st'.
Proof.
  intros Q [[Hs Hr] | (r & w & _ & _ & Hr)]; unfold quiet.
  - rewrite Hs, Hr. exact Q.
  - rewrite Hr. intros E. now apply app_eq_nil in E as [_ E].
Qed.

Lemma url_reasons_length (tldextract : string -> ExtractResult)
  (net : network) (k : nat) (url : string) :
  (List.length (url_reasons tldextract net k url) <= 6)%nat.
Proof.
  unfold url_reasons, brand_reasons. rewrite !length_app.
  destruct (negb (is_https url)), (has_ip_hostname url),
    (25 <? domain_length tldextract url)%nat,
    (simple_typosquat_check tldextract url),
    (cert_fails _);
  destruct (fetch_reasons_cases (net k url)) as [-> | [-> | (n & _ & ->)]];
  cbn [when List.length]; lia.
Qed.

Lemma all_url_reasons_length (tldextract : string -> ExtractResult)
  (net : network) (urls : list string) : forall k,
  (List.length (all_url_reasons tldextract net k urls) <= 6 * List.length urls)%nat.
Proof.
  induction urls as [| u l IH]; intros k; cbn [all_url_reasons List.length];
    [lia |].
  rewrite length_app.
  pose proof (url_reasons_length tldextract net k u).
  specialize (IH (S (S k))). lia.
Qed.

(** X6. An analysis that gives no reason returns the verdict "safe"
    with the score 0.0, so every other verdict comes with at least one
    reason; and an analysis never gives more than one reason for the
    message plus six for each URL. *)
Theorem verdict_has_reason
  (tldextract : string -> ExtractResult) (net : network)
  (message : string) (urls : list string) :
  let '(v, s, rs) := analyze_payload tldextract net message urls in
  (rs = [] -> v = "safe" /\ s = F64.zero) /\
  (v <> "safe" -> rs <> []) /\
  (List.length rs <= 1 + 6 * List.length urls)%nat.
Proof.
  unfold analyze_payload.
  assert (Q : quiet (analyze_state tldextract net message urls)).
  { apply analyze_state_steps; [apply quiet_step | intros _; reflexivity]. }
  assert (H1 : reasons (analyze_state tldextract net message urls) = [] ->
               verdict_of (clamp (score (analyze_state tldextract net message urls)))
                 = "safe" /\
               F64.round2 (clamp (score (analyze_state tldextract net message urls)))
                 = F64.zero).
  { intros E. rewrite (Q E). split; reflexivity. }
  split; [exact H1 |]. split.
  - intros Hv E. apply Hv. now apply H1.
  - destruct (analyze_state_spec tldextract net message urls) as [-> _].
    rewrite length_app.
    pose proof (all_url_reasons_length tldextract net urls 0).
    assert (List.length (keyword_reasons message) <= 1)%nat
      by (unfold keyword_reasons; destruct (kw_count _); cbn; lia).
    lia.
Qed.

(** X7. Without URLs the result depends on the number [N] of keywords
    found only: no keyword gives ("safe", 0.0) without reason, one gives
    ("safe", 0.2), two or more give ("suspicious", 0.4); keywords alone
    never make a message "malicious". *)
Theorem keywords_alone
  (tldextract : string -> ExtractResult) (net : network) (message : string) :
  let N := kw_count (lower message) in
  analyze_payload tldextract net message [] =
    match N with
    | O => ("safe", F64.zero, [])
    | 1%nat => ("safe", F64.dec 20 100, ["suspicious keywords (1)"])
    | _ => ("suspicious", F64.dec 40 100,
            [("suspicious keywords (" ++ str_of_nat N ++ ")")%string])
    end /\
  fst (fst (analyze_payload tldextract net message [])) <> "malicious".
Proof.
  intros N.
  assert (E : analyze_payload tldextract net message [] =
    match N with
    | O => ("safe", F64.zero, [])
    | 1%nat => ("safe", F64.dec 20 100, ["suspicious keywords (1)"])
    | _ => ("suspicious", F64.dec 40 100,
            [("suspicious keywords (" ++ str_of_nat N ++ ")")%string])
    end).
  { unfold analyze_payload, analyze_state. cbn [fold_left].
    pose proof (keyword_score message) as Hs. cbn zeta in Hs. fold N in Hs.
    destruct (keyword_rule_reasons message) as [Hr _].
    rewrite Hs, Hr. unfold keyword_reasons. fold N.
    destruct N as [| [| n]]; cbn [Nat.eqb]; [reflexivity | reflexivity |].
    rewrite Z.min_r by lia. reflexivity. }
  split; [exact E |]. rewrite E.
  destruct N as [| [| n]]; cbn [fst]; discriminate.
Qed.

(** ** Which rule gave which reason *)

Lemma when_In_iff (b : bool) (r x : string) :
  In x (when b r) <-> x = r /\ b = true.
Proof.
  split; [apply when_In |]. intros [-> ->]. now left.
Qed.

Lemma brand_reasons_head (tldextract : string -> ExtractResult)
  (url x : string) :
  In x (brand_reasons tldextract url) -> head x = "p"%char.
Proof.
  unfold brand_reasons, simple_typosquat_check.
  destruct (find _ _); [| intros []]. intros [<- | []]. reflexivity.
Qed.

Lemma fetch_reasons_In (r : response) (x : string) :
  In x (fetch_reasons r) ->
  (x = "could not fetch URL (network or blocked)" /\ r = Raised) \/
  is_digit (head x) = true.
Proof.
  destruct r as [| code h]; cbn [fetch_reasons].
  - intros [<- | []]. now left.
  - intros H. apply when_In in H as [-> _]. right.
    destruct (str_of_nat_digit h) as (c & s & -> & Hc). exact Hc.
Qed.

(** Where a reason of a URL can come from. *)
Lemma url_reasons_In (tldextract : string -> ExtractResult)
  (net : network) (k : nat) (url x : string) :
  In x (url_reasons tldextract net k url) ->
  (x = "no HTTPS (insecure link)" /\ is_https url = false) \/
  (x = "URL uses raw IP address" /\ has_ip_hostname url = true) \/
  (x = "long domain name" /\ (25 < domain_length tldextract url)%nat) \/
  head x = "p"%char \/
  (x = "could not fetch URL (network or blocked)" /\ net k url = Raised) \/
  is_digit (head x) = true \/
  x = "ssl certificate check failed".
Proof.
  unfold url_reasons. intros H.
  repeat (apply in_app_or in H as [H | H]).
  - apply when_In in H as [-> H]. left. split; [reflexivity |].
    now apply negb_true_iff.
  - apply when_In in H as [-> H]. right. left. now split.
  - apply when_In in H as [-> H]. right. right. left.
    split; [reflexivity | now apply Nat.ltb_lt].
  - right. right. right. left. now apply brand_reasons_head with tldextract url.
  - apply fetch_reasons_In in H as [H | H]; [| tauto].
    right. right. right. right. left. exact H.
  - apply when_In in H as [-> _]. tauto.
Qed.

Lemma url_reasons_members
  (tldextract : string -> ExtractResult) (net : network)
  (k : nat) (url : string) :
  let rs := url_reasons tldextract net k url in
  (In "no HTTPS (insecure link)" rs <-> is_https url = false) /\
  (In "URL uses raw IP address" rs <-> has_ip_hostname url = true) /\
  (In "long domain name" rs <->
   (25 < String.length (domain (tldextract url)))%nat) /\
  (In "could not fetch URL (network or blocked)" rs <-> net k url = Raised).
Proof.
  intros rs. unfold rs.
  assert (D : forall x,
             In x (url_reasons tldextract net k url) ->
             head x <> "p"%char -> is_digit (head x) = false ->
             x <> "ssl certificate check failed" ->
             (x = "no HTTPS (insecure link)" /\ is_https url = false) \/
             (x = "URL uses raw IP address" /\ has_ip_hostname url = true) \/
             (x = "long domain name" /\ (25 < domain_length tldextract url)%nat) \/
             (x = "could not fetch URL (network or blocked)" /\ net k url = Raised)).
  { intros x H Hp Hd Hs.
    apply url_reasons_In in H as [H | [H | [H | [H | [H | [H | H]]]]]];
      try tauto; try contradiction.
    rewrite H in Hd. discriminate Hd. }
  repeat split.
  - intros H. apply D in H as [[_ H] | [[H _] | [[H _] | [H _]]]];
      try discriminate; try reflexivity; assumption.
  - intros H. unfold url_reasons. apply in_or_app. left.
    apply when_In_iff. now rewrite H.
  - intros H. apply D in H as [[H _] | [[_ H] | [[H _] | [H _]]]];
      try discriminate; try reflexivity; assumption.
  - intros H. unfold url_reasons. apply in_or_app. right. apply in_or_app. left.
    now apply when_In_iff.
  - intros H. apply D in H as [[H _] | [[H _] | [[_ H] | [H _]]]];
      try discriminate; try reflexivity; assumption.
  - intros H. unfold url_reasons. do 2 (apply in_or_app; right).
    apply in_or_app. left. apply when_In_iff. split; [reflexivity |].
    now apply Nat.ltb_lt.
  - intros H. apply D in H as [[H _] | [[H _] | [[H _] | [_ H]]]];
      try discriminate; try reflexivity; assumption.
  - intros H. unfold url_reasons. do 4 (apply in_or_app; right).
    apply in_or_app. left. rewrite H. now left.
Qed.

(** X8. The rules of one URL extend the list of reasons, and among the
    reasons they add, "no HTTPS (insecure link)" is there exactly when
    [is_https] is false for the URL, "URL uses raw IP address" exactly
    when [has_ip_hostname] is true, "long domain name" exactly when
    [domain_length] is above 25, and "could not fetch URL (network or
    blocked)" exactly when the request of the URL raised. *)
Theorem url_reasons_exact
  (tldextract : string -> ExtractResult) (net : network)
  (st : astate) (url : string) :
  exists added,
    reasons (analyze_url tldextract net st url) = reasons st ++ added /\
    (In "no HTTPS (insecure link)" added <-> is_https url = false) /\
    (In "URL uses raw IP address" added <-> has_ip_hostname url = true) /\
    (In "long domain name" added <->
     (25 < domain_length tldextract url)%nat) /\
    (In "could not fetch URL (network or blocked)" added <->
     net (List.length (requests st)) url = Raised).
Proof.
  exists (url_reasons tldextract net (List.length (requests st)) url).
  split; [apply analyze_url_spec |].
  exact (url_reasons_members tldextract net (List.length (requests st)) url).
Qed.

(** ** More URLs never lower the result *)

Lemma small_scores_monotone :
  forallb (fun x =>
             forallb (fun w =>
                        (level x <=? level (F64.add x w)) &&
                        (final_cents x <=? final_cents (F64.add x w)))
               weights)
    small_scores = true.
Proof. vm_compute. reflexivity. Qed.

Lemma is_big_level (x : F64.float) :
  is_big x = true -> level x = 2 /\ final_cents x = 100.
Proof.
  intros H. unfold level, final_cents. rewrite (is_big_clamp x H).
  split; reflexivity.
Qed.

Lemma level_add (x w : F64.float) :
  score_inv x = true -> In w weights ->
  level x <= level (F64.add x w) /\
  final_cents x <= final_cents (F64.add x w).
Proof.
  intros Hx Hw. unfold score_inv in Hx. apply orb_true_iff in Hx as [Hs | Hb].
  - apply mem_In in Hs. pose proof small_scores_monotone as M.
    rewrite forallb_forall in M. specialize (M x Hs).
    rewrite forallb_forall in M. specialize (M w Hw).
    apply andb_true_iff in M as [M1 M2].
    split; now apply Z.leb_le.
  - destruct (weights_small w Hw) as (m & e & -> & He).
    destruct (is_big_level _ Hb) as [-> ->].
    destruct (is_big_level _ (add_big x m e Hb He)) as [L C].
    change (SFadd 53 1024 x (S754_finite false m e))
      with (F64.add x (S754_finite false m e)) in L, C.
    rewrite L, C. lia.
Qed.

Lemma never_lower_step (x : F64.float) (st st' : astate) :
  never_lower x st -> step_like st st' -> never_lower x st'.
Proof.
  intros (Hi & Hl & Hc) [[Hs _] | (r & w & Hw & Hs & _)]; unfold never_lower;
    rewrite Hs; [tauto |].
  destruct (level_add _ _ Hi Hw) as [L C].
  split; [now apply score_inv_add |]. lia.
Qed.

Lemma returned_score_cents (x : F64.float) :
  score_inv x = true ->
  F64.round2 (clamp x) = F64.dec (final_cents x) 100 /\
  0 <= final_cents x <= 100.
Proof.
  intros H. apply score_inv_final in H. unfold final_ok in H.
  repeat (apply andb_true_iff in H as [H ?]).
  repeat match goal with
         | E : (_ <=? _) = true |- _ => apply Z.leb_le in E
         | E : sf_eqb _ _ = true |- _ => apply sf_eqb_eq in E
         end.
  unfold final_cents. repeat split; assumption.
Qed.

(** X9. Analysing more URLs after the same ones never lowers the
    result: the verdict stays or moves up in the order safe, suspicious,
    malicious, and the score returned, counted in hundredths, does not
    decrease. *)
Theorem more_urls_never_lower
  (tldextract : string -> ExtractResult) (net : network)
  (message : string) (urls more : list string) :
  let '(v1, s1, _) := analyze_payload tldextract net message urls in
  let '(v2, s2, _) := analyze_payload tldextract net message (urls ++ more) in
  verdict_rank v1 <= verdict_rank v2 /\
  exists k1 k2,
    s1 = F64.dec k1 100 /\ s2 = F64.dec k2 100 /\ 0 <= k1 <= k2 /\ k2 <= 100.
Proof.
  unfold analyze_payload.
  set (st1 := analyze_state tldextract net message urls).
  assert (E : analyze_state tldextract net message (urls ++ more) =
              fold_left (analyze_url tldextract net) more st1)
    by (unfold st1, analyze_state; now rewrite fold_left_app).
  rewrite E.
  pose proof (analyze_state_inv tldextract net message urls) as I1.
  fold st1 in I1.
  assert (N : never_lower (score st1)
                (fold_left (analyze_url tldextract net) more st1)).
  { apply fold_analyze_url_steps; [apply never_lower_step |].
    unfold never_lower. split; [exact I1 | lia]. }
  destruct N as (I2 & L & C).
  destruct (returned_score_cents _ I1) as [R1 B1].
  destruct (returned_score_cents _ I2) as [R2 B2].
  split; [exact L |].
  exists (final_cents (score st1)),
    (final_cents (score (fold_left (analyze_url tldextract net) more st1))).
  repeat split; try assumption; lia.
Qed.

(** ** URLs that trigger nothing *)

Lemma plain_url_step (tldextract : string -> ExtractResult) (net : network)
  (st : astate) (url : string) :
  (forall n u, good_answer (net n u) = true) ->
  plain_url tldextract url = true ->
  score (analyze_url tldextract net st url) = score st /\
  reasons (analyze_url tldextract net st url) = reasons st.
Proof.
  intros Hnet Hp. unfold plain_url in Hp.
  repeat (apply andb_true_iff in Hp as [Hp ?]).
  assert (G : forall n u, exists code h,
               net n u = Resp code h /\ (code <? 500) = true /\ (h <? 3)%nat = true).
  { intros n u. specialize (Hnet n u). destruct (net n u) as [| code h];
      [discriminate Hnet |].
    apply andb_true_iff in Hnet as [? ?]. now exists code, h. }
  unfold analyze_url, cert_rule, check_ssl_certificate, fetch_rule,
    requests_get, brand_rule, length_rule, ip_rule, https_rule.
  rewrite Hp. cbn [negb].
  match goal with E : negb (has_ip_hostname url) = true |- _ =>
    apply negb_true_iff in E; rewrite E end.
  match goal with E : (_ <=? 25)%nat = true |- _ =>
    apply Nat.leb_le in E;
    replace (25 <? domain_length tldextract url)%nat with false
      by (symmetry; apply Nat.ltb_ge; exact E) end.
  rewrite andb_false_r.
  destruct (simple_typosquat_check tldextract url); [discriminate |].
  cbn [score reasons requests].
  destruct (G (List.length (requests st)) url) as (c1 & h1 & -> & _ & Hh1).
  replace (3 <=? h1)%nat with false
    by (symmetry; apply Nat.leb_gt; now apply Nat.ltb_lt).
  cbn [score reasons requests].
  destruct (G (List.length (requests st ++ [url]))
              ("https://" ++ ssl_domain tldextract url)%string)
    as (c2 & h2 & -> & Hc2 & _).
  cbn [ssl_result]. rewrite Hc2. split; reflexivity.
Qed.

(** X10. On a network where every request is answered with a status
    below 500 after fewer than three redirects, URLs that start with
    [https://], have no dotted-quad host, a domain label of at most 25
    characters and no brand inside it add nothing: the result is the one
    of the message alone. *)
Theorem plain_urls_add_nothing
  (tldextract : string -> ExtractResult) (net : network)
  (message : string) (urls : list string)
  (Hnet : forall n u, good_answer (net n u) = true)
  (Hurls : Forall (fun u => plain_url tldextract u = true) urls) :
  analyze_payload tldextract net message urls =
  analyze_payload tldextract net message [].
Proof.
  unfold analyze_payload, analyze_state. cbn [fold_left].
  set (st0 := keyword_rule message init_state).
  assert (H : forall st,
             score (fold_left (analyze_url tldextract net) urls st) = score st /\
             reasons (fold_left (analyze_url tldextract net) urls st) = reasons st).
  { induction Hurls as [| u l Hu _ IH]; intros st; cbn [fold_left];
      [split; reflexivity |].
    destruct (IH (analyze_url tldextract net st u)) as [-> ->].
    now apply plain_url_step. }
  destruct (H st0) as [-> ->]. reflexivity.
Qed.

Lemma plain_urls_add_nothing_witness :
  (forall n u, good_answer (fine_network n u) = true) /\
  Forall (fun u => plain_url sample_extract u = true)
    ["https://example.com/a"; "https://docs.python.org/3/"] /\
  analyze_payload sample_extract fine_network "see you at noon"
    ["https://example.com/a"; "https://docs.python.org/3/"] =
    ("safe", F64.zero, []).
Proof.
  assert (Hn : forall n u, good_answer (fine_network n u) = true)
    by (intros n u; reflexivity).
  assert (Hu : Forall (fun u => plain_url sample_extract u = true)
                 ["https://example.com/a"; "https://docs.python.org/3/"])
    by (repeat constructor).
  split; [exact Hn |]. split; [exact Hu |].
  rewrite (plain_urls_add_nothing sample_extract fine_network
             "see you at noon" _ Hn Hu).
  reflexivity.
Defined.

(** ** Submission ids *)

Lemma analyze_ids (tldextract : string -> ExtractResult)
  (list_of_set : list string -> list string)
  (net : network) (now : string) (db : database) (sub : SubmissionIn) :
  let db' := fst (analyze tldextract list_of_set net now db sub) in
  last_id db' = last_id db + 1 /\
  map id (submissions db') = map id (submissions db) ++ [last_id db + 1].
Proof.
  unfold analyze.
  destruct (analyze_payload tldextract net _ _) as [[v s] rs].
  cbn [fst].
  destruct (select_users _ _);
    cbn [insert_or_replace_user update_users insert_submission submissions
         last_id]; rewrite map_app; split; reflexivity.
Qed.

Lemma feedback_keeps (db db' : database) (i : Z) (fb : string) :
  feedback db i fb = Ok db' ->
  last_id db' = last_id db /\
  map id (submissions db') = map id (submissions db) /\
  map verdict (submissions db') = map verdict (submissions db) /\
  map sub_user_id (submissions db') = map sub_user_id (submissions db) /\
  map user_id (users db') = map user_id (users db) /\
  map total_reports (users db') = map total_reports (users db).
Proof.
  destruct (feedback_cases db i fb) as [[_ ->] | (sub & rest & _ & ->)];
    [discriminate |].
  intros [= <-]. cbn [last_id submissions users]. unfold bump_rows.
  rewrite !map_map. repeat split; apply map_ext; intros x;
    destruct (_ : bool); reflexivity.
Qed.

Lemma select_nil_iff (db : database) (i : Z) :
  select_submissions db i = [] <-> ~ In i (map id (submissions db)).
Proof.
  unfold select_submissions. split.
  - intros H Hin. apply in_map_iff in Hin as (s & <- & Hs).
    pose proof (filter_nil_all _ _ H s Hs) as E. cbn beta in E.
    rewrite Z.eqb_refl in E. discriminate E.
  - intros H. destruct (filter _ _) as [| s l] eqn:E; [reflexivity |].
    exfalso. apply H.
    assert (Hs : In s (filter (fun s0 => id s0 =? i) (submissions db)))
      by (rewrite E; now left).
    apply filter_In in Hs as [Hs Hi]. apply Z.eqb_eq in Hi. subst i.
    now apply in_map.
Qed.

Section TraceFacts.

Variable tldextract : string -> ExtractResult.
Variable list_of_set : list string -> list string.

Lemma analyses_snoc (rs : list request) (r : request) :
  analyses (rs ++ [r]) = (analyses rs + (if is_analyze r then 1 else 0))%nat.
Proof.
  unfold analyses. rewrite filter_app, length_app. cbn [filter].
  destruct (is_analyze r); reflexivity.
Qed.

Lemma run_ids (rs : list request) :
  let db := run tldextract list_of_set rs in
  last_id db = Z.of_nat (analyses rs) /\
  map id (submissions db) = map Z.of_nat (seq 1 (analyses rs)).
Proof.
  induction rs as [| r rs IH] using rev_ind; [split; reflexivity |].
  cbn zeta in *. rewrite run_snoc, analyses_snoc.
  destruct IH as [IH1 IH2].
  destruct r as [net now sub | i fb]; cbn [handle is_analyze].
  - destruct (analyze_ids tldextract list_of_set net now
                (run tldextract list_of_set rs) sub) as [E1 E2].
    rewrite E1, E2, IH1, IH2. split; [lia |].
    rewrite Nat.add_1_r, seq_S, map_app. cbn [map]. f_equal. f_equal. lia.
  - rewrite Nat.add_0_r.
    destruct (feedback (run tldextract list_of_set rs) i fb) as [db' |] eqn:E;
      [| now split].
    destruct (feedback_keeps _ _ _ _ E) as (-> & -> & _). now split.
Qed.

Lemma In_ids (rs : list request) (i : Z) :
  In i (map id (submissions (run tldextract list_of_set rs))) <->
  1 <= i <= Z.of_nat (analyses rs).
Proof.
  destruct (run_ids rs) as [_ ->]. rewrite in_map_iff. split.
  - intros (n & <- & Hn). apply in_seq in Hn. lia.
  - intros H. exists (Z.to_nat i). split; [lia |]. apply in_seq. lia.
Qed.

End TraceFacts.

(** X11. After any sequence of requests from the empty store, the
    submissions carry the ids 1, 2, ..., n in the order they were
    analysed, where n is the number of analyze requests so far; no id is
    used twice and the next analysis gets n + 1. *)
Theorem submission_ids_sequential
  (tldextract : string -> ExtractResult)
  (list_of_set : list string -> list string) (rs : list request) :
  let db := run tldextract list_of_set rs in
  map id (submissions db) = map Z.of_nat (seq 1 (analyses rs)) /\
  List.length (submissions db) = analyses rs /\
  NoDup (map id (submissions db)) /\
  (forall net now sub,
      map id (submissions
                (run tldextract list_of_set (rs ++ [ReqAnalyze net now sub]))) =
        map id (submissions db) ++ [Z.of_nat (analyses rs) + 1]).
Proof.
  intros db. destruct (run_ids tldextract list_of_set rs) as [L E]. fold db in L, E.
  split; [exact E |]. split; [| split].
  - rewrite <- (length_map id), E, length_map. apply length_seq.
  - rewrite E. apply Finite.Injective_map_NoDup; [| apply seq_NoDup].
    intros a b. apply Nat2Z.inj.
  - intros net now sub. rewrite run_snoc. cbn [handle]. fold db.
    destruct (analyze_ids tldextract list_of_set net now db sub) as [_ ->].
    now rewrite L.
Qed.

(** X12. After any sequence of requests, a feedback request whose id
    is a 64-bit integer succeeds exactly for the ids 1 to n of the n
    submissions analysed so far and is refused with status 404 for every
    other such id, leaving the store as it was; when it succeeds it adds
    or removes no row and changes no id, stored verdict, submitter, user
    id or [total_reports]. *)
Theorem feedback_found_iff
  (tldextract : string -> ExtractResult)
  (list_of_set : list string -> list string)
  (rs : list request) (i : Z) (fb : string)
  (Hrange : int64 i) :
  let db := run tldextract list_of_set rs in
  let n := Z.of_nat (analyses rs) in
  (1 <= i <= n ->
   exists db',
     feedback db i fb = Ok db' /\
     last_id db' = last_id db /\
     map id (submissions db') = map id (submissions db) /\
     map verdict (submissions db') = map verdict (submissions db) /\
     map sub_user_id (submissions db') = map sub_user_id (submissions db) /\
     map user_id (users db') = map user_id (users db) /\
     map total_reports (users db') = map total_reports (users db)) /\
  (~ (1 <= i <= n) ->
   feedback db i fb = HTTPException 404 "submission not found" /\
   run tldextract list_of_set (rs ++ [ReqFeedback i fb]) = db).
Proof.
  intros db n. split.
  - intros Hi. apply (In_ids tldextract list_of_set) in Hi. fold db in Hi.
    destruct (feedback_cases db i fb) as [[Hsel _] | (sub & rest & _ & E)].
    + apply select_nil_iff in Hsel. contradiction.
    + eexists. split; [exact E |]. exact (feedback_keeps _ _ _ _ E).
  - intros Hi.
    assert (Hsel : select_submissions db i = []).
    { apply select_nil_iff. intros Hin. apply Hi.
      now apply (In_ids tldextract list_of_set). }
    assert (E : feedback db i fb = HTTPException 404 "submission not found")
      by (unfold feedback; now rewrite Hsel).
    split; [exact E |]. rewrite run_snoc. cbn [handle]. fold db. now rewrite E.
Qed.

Lemma feedback_found_iff_witness :
  int64 1 /\ int64 2 /\
  1 <= 1 <= Z.of_nat
    (analyses [ReqAnalyze no_network "2024-05-01T10:00:00"
                 (submit "alice" "" ["http://192.168.1.1/login"])]) /\
  (exists db', feedback sample_db 1 "safe" = Ok db') /\
  feedback sample_db 2 "safe" = HTTPException 404 "submission not found".
Proof.
  assert (R1 : int64 1) by (unfold int64; cbn; lia).
  assert (R2 : int64 2) by (unfold int64; cbn; lia).
  pose proof (feedback_found_iff sample_extract first_seen
                [ReqAnalyze no_network "2024-05-01T10:00:00"
                   (submit "alice" "" ["http://192.168.1.1/login"])]) as H.
  assert (B : 1 <= 1 <= Z.of_nat
    (analyses [ReqAnalyze no_network "2024-05-01T10:00:00"
                 (submit "alice" "" ["http://192.168.1.1/login"])]))
    by (cbn; lia).
  split; [exact R1 |]. split; [exact R2 |]. split; [exact B |]. split.
  - destruct (proj1 (H 1 "safe" R1) B) as (db' & E & _).
    exists db'. exact E.
  - apply (proj2 (H 2 "safe" R2)). cbn. lia.
Defined.

(** ** One row per user *)

Lemma cnt_pos_In {A : Type} (f : A -> bool) (l : list A) (x : A) :
  In x l -> f x = true -> 1 <= cnt f l.
Proof.
  intros Hin Hf. induction l as [| y l IH]; [destruct Hin |].
  rewrite cnt_cons. pose proof (cnt_nonneg f l). destruct Hin as [-> | Hin].
  - rewrite Hf. lia.
  - specialize (IH Hin). destruct (f y); lia.
Qed.

Lemma select_users_cnt (db : database) (u : string) :
  n_rows db u = Z.of_nat (List.length (select_users db (Some u))).
Proof. reflexivity. Qed.

Lemma users_inv_analyze (tldextract : string -> ExtractResult)
  (list_of_set : list string -> list string)
  (net : network) (now : string) (sub : SubmissionIn) (db : database) :
  users_inv db ->
  users_inv (fst (analyze tldextract list_of_set net now db sub)).
Proof.
  intros [Hrows Htot].
  destruct (analyze_store tldextract list_of_set net now db sub)
    as [(s & Hsu & _ & Hsubs) Husers].
  set (db' := fst (analyze tldextract list_of_set net now db sub)) in *.
  set (uid := in_user_id sub) in *.
  assert (Hn : forall u,
             n_subs db' u = n_subs db u + (if sql_eq uid (Some u) then 1 else 0)).
  { intros u. unfold n_subs. rewrite Hsubs, cnt_app, cnt_cons.
    change (by_user u s) with (sql_eq (sub_user_id s) (Some u)).
    rewrite Hsu. change (cnt (by_user u) []) with 0. lia. }
  assert (Hpos : forall u, 0 <= n_subs db u) by (intros u; apply cnt_nonneg).
  destruct (select_users db uid) as [| r0 l0] eqn:Hsel.
  - (* no row for the submitter: one is added *)
    assert (Hr : forall u,
               n_rows db' u = n_rows db u + (if sql_eq uid (Some u) then 1 else 0)).
    { intros u. unfold n_rows. rewrite Husers, cnt_app, cnt_cons.
      cbn [new_user user_id].
      change (cnt (fun r => sql_eq (user_id r) (Some u)) []) with 0. lia. }
    assert (Hnone : forall u, sql_eq uid (Some u) = true ->
                              n_rows db u = 0 /\ n_subs db u = 0).
    { intros u E. apply sql_eq_true in E as (u0 & E1 & [= <-]).
      assert (Z0 : n_rows db u = 0)
        by (rewrite select_users_cnt, <- E1, Hsel; reflexivity).
      split; [exact Z0 |]. specialize (Hrows u). rewrite Z0 in Hrows.
      specialize (Hpos u). destruct (0 <? n_subs db u) eqn:E; [discriminate |].
      apply Z.ltb_ge in E. lia. }
    split.
    + intros u. rewrite Hr, Hn.
      destruct (sql_eq uid (Some u)) eqn:E.
      * destruct (Hnone u E) as [-> ->]. reflexivity.
      * rewrite !Z.add_0_r. apply Hrows.
    + intros r u Hin Hu. rewrite Husers in Hin. rewrite Hn.
      apply in_app_or in Hin as [Hin | [<- | []]].
      * destruct (sql_eq uid (Some u)) eqn:E.
        { destruct (Hnone u E) as [Z0 _].
          pose proof (cnt_pos_In (fun r1 => sql_eq (user_id r1) (Some u))
                        (users db) r Hin) as P.
          cbn beta in P. rewrite Hu, sql_eq_refl in P. specialize (P eq_refl).
          fold (n_rows db u) in P. lia. }
        { rewrite Z.add_0_r. now apply Htot. }
      * cbn [new_user user_id total_reports] in *. rewrite Hu, sql_eq_refl.
        destruct (Hnone u) as [_ ->]; [rewrite Hu; apply sql_eq_refl | reflexivity].
  - (* the submitter has a row: it counts one more *)
    assert (Hr : forall u, n_rows db' u = n_rows db u).
    { intros u. unfold n_rows. rewrite Husers. apply cnt_map_same.
      intros r. destruct (sql_eq (user_id r) uid); reflexivity. }
    assert (Hsome : forall u, sql_eq uid (Some u) = true -> 1 <= n_rows db u).
    { intros u E. apply sql_eq_true in E as (u0 & E1 & [= <-]).
      rewrite select_users_cnt, <- E1, Hsel. cbn [List.length]. lia. }
    split.
    + intros u. rewrite Hr, Hn. specialize (Hrows u). specialize (Hpos u).
      destruct (sql_eq uid (Some u)) eqn:E.
      * specialize (Hsome u E).
        destruct (0 <? n_subs db u) eqn:E1; [| lia].
        replace (0 <? n_subs db u + 1) with true
          by (symmetry; apply Z.ltb_lt; lia). exact Hrows.
      * now rewrite Z.add_0_r.
    + intros r' u Hin Hu. rewrite Husers in Hin. rewrite Hn.
      apply in_map_iff in Hin as (r & <- & Hin).
      destruct (sql_eq (user_id r) uid) eqn:E.
      * cbn [incr_total user_id total_reports] in *.
        rewrite (Htot r u Hin Hu). rewrite Hu, sql_eq_sym in E. now rewrite E.
      * rewrite (Htot r u Hin Hu). rewrite Hu, sql_eq_sym in E.
        rewrite E. lia.
Qed.

Lemma users_inv_feedback (db db' : database) (i : Z) (fb : string) :
  feedback db i fb = Ok db' -> users_inv db -> users_inv db'.
Proof.
  intros E [Hrows Htot].
  destruct (feedback_cases db i fb) as [[_ E'] | (sub & rest & _ & E')];
    rewrite E' in E; [discriminate |]. injection E as <-.
  assert (Hn : forall u,
             cnt (by_user u)
               (map (fun s => if id s =? i then set_feedback fb s else s)
                  (submissions db)) = n_subs db u).
  { intros u. apply cnt_map_same. intros s. now destruct (id s =? i). }
  split.
  - intros u. unfold n_rows, n_subs. cbn [users submissions].
    rewrite Hn. unfold bump_rows. rewrite cnt_map_same; [apply Hrows |].
    intros r. now destruct (sql_eq (user_id r) (sub_user_id sub)).
  - intros r' u Hin Hu. cbn [users] in Hin. unfold bump_rows in Hin.
    apply in_map_iff in Hin as (r & <- & Hin).
    unfold n_subs. cbn [submissions]. rewrite Hn.
    destruct (sql_eq (user_id r) (sub_user_id sub));
      [cbn [bump user_id total_reports] in * |]; now apply Htot.
Qed.

Lemma run_users_inv (tldextract : string -> ExtractResult)
  (list_of_set : list string -> list string) (rs : list request) :
  users_inv (run tldextract list_of_set rs).
Proof.
  induction rs as [| r rs IH] using rev_ind.
  - split; [intros u; reflexivity | intros r u []].
  - rewrite run_snoc. destruct r as [net now sub | i fb]; cbn [handle].
    + now apply users_inv_analyze.
    + destruct (feedback _ i fb) as [db' |] eqn:E; [| exact IH].
      now apply users_inv_feedback with (run tldextract list_of_set rs) i fb.
Qed.

Lemma length_one {A : Type} (l : list A) :
  List.length l = 1%nat -> exists x, l = [x].
Proof. destruct l as [| x [| y l]]; try discriminate. now exists x. Qed.

(** X13. After any sequence of requests, a user (with a non-null id)
    who has submitted something has exactly one row in [users], and its
    [total_reports] is the number of submissions stored for that user; a
    user who has submitted nothing has no row. *)
Theorem one_row_per_user
  (tldextract : string -> ExtractResult)
  (list_of_set : list string -> list string)
  (rs : list request) (u : string) :
  let db := run tldextract list_of_set rs in
  (n_subs db u = 0 -> select_users db (Some u) = []) /\
  (0 < n_subs db u ->
   exists r, select_users db (Some u) = [r] /\
             user_id r = Some u /\ total_reports r = n_subs db u).
Proof.
  intros db. destruct (run_users_inv tldextract list_of_set rs) as [Hrows Htot].
  fold db in Hrows, Htot. specialize (Hrows u).
  rewrite select_users_cnt in Hrows. split.
  - intros Z0. rewrite Z0 in Hrows. cbn in Hrows.
    destruct (select_users db (Some u)); [reflexivity | discriminate Hrows].
  - intros P. replace (0 <? n_subs db u) with true in Hrows
      by (symmetry; now apply Z.ltb_lt).
    destruct (length_one (select_users db (Some u))) as [r Hr]; [lia |].
    exists r. split; [exact Hr |].
    assert (Hin : In r (select_users db (Some u))) by (rewrite Hr; now left).
    unfold select_users in Hin. apply filter_In in Hin as [Hin E].
    apply sql_eq_true in E as (u0 & E1 & [= <-]).
    split; [exact E1 | now apply Htot].
Qed.

Lemma one_row_per_user_witness :
  0 < n_subs sample_db "alice" /\
  exists r, select_users sample_db (Some "alice") = [r] /\ total_reports r = 1.
Proof.
  split; [reflexivity |].
  destruct (proj2 (one_row_per_user sample_extract first_seen
              [ReqAnalyze no_network "2024-05-01T10:00:00"
                 (submit "alice" "" ["http://192.168.1.1/login"])] "alice")
              eq_refl) as (r & Hr & _ & Ht).
  exists r. split; [exact Hr | exact Ht].
Defined.

(** ** Counters against the number of feedback requests *)

(** X14. After any sequence of requests, for every row of [users] the
    sum of [correct_reports] and [false_positives] is at most the number
    of feedback requests made so far: a feedback request moves at most
    one of the two counters, by one. *)
Theorem counters_bounded_by_feedback
  (tldextract : string -> ExtractResult)
  (list_of_set : list string -> list string) (rs : list request) :
  Forall (fun r =>
            correct_reports r + false_positives r <=
            Z.of_nat (List.length (feedback_ids rs)))
    (users (run tldextract list_of_set rs)).
Proof.
  induction rs as [| r rs IH] using rev_ind; [constructor |].
  rewrite run_snoc, feedback_ids_snoc, length_app.
  set (db := run tldextract list_of_set rs) in *.
  rewrite Forall_forall in IH. apply Forall_forall. intros r' Hr'.
  destruct r as [net now sub | i fb]; cbn [handle feedback_ids flat_map app
    List.length] in *.
  - destruct (analyze_store tldextract list_of_set net now db sub) as [_ Hu].
    rewrite Hu in Hr'. destruct (select_users db (in_user_id sub)).
    + apply in_app_or in Hr' as [Hr | [<- | []]].
      * specialize (IH r' Hr). lia.
      * cbn [new_user correct_reports false_positives]. lia.
    + apply in_map_iff in Hr' as (r & <- & Hr). specialize (IH r Hr).
      destruct (sql_eq _ _); [cbn [incr_total correct_reports false_positives] |];
        lia.
  - destruct (feedback_cases db i fb) as [[_ E] | (sub & rest & _ & E)];
      rewrite E in Hr'.
    + specialize (IH r' Hr'). lia.
    + cbn [users] in Hr'. unfold bump_rows in Hr'.
      apply in_map_iff in Hr' as (r & <- & Hr). specialize (IH r Hr).
      destruct (reconcile_range (verdict sub) fb) as (D1 & D2 & D3).
      destruct (sql_eq _ _); [cbn [bump correct_reports false_positives] |]; lia.
Qed.

(** ** Submissions without user id *)

Lemma cnt_ext {A : Type} (f g : A -> bool) (l : list A) :
  (forall x, f x = g x) -> cnt f l = cnt g l.
Proof.
  intros H. induction l as [| x l IH]; [reflexivity |].
  now rewrite !cnt_cons, H, IH.
Qed.

Lemma select_users_null (db : database) : select_users db None = [].
Proof.
  unfold select_users. induction (users db) as [| r l IH]; [reflexivity |].
  cbn [filter]. now destruct (user_id r).
Qed.

(** X15. A submission whose user id is null never finds a row: each
    one adds a row of its own, so after any sequence of requests the
    rows with a null user id are as many as the submissions with a null
    user id, and each of them stays at [total_reports = 1] with the two
    other counters at 0, whatever feedback is given. *)
Theorem null_user_rows
  (tldextract : string -> ExtractResult)
  (list_of_set : list string -> list string) (rs : list request) :
  let db := run tldextract list_of_set rs in
  cnt null_user (users db) = cnt null_submitter (submissions db) /\
  Forall (fun r =>
            user_id r = None ->
            total_reports r = 1 /\ correct_reports r = 0 /\
            false_positives r = 0)
    (users db).
Proof.
  induction rs as [| r rs IH] using rev_ind; [split; [reflexivity | constructor] |].
  cbn zeta in *. rewrite run_snoc.
  set (db := run tldextract list_of_set rs) in *.
  destruct IH as [IHc IHr]. rewrite Forall_forall in IHr.
  destruct r as [net now sub | i fb]; cbn [handle].
  - destruct (analyze_store tldextract list_of_set net now db sub)
      as [(s & Hsu & _ & Hsubs) Husers].
    rewrite Hsubs, Husers. split.
    + rewrite cnt_app, cnt_cons.
      change (cnt null_submitter []) with 0.
      unfold null_submitter at 2. rewrite Hsu.
      destruct (select_users db (in_user_id sub)) as [| r0 l0] eqn:Hsel.
      * rewrite cnt_app, cnt_cons. change (cnt null_user []) with 0.
        unfold null_user at 2. cbn [new_user user_id]. lia.
      * rewrite cnt_map_same.
        { destruct (in_user_id sub) as [u |] eqn:Eu; [lia |].
          rewrite select_users_null in Hsel. discriminate Hsel. }
        intros r. unfold null_user.
        now destruct (sql_eq (user_id r) (in_user_id sub)).
    + apply Forall_forall. intros r' Hr'.
      destruct (select_users db (in_user_id sub)).
      * apply in_app_or in Hr' as [Hr | [<- | []]]; [now apply IHr |].
        intros _. cbn [new_user total_reports correct_reports false_positives].
        repeat split.
      * apply in_map_iff in Hr' as (r & <- & Hr).
        destruct (sql_eq (user_id r) (in_user_id sub)) eqn:E; [| now apply IHr].
        cbn [incr_total user_id]. intros Hn. rewrite Hn in E. discriminate E.
  - destruct (feedback_cases db i fb) as [[_ ->] | (sub & rest & _ & ->)];
      [split; [exact IHc | now apply Forall_forall] |].
    cbn [users submissions]. unfold bump_rows. split.
    + rewrite !cnt_map_same; [exact IHc | |].
      * intros s. now destruct (id s =? i).
      * intros r. unfold null_user.
        now destruct (sql_eq (user_id r) (sub_user_id sub)).
    + apply Forall_forall. intros r' Hr'.
      apply in_map_iff in Hr' as (r & <- & Hr).
      destruct (sql_eq (user_id r) (sub_user_id sub)) eqn:E; [| now apply IHr].
      cbn [bump user_id]. intros Hn. rewrite Hn in E. discriminate E.
Qed.

(** ** The list of submissions *)

Lemma insert_by_id_last (s : submission) (l : list submission) :
  (forall t, In t l -> id s < id t) -> insert_by_id s l = l ++ [s].
Proof.
  induction l as [| t l IH]; intros H; cbn [insert_by_id app]; [reflexivity |].
  replace (id t <=? id s) with false
    by (symmetry; apply Z.leb_gt; apply H; now left).
  f_equal. apply IH. intros t' Ht'. apply H. now right.
Qed.

Lemma order_by_id_desc_rev : forall (l : list submission) (a n : nat),
  map id l = map Z.of_nat (seq a n) -> order_by_id_desc l = rev l.
Proof.
  induction l as [| s l IH]; intros a n H; [reflexivity |].
  destruct n as [| n]; [discriminate H |].
  cbn [map seq] in H. injection H as Hs Hl.
  unfold order_by_id_desc in *. cbn [fold_right rev].
  rewrite (IH (S a) n Hl). apply insert_by_id_last.
  intros t Ht. apply in_rev in Ht.
  assert (Hin : In (id t) (map Z.of_nat (seq (S a) n)))
    by (rewrite <- Hl; now apply in_map).
  apply in_map_iff in Hin as (k & <- & Hk). apply in_seq in Hk. lia.
Qed.

(** X16. After any sequence of requests, [get_submissions] with a
    limit that is a 64-bit integer of at least 0 returns the newest
    submissions first, at most [limit] of them, with their number as
    count; a negative 64-bit limit returns them all. *)
Theorem get_submissions_newest_first
  (tldextract : string -> ExtractResult)
  (list_of_set : list string -> list string)
  (rs : list request) (limit : Z)
  (Hrange : int64 limit) :
  let db := run tldextract list_of_set rs in
  (0 <= limit ->
   get_submissions db limit =
     (Z.min limit (Z.of_nat (List.length (submissions db))),
      firstn (Z.to_nat limit) (rev (submissions db)))) /\
  (limit < 0 ->
   get_submissions db limit =
     (Z.of_nat (List.length (submissions db)), rev (submissions db))).
Proof.
  intros db. unfold get_submissions, sql_limit.
  destruct (run_ids tldextract list_of_set rs) as [_ E]. fold db in E.
  rewrite (order_by_id_desc_rev _ _ _ E). split; intros H.
  - replace (limit <? 0) with false by (symmetry; apply Z.ltb_ge; lia).
    f_equal. rewrite length_firstn, length_rev. lia.
  - replace (limit <? 0) with true by (symmetry; apply Z.ltb_lt; lia).
    now rewrite length_rev.
Qed.

Lemma get_submissions_newest_first_witness :
  int64 200 /\ 0 <= 200 /\
  get_submissions sample_db 200 = (1, [sample_submission]).
Proof.
  assert (R : int64 200) by (unfold int64; cbn; lia).
  split; [exact R |]. split; [lia |].
  exact (proj1 (get_submissions_newest_first sample_extract first_seen
                  [ReqAnalyze no_network "2024-05-01T10:00:00"
                     (submit "alice" "" ["http://192.168.1.1/login"])] 200 R)
           ltac:(lia)).
Defined.

(** ** The leaderboard *)

Lemma before_iff (a b : user) : before a b = true <-> ranks_before a b.
Proof.
  unfold before, ranks_before.
  rewrite orb_true_iff, andb_true_iff, Z.ltb_lt, Z.eqb_eq, Z.leb_le. tauto.
Qed.

Lemma before_total (a b : user) : before a b = false -> ranks_before b a.
Proof.
  unfold before, ranks_before. intros H.
  apply orb_false_iff in H as [H1 H2]. apply Z.ltb_ge in H1.
  apply andb_false_iff in H2 as [H2 | H2].
  - apply Z.eqb_neq in H2. lia.
  - apply Z.leb_gt in H2. lia.
Qed.

Lemma ranks_before_trans (a b c : user) :
  ranks_before a b -> ranks_before b c -> ranks_before a c.
Proof. unfold ranks_before. lia. Qed.

Lemma insert_sorted_perm (u : user) (l : list user) :
  Permutation (insert_sorted u l) (u :: l).
Proof.
  induction l as [| v l IH]; cbn [insert_sorted]; [reflexivity |].
  destruct (before u v); [reflexivity |].
  rewrite IH. apply perm_swap.
Qed.

Lemma insert_sorted_sorted (u : user) (l : list user) :
  StronglySorted ranks_before l ->
  StronglySorted ranks_before (insert_sorted u l).
Proof.
  induction 1 as [| v l Hs IH Hv]; cbn [insert_sorted].
  - repeat constructor.
  - destruct (before u v) eqn:E.
    + apply before_iff in E. constructor; [now constructor |].
      constructor; [exact E |].
      eapply Forall_impl; [| exact Hv].
      intros x. now apply ranks_before_trans.
    + apply before_total in E. constructor; [exact IH |].
      eapply Permutation_Forall; [symmetry; apply insert_sorted_perm |].
      now constructor.
Qed.

Lemma order_by_spec (l : list user) :
  Permutation (order_by l) l /\ StronglySorted ranks_before (order_by l).
Proof.
  unfold order_by. induction l as [| u l [IHp IHs]]; cbn [fold_right].
  - split; [reflexivity | constructor].
  - split.
    + rewrite insert_sorted_perm. now constructor.
    + now apply insert_sorted_sorted.
Qed.

(** X17. The leaderboard lists every row of [users] once, each with
    the awareness score computed from its own counters, ordered by
    decreasing [correct_reports] and, among equals, by decreasing
    [total_reports]. *)
Theorem userscores_sorted (db : database) :
  let out := userscores db in
  Permutation (map fst out) (users db) /\
  StronglySorted ranks_before (map fst out) /\
  Forall (fun p => snd p = awareness_score (fst p)) out /\
  List.length out = List.length (users db).
Proof.
  intros out. unfold out, userscores.
  destruct (order_by_spec (users db)) as [Hp Hs].
  rewrite map_map. cbn [fst]. rewrite map_id.
  split; [exact Hp |]. split; [exact Hs |]. split.
  - apply Forall_forall. intros p Hin.
    apply in_map_iff in Hin as (r & <- & _). reflexivity.
  - rewrite length_map. now apply Permutation_length.
Qed.

(** X18. A user without correct reports has the awareness score 0,
    whatever the number of reports and of false positives. *)
Theorem awareness_zero_without_correct (r : user)
  (Hc : correct_reports r = 0) (Hfp : 0 <= false_positives r) :
  awareness_score r = Some 0.
Proof.
  unfold awareness_score. rewrite Hc.
  destruct (0 <? total_reports r) eqn:E; [| reflexivity].
  apply Z.ltb_lt in E.
  destruct (total_reports r) as [| t | t]; try lia.
  cbn [F64.int_truediv]. cbn [F64.mul SFmul F64.f100 xorb F64.to_int].
  f_equal. lia.
Qed.

Lemma awareness_zero_without_correct_witness :
  correct_reports (row 7 0 3) = 0 /\ 0 <= false_positives (row 7 0 3) /\
  awareness_score (row 7 0 3) = Some 0.
Proof.
  split; [reflexivity |]. split; [cbn; lia |].
  apply awareness_zero_without_correct; [reflexivity | cbn; lia].
Defined.

(** ** The dashboard form *)

Lemma analyze_response (tldextract : string -> ExtractResult)
  (list_of_set : list string -> list string)
  (net : network) (now : string) (db : database) (sub : SubmissionIn) :
  let out := snd (analyze tldextract list_of_set net now db sub) in
  let res := analyze_payload tldextract net (or_empty (in_message sub))
               (considered_urls list_of_set sub) in
  out_verdict out = fst (fst res) /\ out_score out = snd (fst res) /\
  out_reasons out = snd res /\ out_urls out = considered_urls list_of_set sub.
Proof.
  unfold analyze.
  destruct (analyze_payload tldextract net _ _) as [[v s] rs].
  cbn. repeat split.
Qed.

(** X19. A submission of type URL made through the dashboard is
    analysed with the text of the form as its only URL, whatever the
    text is, and with the same text as message: the reasons are the
    keyword reason of the text followed by the reasons of the text as a
    URL. A submission of type message is analysed with the URLs
    extracted from the text. *)
Theorem dashboard_payload_analysis
  (tldextract : string -> ExtractResult)
  (list_of_set : list string -> list string)
  (net : network) (now : string) (db : database) (uid text : string) :
  let url_out :=
    snd (analyze tldextract list_of_set net now db (payload uid URL text)) in
  let msg_out :=
    snd (analyze tldextract list_of_set net now db
           (payload uid MessageText text)) in
  out_urls url_out = [text] /\
  out_reasons url_out =
    keyword_reasons text ++ url_reasons tldextract net 0 text /\
  out_urls msg_out = extract_urls_from_text list_of_set text /\
  out_reasons msg_out =
    keyword_reasons text ++
    all_url_reasons tldextract net 0
      (extract_urls_from_text list_of_set text).
Proof.
  intros url_out msg_out.
  destruct (analyze_response tldextract list_of_set net now db
              (payload uid URL text)) as (_ & _ & R1 & U1).
  destruct (analyze_response tldextract list_of_set net now db
              (payload uid MessageText text)) as (_ & _ & R2 & U2).
  fold url_out in R1, U1. fold msg_out in R2, U2.
  cbn [payload considered_urls in_urls in_message or_empty] in R1, U1, R2, U2.
  split; [exact U1 |]. split; [| split; [exact U2 |]].
  - rewrite R1. unfold analyze_payload. cbn [snd].
    destruct (analyze_state_spec tldextract net text [text]) as [-> _].
    cbn [all_url_reasons]. now rewrite app_nil_r.
  - rewrite R2. unfold analyze_payload. cbn [snd].
    now destruct (analyze_state_spec tldextract net text
                    (extract_urls_from_text list_of_set text)) as [-> _].
Qed.

(** ** Looking up what was stored *)

Lemma analyze_row (tldextract : string -> ExtractResult)
  (list_of_set : list string -> list string)
  (net : network) (now : string) (db : database) (sub : SubmissionIn) :
  let res := analyze tldextract list_of_set net now db sub in
  submissions (fst res) =
    submissions db ++
    [{| id := last_id db + 1; sub_user_id := in_user_id sub;
        sub_source := in_source sub; sub_message := in_message sub;
        sub_urls := out_urls (snd res); verdict := out_verdict (snd res);
        sub_score := out_score (snd res); sub_reasons := out_reasons (snd res);
        sub_feedback := None; created_at := now |}].
Proof.
  unfold analyze.
  destruct (analyze_payload tldextract net _ _) as [[v s] rs].
  cbn [fst snd out_urls out_verdict out_score out_reasons].
  destruct (select_users _ _); reflexivity.
Qed.

(** X20. After any sequence of requests, the submission stored by an
    analysis is the only one found under the next id; it carries the
    verdict, score, reasons and URLs of the answer, the user id, source
    and message of the request, the time of the analysis, and no
    feedback label. *)
Theorem analyze_then_lookup
  (tldextract : string -> ExtractResult)
  (list_of_set : list string -> list string)
  (rs : list request) (net : network) (now : string) (sub : SubmissionIn) :
  let db := run tldextract list_of_set rs in
  let res := analyze tldextract list_of_set net now db sub in
  select_submissions (fst res) (Z.of_nat (analyses rs) + 1) =
    [{| id := Z.of_nat (analyses rs) + 1; sub_user_id := in_user_id sub;
        sub_source := in_source sub; sub_message := in_message sub;
        sub_urls := out_urls (snd res); verdict := out_verdict (snd res);
        sub_score := out_score (snd res); sub_reasons := out_reasons (snd res);
        sub_feedback := None; created_at := now |}].
Proof.
  intros db res. unfold select_submissions.
  pose proof (analyze_row tldextract list_of_set net now db sub) as E.
  cbn zeta in E. fold res in E. rewrite E.
  destruct (run_ids tldextract list_of_set rs) as [L _]. fold db in L.
  rewrite L, filter_app. cbn [filter id]. rewrite Z.eqb_refl.
  replace (filter _ (submissions db)) with (@nil submission); [reflexivity |].
  symmetry. apply (proj2 (select_nil_iff db (Z.of_nat (analyses rs) + 1))).
  intros Hin. apply (In_ids tldextract list_of_set) in Hin. lia.
Qed.

(** ** A link that condemns the submission *)

Lemma unreachable_ip_small :
  forallb (fun x =>
             forallb (fun long =>
                        forallb (fun brand =>
                                   level (unreachable_ip_score x long brand) =? 2)
                          [true; false])
               [true; false])
    small_scores = true.
Proof. vm_compute. reflexivity. Qed.

Lemma add_weight_big (x w : F64.float) :
  is_big x = true -> In w weights -> is_big (F64.add x w) = true.
Proof.
  intros Hb Hw. destruct (weights_small w Hw) as (m & e & -> & He).
  exact (add_big x m e Hb He).
Qed.

Lemma unreachable_ip_level (x : F64.float) (long brand : bool) :
  score_inv x = true -> level (unreachable_ip_score x long brand) = 2.
Proof.
  intros H. unfold score_inv in H. apply orb_true_iff in H as [Hs | Hb].
  - apply mem_In in Hs. pose proof unreachable_ip_small as C.
    rewrite forallb_forall in C. specialize (C x Hs).
    rewrite forallb_forall in C.
    assert (Hl : In long [true; false]) by (destruct long; cbn; tauto).
    specialize (C long Hl). rewrite forallb_forall in C.
    assert (Hr : In brand [true; false]) by (destruct brand; cbn; tauto).
    specialize (C brand Hr). now apply Z.eqb_eq.
  - apply is_big_level. unfold unreachable_ip_score.
    destruct long, brand; repeat (apply add_weight_big; [| cbn; tauto]);
      exact Hb.
Qed.

Lemma static_rules_score (tldextract : string -> ExtractResult)
  (url : string) (st : astate) :
  let st4 := brand_rule tldextract url
               (length_rule tldextract url (ip_rule url (https_rule url st))) in
  let x1 := if negb (is_https url) then F64.add (score st) F64.f0_20
            else score st in
  let x2 := if has_ip_hostname url then F64.add x1 F64.f0_20 else x1 in
  let x3 := if negb (domain_length tldextract url =? 0)%nat &&
               (25 <? domain_length tldextract url)%nat
            then F64.add x2 F64.f0_05 else x2 in
  let x4 := if match simple_typosquat_check tldextract url with
               | Some ts => nonempty ts
               | None => false
               end
            then F64.add x3 F64.f0_15 else x3 in
  score st4 = x4 /\ requests st4 = requests st.
Proof.
  unfold brand_rule, length_rule, ip_rule, https_rule.
  destruct (negb (is_https url)), (has_ip_hostname url), (_ && _),
    (simple_typosquat_check tldextract url) as [ts |];
    try destruct (nonempty ts); split; reflexivity.
Qed.

Lemma fetch_rule_score (net : network) (url : string) (st : astate) :
  score (fetch_rule net url st) =
    match net (List.length (requests st)) url with
    | Raised => F64.add (score st) F64.f0_05
    | Resp _ h =>
        if (3 <=? h)%nat then F64.add (score st) F64.f0_10 else score st
    end.
Proof.
  unfold fetch_rule, requests_get. destruct (net _ url) as [| code h];
    [reflexivity |]. destruct (3 <=? h)%nat; reflexivity.
Qed.

Lemma unreachable_ip_url (tldextract : string -> ExtractResult)
  (net : network) (st : astate) (url : string) :
  is_https url = false -> has_ip_hostname url = true ->
  net (List.length (requests st)) url = Raised ->
  cert_fails (net (S (List.length (requests st))) (cert_target tldextract url))
    = true ->
  exists long brand,
    score (analyze_url tldextract net st url) =
      unreachable_ip_score (score st) long brand.
Proof.
  intros H1 H2 H3 H4.
  exists (negb (domain_length tldextract url =? 0)%nat &&
          (25 <? domain_length tldextract url)%nat),
    (match simple_typosquat_check tldextract url with
     | Some ts => nonempty ts
     | None => false
     end).
  unfold analyze_url.
  destruct (static_rules_score tldextract url st) as [S4 Q4].
  set (st4 := brand_rule tldextract url
                (length_rule tldextract url (ip_rule url (https_rule url st))))
    in *.
  destruct (cert_rule_spec tldextract net url (fetch_rule net url st4))
    as (_ & _ & ->).
  destruct (fetch_rule_spec net url st4) as [_ ->].
  rewrite Q4, length_app, Nat.add_1_r. cbn [List.length]. rewrite H4.
  rewrite fetch_rule_score, Q4, H3, S4, H1, H2. reflexivity.
Qed.

Lemma verdict_rank_malicious (x : F64.float) :
  level x = 2 -> verdict_of (clamp x) = "malicious".
Proof.
  unfold level, verdict_of, verdict_rank.
  destruct (F64.geb (clamp x) F64.f0_6); [reflexivity |].
  destruct (F64.geb (clamp x) F64.f0_3); cbn; discriminate.
Qed.

Lemma level_le_2 (x : F64.float) : level x <= 2.
Proof.
  unfold level, verdict_of, verdict_rank.
  destruct (F64.geb (clamp x) F64.f0_6); [cbn; lia |].
  destruct (F64.geb (clamp x) F64.f0_3); cbn; lia.
Qed.

(** X21. If one of the URLs is a link without HTTPS to a raw IP
    address, its fetch raises and its certificate probe fails, the
    verdict is "malicious" whatever the message and the other URLs
    are. *)
Theorem unreachable_ip_link_is_malicious
  (tldextract : string -> ExtractResult) (net : network)
  (message : string) (before after : list string) (url : string)
  (Hhttps : is_https url = false)
  (Hip : has_ip_hostname url = true)
  (Hfetch : net (2 * List.length before)%nat url = Raised)
  (Hprobe : cert_fails
              (net (S (2 * List.length before))
                 ("https://" ++ ssl_domain tldextract url)%string) = true) :
  fst (fst (analyze_payload tldextract net message (before ++ url :: after))) =
    "malicious".
Proof.
  unfold analyze_payload. cbn [fst].
  set (st1 := analyze_state tldextract net message before).
  assert (E : analyze_state tldextract net message (before ++ url :: after) =
              fold_left (analyze_url tldextract net) after
                (analyze_url tldextract net st1 url))
    by (unfold st1, analyze_state; now rewrite fold_left_app).
  rewrite E.
  pose proof (analyze_state_inv tldextract net message before) as I1.
  fold st1 in I1.
  assert (Q : List.length (requests st1) = (2 * List.length before)%nat).
  { unfold st1.
    destruct (analyze_state_spec tldextract net message before) as [_ ->].
    clear. induction before as [| u l IH]; [reflexivity |].
    cbn [flat_map url_requests app List.length]. rewrite IH. lia. }
  destruct (unreachable_ip_url tldextract net st1 url Hhttps Hip)
    as (long & brand & S1); [now rewrite Q | now rewrite Q |].
  set (st2 := analyze_url tldextract net st1 url) in *.
  assert (I2 : score_inv (score st2) = true)
    by (now apply analyze_url_inv).
  assert (L2 : level (score st2) = 2)
    by (rewrite S1; now apply unreachable_ip_level).
  assert (N : never_lower (score st2)
                (fold_left (analyze_url tldextract net) after st2)).
  { apply fold_analyze_url_steps; [apply never_lower_step |].
    unfold never_lower. split; [exact I2 | lia]. }
  destruct N as (_ & L & _).
  apply verdict_rank_malicious.
  pose proof (level_le_2 (score (fold_left (analyze_url tldextract net) after st2))).
  lia.
Qed.

Lemma unreachable_ip_link_is_malicious_witness :
  is_https "http://192.168.1.1/login" = false /\
  has_ip_hostname "http://192.168.1.1/login" = true /\
  fst (fst (analyze_payload sample_extract no_network "hello"
              ([] ++ "http://192.168.1.1/login" :: ["https://example.com"]))) =
    "malicious".
Proof.
  split; [reflexivity |]. split; [reflexivity |].
  apply unreachable_ip_link_is_malicious; reflexivity.
Defined.

(** ** Two keywords are enough *)

Lemma keyword_level (message : string) :
  (2 <= kw_count (lower message))%nat ->
  level (score (keyword_rule message init_state)) = 1.
Proof.
  intros H. pose proof (keyword_score message) as Hs. cbn zeta in Hs.
  rewrite Hs. destruct (kw_count (lower message)) as [| [| n]]; try lia.
  cbn [Nat.eqb]. rewrite Z.min_r by lia. reflexivity.
Qed.

Lemma verify_your_counts_twice (t : string) :
  contains "verify your" t = true -> (2 <= kw_count t)%nat.
Proof.
  intros H.
  assert (H' : contains "verify" t = true)
    by exact (contains_prefix_trans "verify" "verify your" t eq_refl H).
  unfold kw_count, SUSPICIOUS_KEYWORDS. cbn [filter]. rewrite H, H'.
  destruct (contains "urgent" t); cbn [List.length]; lia.
Qed.

(** X22. A message in which at least two keywords are found never gets
    the verdict "safe", whatever URLs come with it; this is the case of
    every message that contains "verify your" in any letter case, since
    "verify" is found in it as well. *)
Theorem two_keywords_never_safe
  (tldextract : string -> ExtractResult) (net : network)
  (message : string) (urls : list string) :
  ((2 <= kw_count (lower message))%nat ->
   fst (fst (analyze_payload tldextract net message urls)) <> "safe") /\
  (contains "verify your" (lower message) = true ->
   (2 <= kw_count (lower message))%nat /\
   fst (fst (analyze_payload tldextract net message urls)) <> "safe").
Proof.
  assert (G : (2 <= kw_count (lower message))%nat ->
              fst (fst (analyze_payload tldextract net message urls)) <> "safe").
  { intros H. unfold analyze_payload, analyze_state. cbn [fst].
    set (st0 := keyword_rule message init_state).
    assert (I0 : score_inv (score st0) = true)
      by (unfold st0; apply keyword_rule_inv; try assumption;
          exact score_inv_zero).
    assert (N : never_lower (score st0)
                  (fold_left (analyze_url tldextract net) urls st0)).
    { apply fold_analyze_url_steps; [apply never_lower_step |].
      unfold never_lower. split; [exact I0 | lia]. }
    destruct N as (_ & L & _). unfold st0 in L at 1.
    rewrite (keyword_level message H) in L.
    unfold level in L. intros E. rewrite E in L. cbn in L. lia. }
  split; [exact G |]. intros H.
  pose proof (verify_your_counts_twice _ H) as H2. split; [exact H2 | now apply G].
Qed.

Lemma two_keywords_never_safe_witness :
  contains "verify your" (lower "Please VERIFY YOUR data") = true /\
  fst (fst (analyze_payload sample_extract fine_network
              "Please VERIFY YOUR data" ["https://example.com/a"])) <> "safe".
Proof.
  split; [reflexivity |].
  apply (proj2 (two_keywords_never_safe sample_extract fine_network
                  "Please VERIFY YOUR data" ["https://example.com/a"])).
  reflexivity.
Defined.

(** * The score is the clamped, rounded sum of the triggered weights *)

Lemma small_scores_exact :
  forallb (fun x =>
             forallb (fun wc =>
                        let y := F64.add x (fst wc) in
                        (cents y =? cents x + snd wc) &&
                        (mem y small_scores ||
                         (is_big y && (200 <=? cents x + snd wc))))
               weight_table)
    small_scores = true.
Proof. vm_compute. reflexivity. Qed.

Lemma small_scores_clamped :
  forallb (fun x => final_cents x =? Z.min 100 (cents x)) small_scores = true.
Proof. vm_compute. reflexivity. Qed.

Lemma weight_table_weights (w : F64.float) (c : Z) :
  In (w, c) weight_table -> In w weights /\ 0 <= c.
Proof.
  intros H.
  repeat (destruct H as [[= <- <-] | H]; [split; [cbn; tauto | lia] |]).
  destruct H.
Qed.

Lemma exact_add (x w : F64.float) (n c : Z) :
  exact_inv x n -> In (w, c) weight_table -> exact_inv (F64.add x w) (n + c).
Proof.
  intros [[Hs Hn] | [Hb Hn]] Hw.
  - apply mem_In in Hs. pose proof small_scores_exact as E.
    rewrite forallb_forall in E. specialize (E x Hs).
    rewrite forallb_forall in E. specialize (E (w, c) Hw).
    cbn [fst snd] in E. apply andb_true_iff in E as [E1 E2].
    apply Z.eqb_eq in E1. rewrite Hn in E1, E2.
    apply orb_true_iff in E2 as [E2 | E2].
    + left. now split.
    + apply andb_true_iff in E2 as [E2 E3]. apply Z.leb_le in E3.
      right. now split.
  - destruct (weight_table_weights w c Hw) as [Hin Hc].
    right. split; [now apply add_weight_big | lia].
Qed.

Lemma exact_opt (x w : F64.float) (n c : Z) (b : bool) :
  exact_inv x n -> In (w, c) weight_table ->
  exact_inv (fold_left F64.add (opt b w) x) (n + hundredths_if b c).
Proof.
  intros H Hw. destruct b; cbn [opt hundredths_if fold_left].
  - now apply exact_add.
  - now rewrite Z.add_0_r.
Qed.

Lemma exact_fetch (x : F64.float) (n : Z) (r : response) :
  exact_inv x n ->
  exact_inv (fold_left F64.add (fetch_weights r) x) (n + fetch_cents r).
Proof.
  intros H. destruct r as [| code h]; cbn [fetch_weights fetch_cents].
  - cbn [fold_left]. apply exact_add; [exact H | cbn; tauto].
  - apply exact_opt; [exact H | cbn; tauto].
Qed.

Lemma exact_url (tldextract : string -> ExtractResult) (net : network)
  (k : nat) (url : string) (x : F64.float) (n : Z) :
  exact_inv x n ->
  exact_inv (fold_left F64.add (url_weights tldextract net k url) x)
    (n + url_cents tldextract net k url).
Proof.
  intros H. unfold url_weights, url_cents. rewrite !fold_left_app.
  match goal with
  | |- exact_inv _ (n + (?a + ?b + ?c + ?d + ?e + ?f)) =>
      replace (n + (a + b + c + d + e + f))
        with (n + a + b + c + d + e + f) by lia
  end.
  apply exact_opt; [| cbn; tauto].
  apply exact_fetch.
  apply exact_opt; [| cbn; tauto].
  apply exact_opt; [| cbn; tauto].
  apply exact_opt; [| cbn; tauto].
  apply exact_opt; [exact H | cbn; tauto].
Qed.

Lemma exact_all_urls (tldextract : string -> ExtractResult) (net : network)
  (urls : list string) : forall (k : nat) (x : F64.float) (n : Z),
  exact_inv x n ->
  exact_inv (fold_left F64.add (all_url_weights tldextract net k urls) x)
    (n + all_url_cents tldextract net k urls).
Proof.
  induction urls as [| u l IH]; intros k x n H;
    cbn [all_url_weights all_url_cents fold_left].
  - now rewrite Z.add_0_r.
  - rewrite fold_left_app, Z.add_assoc. apply IH. now apply exact_url.
Qed.

Lemma exact_keyword (message : string) :
  exact_inv (fold_left F64.add (keyword_weights message) F64.zero)
    (keyword_cents (kw_count (lower message))).
Proof.
  assert (Z0 : exact_inv F64.zero 0) by (left; split; reflexivity).
  unfold keyword_weights, keyword_cents.
  pose proof (kw_count_le (lower message)) as Hle.
  destruct (kw_count (lower message)) as [| n]; [exact Z0 |].
  cbn [fold_left]. fold (kw_weight (S n)). rewrite kw_weight_value by lia.
  destruct n as [| n]; cbn [Nat.eqb].
  - change (Z.min (20 * Z.of_nat 1) 40) with (0 + 20).
    apply exact_add; [exact Z0 | cbn; tauto].
  - rewrite Z.min_r by lia. change 40 with (0 + 40) at 1.
    apply exact_add; [exact Z0 | cbn; tauto].
Qed.

Lemma exact_final (x : F64.float) (n : Z) :
  exact_inv x n -> final_cents x = Z.min 100 n.
Proof.
  intros [[Hs Hn] | [Hb Hn]].
  - apply mem_In in Hs. pose proof small_scores_clamped as E.
    rewrite forallb_forall in E. specialize (E x Hs).
    apply Z.eqb_eq in E. now rewrite E, Hn.
  - destruct (is_big_level x Hb) as [_ ->]. lia.
Qed.

Lemma long_domain_test (n : nat) :
  negb (n =? 0)%nat && (25 <? n)%nat = (25 <? n)%nat.
Proof. destruct n; [reflexivity |]. reflexivity. Qed.

Lemma flagged_nonempty (tldextract : string -> ExtractResult) (url : string) :
  match simple_typosquat_check tldextract url with
  | Some ts => nonempty ts
  | None => false
  end = flagged tldextract url.
Proof.
  unfold flagged.
  destruct (simple_typosquat_check tldextract url) as [ts |] eqn:E;
    [| reflexivity].
  exact (typosquat_nonempty tldextract url ts E).
Qed.

Lemma fold_opt (b : bool) (w x : F64.float) :
  fold_left F64.add (opt b w) x = if b then F64.add x w else x.
Proof. destruct b; reflexivity. Qed.

(** The score after the rules of one URL is the score before plus the
    weights the URL triggers, added in the order of the rules. *)
Lemma analyze_url_score (tldextract : string -> ExtractResult)
  (net : network) (st : astate) (url : string) :
  score (analyze_url tldextract net st url) =
    fold_left F64.add
      (url_weights tldextract net (List.length (requests st)) url) (score st) /\
  List.length (requests (analyze_url tldextract net st url)) =
    S (S (List.length (requests st))).
Proof.
  split.
  - unfold analyze_url.
    destruct (static_rules_score tldextract url st) as [S4 Q4].
    set (st4 := brand_rule tldextract url
                  (length_rule tldextract url (ip_rule url (https_rule url st))))
      in *.
    destruct (cert_rule_spec tldextract net url (fetch_rule net url st4))
      as (_ & _ & ->).
    destruct (fetch_rule_spec net url st4) as [_ ->].
    rewrite Q4, length_app, Nat.add_1_r. cbn [List.length].
    rewrite fetch_rule_score, Q4, S4.
    rewrite long_domain_test, flagged_nonempty.
    unfold url_weights. rewrite !fold_left_app, !fold_opt.
    destruct (net (List.length (requests st)) url) as [| code h];
      cbn [fetch_weights fold_left]; [reflexivity |].
    rewrite fold_opt. reflexivity.
  - destruct (analyze_url_spec tldextract net st url) as [_ ->].
    rewrite length_app. cbn [url_requests List.length]. lia.
Qed.

Lemma fold_analyze_url_score (tldextract : string -> ExtractResult)
  (net : network) (urls : list string) : forall st : astate,
  score (fold_left (analyze_url tldextract net) urls st) =
    fold_left F64.add
      (all_url_weights tldextract net (List.length (requests st)) urls)
      (score st).
Proof.
  induction urls as [| u l IH]; intros st; cbn [fold_left all_url_weights];
    [reflexivity |].
  destruct (analyze_url_score tldextract net st u) as [Hs Hq].
  rewrite IH, Hs, Hq, fold_left_app. reflexivity.
Qed.

Lemma analyze_state_score (tldextract : string -> ExtractResult)
  (net : network) (message : string) (urls : list string) :
  score (analyze_state tldextract net message urls) =
    fold_left F64.add (triggered_weights tldextract net message urls) F64.zero.
Proof.
  unfold analyze_state, triggered_weights.
  rewrite fold_analyze_url_score, fold_left_app.
  destruct (keyword_rule_reasons message) as [_ ->]. cbn [List.length].
  f_equal. unfold keyword_rule, keyword_weights.
  destruct (kw_count (lower message)); reflexivity.
Qed.

Lemma triggered_weights_exact (tldextract : string -> ExtractResult)
  (net : network) (message : string) (urls : list string) :
  exact_inv
    (fold_left F64.add (triggered_weights tldextract net message urls) F64.zero)
    (total_cents tldextract net message urls).
Proof.
  unfold triggered_weights, total_cents. rewrite fold_left_app.
  apply exact_all_urls, exact_keyword.
Qed.

(** C1. For every message, URL list and network behaviour, the score
    returned by [analyze_payload] is the sum of the weights of the rules
    that triggered (keyword rule first, then the rules of each URL in
    order), clamped above at 1.0 and rounded to two decimals: counted
    exactly, it is [min(1.00, total)] where [total] adds 0.20 per
    triggered HTTPS or IP rule, 0.05 per long domain or failed fetch,
    0.15 per brand or certificate reason, 0.10 per redirect chain and
    [min(0.2 N, 0.4)] for [N] keywords. The score therefore lies in
    [0.0, 1.0] with two decimals, and the verdict is the threshold
    function of it: "malicious" from 0.6, "suspicious" from 0.3 and
    below 0.6, "safe" below 0.3, the boundaries 0.3 and 0.6 included
    upwards. *)
Theorem analyze_payload_score_verdict
  (tldextract : string -> ExtractResult) (net : network)
  (message : string) (urls : list string) :
  let '(v, s, _) := analyze_payload tldextract net message urls in
  let total :=
    fold_left F64.add (triggered_weights tldextract net message urls)
      F64.zero in
  let clamped := if F64.gtb total F64.one then F64.one else total in
  let k := Z.min 100 (total_cents tldextract net message urls) in
  s = F64.round2 clamped /\
  s = F64.dec k 100 /\ 0 <= k <= 100 /\
  v = verdict_of_cents k /\
  (exists k : Z,
      0 <= k <= 100 /\ s = F64.dec k 100 /\ v = verdict_of_cents k) /\
  F64.leb F64.zero s = true /\ F64.leb s F64.one = true /\
  v = verdict_of s /\
  verdict_of (F64.dec 30 100) = "suspicious" /\
  verdict_of (F64.dec 60 100) = "malicious" /\
  (forall k : Z, verdict_of_cents k =
     if 60 <=? k then "malicious" else if 30 <=? k then "suspicious" else "safe").
Proof.
  unfold analyze_payload.
  pose proof (analyze_state_inv tldextract net message urls) as I.
  pose proof (analyze_state_score tldextract net message urls) as Hsum.
  pose proof (triggered_weights_exact tldextract net message urls) as Hex.
  rewrite <- Hsum in Hex. apply exact_final in Hex.
  set (x := score (analyze_state tldextract net message urls)) in *.
  destruct (returned_score_cents x I) as [Hr Hb].
  pose proof (score_inv_final x I) as H. unfold final_ok in H.
  repeat (apply andb_true_iff in H as [H ?]).
  apply Z.leb_le in H.
  repeat match goal with
         | E : (_ <=? _) = true |- _ => apply Z.leb_le in E
         | E : String.eqb _ _ = true |- _ => apply String.eqb_eq in E
         | E : sf_eqb _ _ = true |- _ => apply sf_eqb_eq in E
         end.
  fold (final_cents x) in *. rewrite <- Hsum. fold (clamp x).
  rewrite <- Hex.
  split; [reflexivity |]. split; [exact Hr |]. split; [exact Hb |].
  split; [assumption |].
  split; [exists (final_cents x); repeat split; assumption |].
  repeat split; try assumption; try reflexivity.
Qed.
